(** * alx_travel_app: listings models, serializers and the seed command

    A shallow embedding of [listings/models.py], [listings/serializers.py]
    and [listings/management/commands/seed.py].

    The code is a Django application: most of what it does is done through
    the object-relational layer.  The tables are modelled as lists of rows in
    insertion order, a manager call as a function on the world, and the
    command as a computation in a state-and-exception monad in which the
    database keeps what was written before an exception (the command runs in
    autocommit mode, without a transaction).

    A row holds the values the model instance was given: a Python float is a
    binary64 float, and the conversion of a value to the type of its column
    by the database (the rounding of a [DecimalField] to two places) is not
    modelled.  A foreign key holds the primary key it points to.  The user
    model is not part of the three files; which of its columns are unique is
    a parameter ([User.Schema]).

    Everything the command takes from outside is a stream read through a
    counter in the world: the outputs of the [random] module, the readings of
    [timezone.now()] and the values of [uuid.uuid4()] (which are inserted as
    they come: a collision of two UUIDs is not modelled). *)

From Stdlib Require Import ZArith List String Ascii Bool Lia.
From Stdlib Require Import Permutation Sorted DecimalString DecimalZ.
From Stdlib Require Import Floats.PrimFloat.
Import ListNotations.

Local Open Scope Z_scope.
Local Open Scope string_scope.

(* ------------------------------------------------------------------ *)
(** ** Python values used by the code *)

(** [str(i)] for a Python int. *)
Definition str (i : Z) : string := NilZero.string_of_int (Z.to_int i).

(** [float(n)] for a non-negative int below 2^53, where the conversion is
    exact. *)
Fixpoint float_of_pos (p : positive) : float :=
  match p with
  | xH => 1%float
  | xO q => (2 * float_of_pos q)%float
  | xI q => (2 * float_of_pos q + 1)%float
  end.

Definition float_of_N (n : N) : float :=
  match n with
  | N0 => 0%float
  | Npos p => float_of_pos p
  end.

(** The int operand of [float * int] is converted to float first. *)
Definition float_of_Z (z : Z) : float :=
  match z with
  | Z0 => 0%float
  | Zpos p => float_of_pos p
  | Zneg p => (- float_of_pos p)%float
  end.

(** [range(n)]: empty when [n <= 0]. *)
Definition range (n : Z) : list Z := map Z.of_nat (seq 0 (Z.to_nat n)).

(** A UUID is a 128-bit number. *)
Definition UUID := N.

(** A [datetime] is its number of microseconds since the epoch (UTC), a
    [date] its number of days since the epoch. *)
Definition datetime := Z.
Definition date := Z.

Definition microseconds_per_day : Z := 86400 * 1000000.

(** [dt.date()] *)
Definition date_of (dt : datetime) : date := dt / microseconds_per_day.

(** [d + timedelta(days=n)] and [(d2 - d1).days] *)
Definition date_add_days (d : date) (n : Z) : date := d + n.
Definition days_between (d1 d2 : date) : Z := d2 - d1.

(* ------------------------------------------------------------------ *)
(** ** The models ([listings/models.py]) *)

(** What a foreign key does when the row it points to is deleted. *)
Inductive OnDelete := CASCADE | PROTECT | DO_NOTHING.

(** The user model is [settings.AUTH_USER_MODEL]; its class is not part of
    the three files.  The fields below are the ones the command and the
    serializers use.  (The password hash, [is_staff], [is_active] and
    [date_joined] are never read and are left out.) *)
Module User.
Record t := {
  id : Z;
  username : string;
  email : string;
  first_name : string;
  last_name : string;
  role : string;
  is_superuser : bool
}.

(** Which of the two columns the absent user model declares unique.
    Django's [AbstractUser] is [{| unique_username := true;
    unique_email := false |}]. *)
Record Schema := {
  unique_username : bool;
  unique_email : bool
}.

Definition AbstractUser : Schema :=
  {| unique_username := true; unique_email := false |}.
End User.

Module Listing.
Record t := {
  listing_id : UUID;
  host : Z;                    (* host_id: primary key of a User *)
  title : string;
  description : string;
  address : string;
  city : string;
  country : string;
  price_per_night : float;
  property_type : string;
  num_bedrooms : Z;
  num_bathrooms : Z;
  max_guests : Z;
  amenities : string;
  created_at : datetime;
  updated_at : datetime
}.

Definition PROPERTY_TYPE_CHOICES : list (string * string) :=
  [ ("room", "Room"); ("mansion", "Mansion");
    ("countryside", "Countryside"); ("cabin", "Cabin");
    ("apartment", "Apartment"); ("villa", "Villa") ].

Definition host_on_delete : OnDelete := CASCADE.
End Listing.

Module Booking.
Record t := {
  booking_id : UUID;
  property : UUID;             (* property_id: primary key of a Listing *)
  user : Z;                    (* user_id: primary key of a User *)
  check_in_date : date;
  check_out_date : date;
  total_price : float;
  status : string;
  booked_at : datetime
}.

Definition STATUS_CHOICES : list (string * string) :=
  [ ("pending", "Pending"); ("confirmed", "Confirmed");
    ("canceled", "Canceled") ].

Definition property_on_delete : OnDelete := CASCADE.
Definition user_on_delete : OnDelete := CASCADE.
End Booking.

Module Review.
Record t := {
  review_id : UUID;
  property : UUID;
  user : Z;
  rating : Z;
  comment : string;
  created_at : datetime
}.

Definition property_on_delete : OnDelete := CASCADE.
Definition user_on_delete : OnDelete := CASCADE.

(** [Meta.unique_together = ('property', 'user')] *)
Definition unique_together (r : t) : UUID * Z := (property r, user r).
End Review.

(* ------------------------------------------------------------------ *)
(** ** The world *)

Inductive Table := TUser | TListing | TBooking | TReview.

(** The manager calls that write, in the order they were made. *)
Inductive OrmCall :=
| Insert (t : Table)
| DeleteAll (t : Table)
| DeleteUsersNotSuperuser
| DeleteListing (pk : UUID).

Inductive Style := NOTICE | WARNING | SUCCESS.

Record Env := {
  random_outputs : nat -> N;   (* raw output of the generator, per call *)
  now_readings : nat -> datetime;
  uuid4_values : nat -> UUID
}.

Record World := {
  users : list User.t;
  listings : list Listing.t;
  bookings : list Booking.t;
  reviews : list Review.t;
  orm_calls : list OrmCall;
  stdout : list (Style * string);
  env : Env;
  random_calls : nat;
  now_calls : nat;
  uuid4_calls : nat
}.

Definition set_users (v : list User.t) (w : World) : World :=
  {| users := v; listings := listings w; bookings := bookings w;
     reviews := reviews w; orm_calls := orm_calls w; stdout := stdout w;
     env := env w; random_calls := random_calls w; now_calls := now_calls w;
     uuid4_calls := uuid4_calls w |}.

Definition set_listings (v : list Listing.t) (w : World) : World :=
  {| users := users w; listings := v; bookings := bookings w;
     reviews := reviews w; orm_calls := orm_calls w; stdout := stdout w;
     env := env w; random_calls := random_calls w; now_calls := now_calls w;
     uuid4_calls := uuid4_calls w |}.

Definition set_bookings (v : list Booking.t) (w : World) : World :=
  {| users := users w; listings := listings w; bookings := v;
     reviews := reviews w; orm_calls := orm_calls w; stdout := stdout w;
     env := env w; random_calls := random_calls w; now_calls := now_calls w;
     uuid4_calls := uuid4_calls w |}.

Definition set_reviews (v : list Review.t) (w : World) : World :=
  {| users := users w; listings := listings w; bookings := bookings w;
     reviews := v; orm_calls := orm_calls w; stdout := stdout w;
     env := env w; random_calls := random_calls w; now_calls := now_calls w;
     uuid4_calls := uuid4_calls w |}.

Definition log_call (c : OrmCall) (w : World) : World :=
  {| users := users w; listings := listings w; bookings := bookings w;
     reviews := reviews w; orm_calls := (orm_calls w ++ [c])%list;
     stdout := stdout w;
     env := env w; random_calls := random_calls w; now_calls := now_calls w;
     uuid4_calls := uuid4_calls w |}.

Definition print (line : Style * string) (w : World) : World :=
  {| users := users w; listings := listings w; bookings := bookings w;
     reviews := reviews w; orm_calls := orm_calls w;
     stdout := (stdout w ++ [line])%list;
     env := env w; random_calls := random_calls w; now_calls := now_calls w;
     uuid4_calls := uuid4_calls w |}.

Definition tick_random (w : World) : World :=
  {| users := users w; listings := listings w; bookings := bookings w;
     reviews := reviews w; orm_calls := orm_calls w; stdout := stdout w;
     env := env w; random_calls := S (random_calls w);
     now_calls := now_calls w; uuid4_calls := uuid4_calls w |}.

Definition tick_now (w : World) : World :=
  {| users := users w; listings := listings w; bookings := bookings w;
     reviews := reviews w; orm_calls := orm_calls w; stdout := stdout w;
     env := env w; random_calls := random_calls w;
     now_calls := S (now_calls w); uuid4_calls := uuid4_calls w |}.

Definition tick_uuid4 (w : World) : World :=
  {| users := users w; listings := listings w; bookings := bookings w;
     reviews := reviews w; orm_calls := orm_calls w; stdout := stdout w;
     env := env w; random_calls := random_calls w;
     now_calls := now_calls w; uuid4_calls := S (uuid4_calls w) |}.

(* ------------------------------------------------------------------ *)
(** ** State and exceptions *)

Inductive Exception :=
| IntegrityError
| DoesNotExist
| MultipleObjectsReturned
| ProtectedError
| IndexError
| AttributeError.

Inductive Result (A : Type) :=
| Ok (a : A)
| Raise (e : Exception).
Arguments Ok {A} a.
Arguments Raise {A} e.

Definition M (A : Type) : Type := World -> Result A * World.

Definition ret {A} (a : A) : M A := fun w => (Ok a, w).

Definition raise {A} (e : Exception) : M A := fun w => (Raise e, w).

Definition bind {A B} (m : M A) (k : A -> M B) : M B :=
  fun w =>
    match m w with
    | (Ok a, w') => k a w'
    | (Raise e, w') => (Raise e, w')
    end.

Definition modify (f : World -> World) : M unit := fun w => (Ok tt, f w).

Definition gets {A} (f : World -> A) : M A := fun w => (Ok (f w), w).

Declare Scope seed_scope.
Delimit Scope seed_scope with seed.
Notation "x <- m ;; k" := (bind m (fun x => k))
  (at level 61, m at next level, right associativity) : seed_scope.
Notation "m ;; k" := (bind m (fun _ => k))
  (at level 61, right associativity) : seed_scope.
Local Open Scope seed_scope.

(** [for x in xs: body(x)], collecting what the body appends to a list. *)
Fixpoint forM {A B} (xs : list A) (body : A -> M B) : M (list B) :=
  match xs with
  | [] => ret []
  | x :: xs' =>
      b <- body x ;;
      bs <- forM xs' body ;;
      ret (b :: bs)
  end.

(** [for x in xs: body(x)] when the body appends nothing. *)
Fixpoint for_each {A} (xs : list A) (body : A -> M unit) : M unit :=
  match xs with
  | [] => ret tt
  | x :: xs' => body x ;; for_each xs' body
  end.

(* ------------------------------------------------------------------ *)
(** ** The outside: stdout, random, clock, uuid4 *)

(** [self.stdout.write(self.style.STYLE(msg))] *)
Definition write (s : Style) (msg : string) : M unit := modify (print (s, msg)).

Definition next_random : M N :=
  fun w => (Ok (random_outputs (env w) (random_calls w)), tick_random w).

(** [random.choice(seq)] is [seq[randbelow(len(seq))]], and an [IndexError]
    on an empty sequence. *)
Definition random_choice {A} (xs : list A) : M A :=
  match xs with
  | [] => raise IndexError
  | x :: _ =>
      r <- next_random ;;
      ret (nth (N.to_nat (r mod N.of_nat (List.length xs))) xs x)
  end.

(** [random.randint(a, b)] is [a + randbelow(b - a + 1)]. *)
Definition random_randint (a b : Z) : M Z :=
  r <- next_random ;;
  ret (a + Z.of_N r mod (b - a + 1)).

(** [random.random()] is a 53-bit integer times 2^-53. *)
Definition random_random : M float :=
  r <- next_random ;;
  ret (float_of_N (r mod 2 ^ 53) * 0x1p-53)%float.

(** [random.uniform(a, b)] is [a + (b - a) * random()]. *)
Definition random_uniform (a b : float) : M float :=
  x <- random_random ;;
  ret (a + (b - a) * x)%float.

(** [timezone.now()] *)
Definition timezone_now : M datetime :=
  fun w => (Ok (now_readings (env w) (now_calls w)), tick_now w).

(** [uuid.uuid4()] *)
Definition uuid4 : M UUID :=
  fun w => (Ok (uuid4_values (env w) (uuid4_calls w)), tick_uuid4 w).

(* ------------------------------------------------------------------ *)
(** ** The managers *)

(** The primary key the database gives a new user row. *)
Definition next_user_id (us : list User.t) : Z :=
  1 + fold_right Z.max 0 (map User.id us).

(** [User.objects.filter(email=email).exists()] *)
Definition User_exists_email (email : string) : M bool :=
  gets (fun w => existsb (fun u => User.email u =? email) (users w)).

(** [User.objects.get(email=email)] *)
Definition User_get_email (email : string) : M User.t :=
  fun w =>
    match filter (fun u => User.email u =? email) (users w) with
    | [] => (Raise DoesNotExist, w)
    | [u] => (Ok u, w)
    | _ :: _ :: _ => (Raise MultipleObjectsReturned, w)
    end.

(** [User.objects.create_user(username=.., email=.., password=..,
    first_name=.., last_name=.., role=..)]: the row is inserted unless a
    column the schema declares unique already holds the value. *)
Definition User_create_user (s : User.Schema)
    (username email password first_name last_name role : string) : M User.t :=
  fun w =>
    if (User.unique_username s
          && existsb (fun u => User.username u =? username) (users w))
       || (User.unique_email s
          && existsb (fun u => User.email u =? email) (users w))
    then (Raise IntegrityError, w)
    else
      let u := {| User.id := next_user_id (users w);
                  User.username := username;
                  User.email := email;
                  User.first_name := first_name;
                  User.last_name := last_name;
                  User.role := role;
                  User.is_superuser := false |} in
      (Ok u, log_call (Insert TUser) (set_users (users w ++ [u])%list w)).

(** The rows of a table that point to deleted rows, under the policy of the
    foreign key: what is left of the table, or the error. *)
Definition on_delete {R} (policy : OnDelete) (points_to_deleted : R -> bool)
    (rows : list R) : Result (list R) :=
  match policy with
  | CASCADE => Ok (filter (fun r => negb (points_to_deleted r)) rows)
  | PROTECT =>
      if existsb points_to_deleted rows then Raise ProtectedError else Ok rows
  | DO_NOTHING => Ok rows
  end.

Definition mem_uuid (pk : UUID) (pks : list UUID) : bool :=
  existsb (N.eqb pk) pks.

Definition mem_id (pk : Z) (pks : list Z) : bool :=
  existsb (Z.eqb pk) pks.

(** Deleting the listings that satisfy [doomed], with what the foreign keys
    of [Booking.property] and [Review.property] say. *)
Definition delete_listings (doomed : Listing.t -> bool) : M unit :=
  fun w =>
    let pks := map Listing.listing_id (filter doomed (listings w)) in
    match on_delete Booking.property_on_delete
            (fun b => mem_uuid (Booking.property b) pks) (bookings w),
          on_delete Review.property_on_delete
            (fun r => mem_uuid (Review.property r) pks) (reviews w) with
    | Ok bs, Ok rs =>
        (Ok tt,
         set_listings (filter (fun l => negb (doomed l)) (listings w))
           (set_reviews rs (set_bookings bs w)))
    | Raise e, _ => (Raise e, w)
    | _, Raise e => (Raise e, w)
    end.

(** Deleting the users that satisfy [doomed]: their listings go by
    [Listing.host], and bookings and reviews by [user]. *)
Definition delete_users (doomed : User.t -> bool) : M unit :=
  fun w =>
    let pks := map User.id (filter doomed (users w)) in
    let hosted_by_doomed := fun l => mem_id (Listing.host l) pks in
    match
      match Listing.host_on_delete with
      | CASCADE => delete_listings hosted_by_doomed w
      | PROTECT =>
          if existsb hosted_by_doomed (listings w)
          then (Raise ProtectedError, w) else (Ok tt, w)
      | DO_NOTHING => (Ok tt, w)
      end
    with
    | (Raise e, _) => (Raise e, w)
    | (Ok _, w1) =>
        match on_delete Booking.user_on_delete
                (fun b => mem_id (Booking.user b) pks) (bookings w1),
              on_delete Review.user_on_delete
                (fun r => mem_id (Review.user r) pks) (reviews w1) with
        | Ok bs, Ok rs =>
            (Ok tt,
             set_users (filter (fun u => negb (doomed u)) (users w))
               (set_reviews rs (set_bookings bs w1)))
        | Raise e, _ => (Raise e, w)
        | _, Raise e => (Raise e, w)
        end
    end.

(** [Review.objects.all().delete()] *)
Definition Review_delete_all : M unit :=
  modify (fun w => log_call (DeleteAll TReview) (set_reviews [] w)).

(** [Booking.objects.all().delete()] *)
Definition Booking_delete_all : M unit :=
  modify (fun w => log_call (DeleteAll TBooking) (set_bookings [] w)).

(** [Listing.objects.all().delete()] *)
Definition Listing_delete_all : M unit :=
  modify (log_call (DeleteAll TListing)) ;;
  delete_listings (fun _ => true).

(** [listing.delete()] *)
Definition Listing_delete (listing : Listing.t) : M unit :=
  modify (log_call (DeleteListing (Listing.listing_id listing))) ;;
  delete_listings
    (fun l => N.eqb (Listing.listing_id l) (Listing.listing_id listing)).

(** [User.objects.filter(is_superuser=False).delete()] *)
Definition User_delete_not_superuser : M unit :=
  modify (log_call DeleteUsersNotSuperuser) ;;
  delete_users (fun u => negb (User.is_superuser u)).

(** [Listing.objects.create(host=.., title=.., ...)]: the primary key is the
    default [uuid.uuid4], [created_at] is [auto_now_add] and [updated_at] is
    [auto_now].  The instance that is returned holds the values it was
    given. *)
Definition Listing_create (host : User.t)
    (title description address city country : string)
    (price_per_night : float) (property_type : string)
    (num_bedrooms num_bathrooms max_guests : Z) (amenities : string)
    : M Listing.t :=
  pk <- uuid4 ;;
  created <- timezone_now ;;
  updated <- timezone_now ;;
  let l := {| Listing.listing_id := pk;
              Listing.host := User.id host;
              Listing.title := title;
              Listing.description := description;
              Listing.address := address;
              Listing.city := city;
              Listing.country := country;
              Listing.price_per_night := price_per_night;
              Listing.property_type := property_type;
              Listing.num_bedrooms := num_bedrooms;
              Listing.num_bathrooms := num_bathrooms;
              Listing.max_guests := max_guests;
              Listing.amenities := amenities;
              Listing.created_at := created;
              Listing.updated_at := updated |} in
  modify (fun w =>
            log_call (Insert TListing) (set_listings (listings w ++ [l])%list w)) ;;
  ret l.


(** [Booking.objects.create(property=.., user=.., ...)] *)
Definition Booking_create (property : Listing.t) (user : User.t)
    (check_in_date check_out_date : date) (total_price : float)
    (status : string) : M Booking.t :=
  pk <- uuid4 ;;
  booked <- timezone_now ;;
  let b := {| Booking.booking_id := pk;
              Booking.property := Listing.listing_id property;
              Booking.user := User.id user;
              Booking.check_in_date := check_in_date;
              Booking.check_out_date := check_out_date;
              Booking.total_price := total_price;
              Booking.status := status;
              Booking.booked_at := booked |} in
  modify (fun w =>
            log_call (Insert TBooking) (set_bookings (bookings w ++ [b])%list w)) ;;
  ret b.

Definition pair_eqb (p q : UUID * Z) : bool :=
  N.eqb (fst p) (fst q) && Z.eqb (snd p) (snd q).

(** [Review.objects.filter(property=listing, user=reviewer).exists()] *)
Definition Review_exists (property : Listing.t) (user : User.t) : M bool :=
  gets (fun w =>
          existsb (fun r => pair_eqb (Review.unique_together r)
                              (Listing.listing_id property, User.id user))
            (reviews w)).

(** [Review.objects.create(property=.., user=.., rating=.., comment=..)]:
    the insert is refused when a row with the same [unique_together] pair is
    in the table. *)
Definition Review_create (property : Listing.t) (user : User.t)
    (rating : Z) (comment : string) : M Review.t :=
  pk <- uuid4 ;;
  created <- timezone_now ;;
  let r := {| Review.review_id := pk;
              Review.property := Listing.listing_id property;
              Review.user := User.id user;
              Review.rating := rating;
              Review.comment := comment;
              Review.created_at := created |} in
  fun w =>
    if existsb (fun x => pair_eqb (Review.unique_together x)
                           (Review.unique_together r)) (reviews w)
    then (Raise IntegrityError, w)
    else (Ok r, log_call (Insert TReview) (set_reviews (reviews w ++ [r])%list w)).

(* ------------------------------------------------------------------ *)
(** ** The command ([listings/management/commands/seed.py]) *)

Record Options := {
  clear : bool;
  num_users : Z;
  num_listings_per_host : Z;
  num_bookings_per_listing : Z;
  num_reviews_per_listing : Z
}.

(** The defaults of [add_arguments]. *)
Definition default_options : Options :=
  {| clear := false; num_users := 5; num_listings_per_host := 3;
     num_bookings_per_listing := 2; num_reviews_per_listing := 1 |}.

(** Lines 62-68: the body of [if options['clear']]. *)
Definition clear_existing_data : M unit :=
  write WARNING "Clearing existing data..." ;;
  Review_delete_all ;;
  Booking_delete_all ;;
  Listing_delete_all ;;
  User_delete_not_superuser ;;
  write SUCCESS "Existing data cleared.".

Definition sample_email (i : Z) : string := "user" ++ str i ++ "@example.com".

(** Lines 79-93: the body of [for i in range(num_users)]; the result is the
    user appended to [users]. *)
Definition create_sample_user (s : User.Schema) (i : Z) : M User.t :=
  let email := sample_email i in
  found <- User_exists_email email ;;
  if negb found then
    role <- random_choice ["guest"; "host"] ;;
    user <- User_create_user s ("user" ++ str i) email "password123"
              ("First" ++ str i) ("Last" ++ str i) role ;;
    write SUCCESS
      ("Created user: " ++ User.email user ++ " (" ++ User.role user ++ ")") ;;
    ret user
  else
    user <- User_get_email email ;;
    write WARNING ("User " ++ email ++ " already exists, skipping creation.") ;;
    ret user.

(** Lines 76-93. *)
Definition create_sample_users (s : User.Schema) (num_users : Z)
    : M (list User.t) :=
  write NOTICE ("Creating " ++ str num_users ++ " sample users...") ;;
  forM (range num_users) (create_sample_user s).

Definition is_host (u : User.t) : bool := User.role u =? "host".
Definition is_guest (u : User.t) : bool := User.role u =? "guest".

(** Lines 98-109: the body of [if not hosts]; the result is [hosts] after
    it.  ([users.append(host)] has no effect on what follows: [guests] was
    computed on line 96.) *)
Definition create_fallback_host (s : User.Schema) (hosts : list User.t)
    : M (list User.t) :=
  match hosts with
  | [] =>
      write WARNING
        "No hosts created. Creating at least one host for listings." ;;
      host <- User_create_user s "auto_host" "auto_host@example.com"
                "password123" "Auto" "Host" "host" ;;
      ret [host]
  | _ :: _ => ret hosts
  end.

Definition CITIES : list string :=
  ["New York"; "London"; "Paris"; "Tokyo"; "Sydney"].

(** Lines 116-131: the body of the inner loop over [range
    (num_listings_per_host)]; keyword arguments are evaluated left to
    right. *)
Definition create_sample_listing (host : User.t) (i : Z) : M Listing.t :=
  kind <- random_choice ["Cozy Room"; "Spacious Mansion"; "Rustic Cabin"] ;;
  what <- random_choice ["place"; "villa"; "apartment"] ;;
  place <- random_choice CITIES ;;
  number <- random_randint 1 100 ;;
  city <- random_choice CITIES ;;
  country <- random_choice ["USA"; "UK"; "France"; "Japan"; "Australia"] ;;
  price_per_night <- random_uniform 50 500 ;;
  property_type <- random_choice (map fst Listing.PROPERTY_TYPE_CHOICES) ;;
  num_bedrooms <- random_randint 1 5 ;;
  num_bathrooms <- random_randint 1 3 ;;
  max_guests <- random_randint 1 10 ;;
  amenities <- random_choice
    ["WiFi, Pool"; "Gym, Kitchen"; "Parking, Balcony"; "Pet-Friendly"] ;;
  listing <- Listing_create host
    (User.first_name host ++ "'s " ++ kind ++ " " ++ str (i + 1))
    ("A beautiful " ++ what ++ " in " ++ place ++ ".")
    (str number ++ " Main St")
    city country price_per_night property_type
    num_bedrooms num_bathrooms max_guests amenities ;;
  write SUCCESS
    ("Created listing: " ++ Listing.title listing ++ " by "
       ++ User.email host) ;;
  ret listing.

(** Lines 112-131. *)
Definition create_sample_listings (hosts : list User.t)
    (num_listings_per_host : Z) : M (list Listing.t) :=
  write NOTICE "Creating sample listings..." ;;
  per_host <- forM hosts (fun host =>
                forM (range num_listings_per_host)
                  (create_sample_listing host)) ;;
  ret (List.concat per_host).

(** Lines 137-152: the body of the inner loop over [range
    (num_bookings_per_listing)]. *)
Definition create_sample_booking (guests : list User.t) (listing : Listing.t)
    : M unit :=
  match guests with
  | _ :: _ =>
      guest <- random_choice guests ;;
      now <- timezone_now ;;
      offset <- random_randint 1 30 ;;
      let check_in := date_add_days (date_of now) offset in
      nights <- random_randint 2 7 ;;
      let check_out := date_add_days check_in nights in
      let total_price :=
        (Listing.price_per_night listing
           * float_of_Z (days_between check_in check_out))%float in
      status <- random_choice ["pending"; "confirmed"; "canceled"] ;;
      booking <- Booking_create listing guest check_in check_out
                   total_price status ;;
      write SUCCESS
        ("Created booking for " ++ Listing.title listing ++ " by "
           ++ User.email guest)
  | [] =>
      write WARNING
        ("No guest users available to create booking for "
           ++ Listing.title listing)
  end.

(** Lines 134-152. *)
Definition create_sample_bookings (listings : list Listing.t)
    (guests : list User.t) (num_bookings_per_listing : Z) : M unit :=
  write NOTICE "Creating sample bookings..." ;;
  for_each listings (fun listing =>
    for_each (range num_bookings_per_listing) (fun _ =>
      create_sample_booking guests listing)).

Definition REVIEW_COMMENTS : list string :=
  ["Great place!"; "Highly recommended."; "Clean and cozy.";
   "Had a wonderful stay."; "Excellent value."].

(** Lines 158-175: the body of the inner loop over [range
    (num_reviews_per_listing)]. *)
Definition create_sample_review (guests : list User.t) (listing : Listing.t)
    : M unit :=
  match guests with
  | _ :: _ =>
      reviewer <- random_choice guests ;;
      reviewed <- Review_exists listing reviewer ;;
      if negb reviewed then
        rating <- random_randint 1 5 ;;
        comment <- random_choice REVIEW_COMMENTS ;;
        review <- Review_create listing reviewer rating comment ;;
        write SUCCESS
          ("Created review for " ++ Listing.title listing ++ " by "
             ++ User.email reviewer)
      else
        write WARNING
          ("User " ++ User.email reviewer ++ " already reviewed "
             ++ Listing.title listing ++ ", skipping.")
  | [] =>
      write WARNING
        ("No guest users available to create review for "
           ++ Listing.title listing)
  end.

(** Lines 155-175. *)
Definition create_sample_reviews (listings : list Listing.t)
    (guests : list User.t) (num_reviews_per_listing : Z) : M unit :=
  write NOTICE "Creating sample reviews..." ;;
  for_each listings (fun listing =>
    for_each (range num_reviews_per_listing) (fun _ =>
      create_sample_review guests listing)).

(** Lines 60-131 of [handle]: everything before the bookings; the result is
    the pair of [listings] and [guests] the two last loops run over. *)
Definition seed_users_and_listings (s : User.Schema) (options : Options)
    : M (list Listing.t * list User.t) :=
  write NOTICE "Starting database seeding..." ;;
  (if clear options then clear_existing_data else ret tt) ;;
  users <- create_sample_users s (num_users options) ;;
  let hosts := filter is_host users in
  let guests := filter is_guest users in
  hosts <- create_fallback_host s hosts ;;
  listings <- create_sample_listings hosts (num_listings_per_host options) ;;
  ret (listings, guests).

(** Lines 133-178 of [handle]. *)
Definition seed_bookings_and_reviews (options : Options)
    (listings : list Listing.t) (guests : list User.t) : M unit :=
  create_sample_bookings listings guests (num_bookings_per_listing options) ;;
  create_sample_reviews listings guests (num_reviews_per_listing options) ;;
  write SUCCESS "Database seeding completed successfully!".

(** [Command.handle] *)
Definition handle (s : User.Schema) (options : Options) : M unit :=
  lg <- seed_users_and_listings s options ;;
  seed_bookings_and_reviews options (fst lg) (snd lg).

(** A world with empty tables, nothing printed and nothing read yet. *)
Definition empty_world (e : Env) : World :=
  {| users := []; listings := []; bookings := []; reviews := [];
     orm_calls := []; stdout := []; env := e;
     random_calls := 0; now_calls := 0; uuid4_calls := 0 |}.


(* ------------------------------------------------------------------ *)
(** ** The serializers ([listings/serializers.py])

    The classes are declarations; what they do is what
    [serializers.ModelSerializer] does with them.  A class is modelled by
    what it declares, and [get_fields], [to_internal_value] and
    [to_representation] follow the framework's functions of those names. *)

(** Primitive data, as it is read from and written to a request. *)
#[local] Set Warnings "-register-all".
Inductive value :=
| VNone
| VBool (b : bool)
| VInt (z : Z)
| VFloat (f : float)
| VStr (s : string)
| VUuid (u : UUID)
| VList (vs : list value)
| VDict (kvs : list (string * value)).

(** A model instance as the serializers see it: attribute name to value.  A
    foreign key attribute holds the primary key it points to. *)
Definition instance := list (string * value).

Fixpoint getattr (inst : list (string * value)) (name : string)
    : option value :=
  match inst with
  | [] => None
  | (k, v) :: rest => if k =? name then Some v else getattr rest name
  end.

Fixpoint setattr (inst : instance) (name : string) (v : value) : instance :=
  match inst with
  | [] => [(name, v)]
  | (k, x) :: rest =>
      if k =? name then (k, v) :: rest else (k, x) :: setattr rest name v
  end.

Definition User_attrs (u : User.t) : instance :=
  [ ("id", VInt (User.id u)); ("username", VStr (User.username u));
    ("email", VStr (User.email u)); ("first_name", VStr (User.first_name u));
    ("last_name", VStr (User.last_name u)); ("role", VStr (User.role u));
    ("is_superuser", VBool (User.is_superuser u)) ].

Definition Listing_attrs (l : Listing.t) : instance :=
  [ ("listing_id", VUuid (Listing.listing_id l));
    ("host", VInt (Listing.host l));
    ("title", VStr (Listing.title l));
    ("description", VStr (Listing.description l));
    ("address", VStr (Listing.address l));
    ("city", VStr (Listing.city l));
    ("country", VStr (Listing.country l));
    ("price_per_night", VFloat (Listing.price_per_night l));
    ("property_type", VStr (Listing.property_type l));
    ("num_bedrooms", VInt (Listing.num_bedrooms l));
    ("num_bathrooms", VInt (Listing.num_bathrooms l));
    ("max_guests", VInt (Listing.max_guests l));
    ("amenities", VStr (Listing.amenities l));
    ("created_at", VInt (Listing.created_at l));
    ("updated_at", VInt (Listing.updated_at l)) ].

Definition Booking_attrs (b : Booking.t) : instance :=
  [ ("booking_id", VUuid (Booking.booking_id b));
    ("property", VUuid (Booking.property b));
    ("user", VInt (Booking.user b));
    ("check_in_date", VInt (Booking.check_in_date b));
    ("check_out_date", VInt (Booking.check_out_date b));
    ("total_price", VFloat (Booking.total_price b));
    ("status", VStr (Booking.status b));
    ("booked_at", VInt (Booking.booked_at b)) ].

Definition Review_attrs (r : Review.t) : instance :=
  [ ("review_id", VUuid (Review.review_id r));
    ("property", VUuid (Review.property r));
    ("user", VInt (Review.user r));
    ("rating", VInt (Review.rating r));
    ("comment", VStr (Review.comment r));
    ("created_at", VInt (Review.created_at r)) ].

(** What [ModelSerializer] reads of a model field. *)
Record Column := {
  column_name : string;
  editable : bool;
  optional : bool;             (* has a default, or blank=True *)
  relation : option Table;     (* the model a ForeignKey points to *)
  auto_now_add : bool;
  auto_now : bool
}.

Definition plain (name : string) : Column :=
  {| column_name := name; editable := true; optional := false;
     relation := None; auto_now_add := false; auto_now := false |}.

Definition with_default (name : string) : Column :=
  {| column_name := name; editable := true; optional := true;
     relation := None; auto_now_add := false; auto_now := false |}.

Definition primary_key (name : string) : Column :=
  {| column_name := name; editable := false; optional := true;
     relation := None; auto_now_add := false; auto_now := false |}.

Definition foreign_key (name : string) (to : Table) : Column :=
  {| column_name := name; editable := true; optional := false;
     relation := Some to; auto_now_add := false; auto_now := false |}.

Definition created_stamp (name : string) : Column :=
  {| column_name := name; editable := false; optional := true;
     relation := None; auto_now_add := true; auto_now := false |}.

Definition updated_stamp (name : string) : Column :=
  {| column_name := name; editable := false; optional := true;
     relation := None; auto_now_add := false; auto_now := true |}.

(** The fields of the models, from [models.py] (and, for the user, the
    columns [UserSerializer] names: an automatic primary key and three
    strings that may be blank). *)
Definition columns (t : Table) : list Column :=
  match t with
  | TUser =>
      [ primary_key "id"; with_default "first_name";
        with_default "last_name"; with_default "email" ]
  | TListing =>
      [ primary_key "listing_id"; foreign_key "host" TUser; plain "title";
        plain "description"; plain "address"; plain "city"; plain "country";
        plain "price_per_night"; with_default "property_type";
        plain "num_bedrooms"; plain "num_bathrooms"; plain "max_guests";
        with_default "amenities"; created_stamp "created_at";
        updated_stamp "updated_at" ]
  | TBooking =>
      [ primary_key "booking_id"; foreign_key "property" TListing;
        foreign_key "user" TUser; plain "check_in_date";
        plain "check_out_date"; plain "total_price"; with_default "status";
        created_stamp "booked_at" ]
  | TReview =>
      [ primary_key "review_id"; foreign_key "property" TListing;
        foreign_key "user" TUser; plain "rating"; with_default "comment";
        created_stamp "created_at" ]
  end.

Inductive FieldClass :=
| ColumnField                              (* built from a plain column *)
| PrimaryKeyRelatedField (queryset : Table)
| NestedSerializer                         (* UserSerializer(read_only=True) *)
| SerializerMethodField.

(** A field declared in the class body. *)
Record Declared := {
  declared_name : string;
  declared_class : FieldClass;
  declared_read_only : bool;
  declared_write_only : bool;
  declared_source : option string
}.

Record Kwargs := {
  kw_read_only : option bool;
  kw_write_only : option bool
}.

Record Meta := {
  model : Table;
  fields : list string;
  read_only_fields : list string;
  extra_kwargs : list (string * Kwargs)
}.

Record SerializerClass := {
  declared_fields : list Declared;
  meta : Meta
}.

Definition UserSerializer : SerializerClass :=
  {| declared_fields := [];
     meta := {| model := TUser;
                fields := ["id"; "first_name"; "last_name"; "email"];
                read_only_fields := ["id"; "email"];
                extra_kwargs := [] |} |}.

Definition read_only_kw : Kwargs :=
  {| kw_read_only := Some true; kw_write_only := None |}.

Definition write_only_kw : Kwargs :=
  {| kw_read_only := None; kw_write_only := Some true |}.

Definition ListingSerializer : SerializerClass :=
  {| declared_fields :=
       [ {| declared_name := "host"; declared_class := NestedSerializer;
            declared_read_only := true; declared_write_only := false;
            declared_source := None |};
         {| declared_name := "host_id";
            declared_class := PrimaryKeyRelatedField TUser;
            declared_read_only := false; declared_write_only := true;
            declared_source := Some "host" |};
         {| declared_name := "reviews";
            declared_class := SerializerMethodField;
            declared_read_only := false; declared_write_only := false;
            declared_source := None |} ];
     meta := {| model := TListing;
                fields :=
                  [ "listing_id"; "host"; "host_id"; "title"; "description";
                    "address"; "city"; "country"; "price_per_night";
                    "property_type"; "num_bedrooms"; "num_bathrooms";
                    "max_guests"; "amenities"; "created_at"; "updated_at";
                    "reviews" ];
                read_only_fields :=
                  ["listing_id"; "created_at"; "updated_at"; "host"];
                extra_kwargs :=
                  [ ("host", read_only_kw); ("host_id", write_only_kw) ] |} |}.

Definition BookingSerializer : SerializerClass :=
  {| declared_fields :=
       [ {| declared_name := "property";
            declared_class := SerializerMethodField;
            declared_read_only := false; declared_write_only := false;
            declared_source := None |};
         {| declared_name := "user"; declared_class := NestedSerializer;
            declared_read_only := true; declared_write_only := false;
            declared_source := None |};
         {| declared_name := "property_id";
            declared_class := PrimaryKeyRelatedField TListing;
            declared_read_only := false; declared_write_only := true;
            declared_source := Some "property" |};
         {| declared_name := "user_id";
            declared_class := PrimaryKeyRelatedField TUser;
            declared_read_only := false; declared_write_only := true;
            declared_source := Some "user" |} ];
     meta := {| model := TBooking;
                fields :=
                  [ "booking_id"; "property"; "user"; "check_in_date";
                    "check_out_date"; "total_price"; "status"; "booked_at";
                    "property_id"; "user_id" ];
                read_only_fields :=
                  ["booking_id"; "booked_at"; "property"; "user"];
                extra_kwargs :=
                  [ ("property", read_only_kw); ("user", read_only_kw);
                    ("property_id", write_only_kw);
                    ("user_id", write_only_kw) ] |} |}.

Definition ReviewSerializer : SerializerClass :=
  {| declared_fields :=
       [ {| declared_name := "user"; declared_class := NestedSerializer;
            declared_read_only := true; declared_write_only := false;
            declared_source := None |};
         {| declared_name := "property_id";
            declared_class := PrimaryKeyRelatedField TListing;
            declared_read_only := false; declared_write_only := true;
            declared_source := Some "property" |};
         {| declared_name := "user_id";
            declared_class := PrimaryKeyRelatedField TUser;
            declared_read_only := false; declared_write_only := true;
            declared_source := Some "user" |} ];
     meta := {| model := TReview;
                fields :=
                  [ "review_id"; "property"; "user"; "rating"; "comment";
                    "created_at"; "property_id"; "user_id" ];
                read_only_fields :=
                  ["review_id"; "created_at"; "property"; "user"];
                extra_kwargs :=
                  [ ("property", read_only_kw); ("user", read_only_kw);
                    ("property_id", write_only_kw);
                    ("user_id", write_only_kw) ] |} |}.

(** A field of a serializer instance. *)
Record Field := {
  field_name : string;
  field_class : FieldClass;
  read_only : bool;
  write_only : bool;
  required : bool;
  source : string
}.

Definition mem_string (x : string) (xs : list string) : bool :=
  existsb (String.eqb x) xs.

(** [ModelSerializer.get_extra_kwargs]: [Meta.extra_kwargs], with
    [read_only=True] for the names in [Meta.read_only_fields]. *)
Definition get_extra_kwargs (m : Meta) (name : string) : Kwargs :=
  let kw :=
    match find (fun e => fst e =? name) (extra_kwargs m) with
    | Some e => snd e
    | None => {| kw_read_only := None; kw_write_only := None |}
    end in
  if mem_string name (read_only_fields m)
  then {| kw_read_only := Some true; kw_write_only := kw_write_only kw |}
  else kw.

Definition or_default (o : option bool) (d : bool) : bool :=
  match o with
  | Some b => b
  | None => d
  end.

(** One step of [ModelSerializer.get_fields]: a declared field is taken as
    declared (extra kwargs do not apply to it; a [SerializerMethodField]
    is read-only); any other name is built from the column of the model
    and the extra kwargs. *)
Definition build_field (c : SerializerClass) (name : string) : option Field :=
  match find (fun d => declared_name d =? name) (declared_fields c) with
  | Some d =>
      let ro :=
        match declared_class d with
        | SerializerMethodField => true
        | _ => declared_read_only d
        end in
      Some {| field_name := name;
              field_class := declared_class d;
              read_only := ro;
              write_only := declared_write_only d;
              required := negb ro;
              source := match declared_source d with
                        | Some s => s
                        | None => name
                        end |}
  | None =>
      match find (fun col => column_name col =? name)
              (columns (model (meta c))) with
      | Some col =>
          let kw := get_extra_kwargs (meta c) name in
          let ro := or_default (kw_read_only kw) (negb (editable col)) in
          Some {| field_name := name;
                  field_class := match relation col with
                                 | Some t => PrimaryKeyRelatedField t
                                 | None => ColumnField
                                 end;
                  read_only := ro;
                  write_only := or_default (kw_write_only kw) false;
                  required := negb ro && negb (optional col);
                  source := name |}
      | None => None
      end
  end.

(** [ModelSerializer.get_fields], in the order of [Meta.fields]; [None] when
    a name is neither declared nor a column of the model (the framework
    raises [ImproperlyConfigured]; the four classes name no such field). *)
Fixpoint build_fields (c : SerializerClass) (names : list string)
    : option (list Field) :=
  match names with
  | [] => Some []
  | n :: ns =>
      match build_field c n, build_fields c ns with
      | Some f, Some fs => Some (f :: fs)
      | _, _ => None
      end
  end.

Definition get_fields (c : SerializerClass) : list Field :=
  match build_fields c (fields (meta c)) with
  | Some fs => fs
  | None => []
  end.

(** [Serializer._writable_fields] and [Serializer._readable_fields] *)
Definition writable_fields (c : SerializerClass) : list Field :=
  filter (fun f => negb (read_only f)) (get_fields c).

Definition readable_fields (c : SerializerClass) : list Field :=
  filter (fun f => negb (write_only f)) (get_fields c).

(** *** Writing: [to_internal_value], [create] and [update] *)

Inductive Validated :=
| Valid (validated_data : list (string * value))
| Invalid (errors : list string).      (* the names of the fields in error *)

Section Writing.

(** [Field.run_validation] of the serializer field that [ModelSerializer]
    builds for a plain column ([CharField], [IntegerField],
    [DecimalField], [ChoiceField], ...): code of the framework, applied
    to the column of a model and a primitive value. *)
Variable run_validation : Table -> string -> value -> option value.

(** [run_validation] of one field on the primitive value that was sent for
    it.  A [PrimaryKeyRelatedField] looks the key up in its queryset. *)
Definition field_run_validation (w : World) (m : Table) (f : Field)
    (primitive : value) : option value :=
  match field_class f with
  | ColumnField => run_validation m (source f) primitive
  | PrimaryKeyRelatedField TUser =>
      match primitive with
      | VInt pk =>
          if mem_id pk (map User.id (users w)) then Some primitive else None
      | _ => None
      end
  | PrimaryKeyRelatedField TListing =>
      match primitive with
      | VUuid pk =>
          if mem_uuid pk (map Listing.listing_id (listings w))
          then Some primitive else None
      | _ => None
      end
  | _ => None
  end.

(** The loop of [Serializer.to_internal_value] over the writable fields:
    the validated attributes and the fields in error. *)
Fixpoint validate_fields (w : World) (m : Table) (fs : list Field)
    (data : list (string * value))
    : list (string * value) * list string :=
  match fs with
  | [] => ([], [])
  | f :: fs' =>
      let (ret, errors) := validate_fields w m fs' data in
      match getattr data (field_name f) with
      | None =>
          if required f then (ret, field_name f :: errors)
          else (ret, errors)
      | Some primitive =>
          match field_run_validation w m f primitive with
          | Some v => ((source f, v) :: ret, errors)
          | None => (ret, field_name f :: errors)
          end
      end
  end.

(** [Serializer.to_internal_value] *)
Definition to_internal_value (c : SerializerClass) (w : World)
    (data : list (string * value)) : Validated :=
  match validate_fields w (model (meta c)) (writable_fields c) data with
  | (ret, []) => Valid ret
  | (_, e :: es) => Invalid (e :: es)
  end.

End Writing.

(** [for attr, value in validated_data.items(): setattr(instance, attr,
    value)] *)
Definition setattrs (inst : instance) (validated_data : list (string * value))
    : instance :=
  fold_left (fun i kv => setattr i (fst kv) (snd kv)) validated_data inst.

(** What [save()] stamps: the [auto_now] columns, and on insert the
    [auto_now_add] columns too. *)
Fixpoint pre_save (cols : list Column) (add : bool) (inst : instance)
    : M instance :=
  match cols with
  | [] => ret inst
  | col :: cols' =>
      if auto_now col || (add && auto_now_add col) then
        now <- timezone_now ;;
        pre_save cols' add (setattr inst (column_name col) (VInt now))
      else pre_save cols' add inst
  end.



(** [ModelSerializer.update]: the attributes are set and the instance is
    saved. *)
Definition ModelSerializer_update (c : SerializerClass) (inst : instance)
    (validated_data : list (string * value)) : M instance :=
  pre_save (columns (model (meta c))) false (setattrs inst validated_data).

(** *** Reading: [to_representation] *)

Fixpoint mapR {A B} (f : A -> Result B) (xs : list A) : Result (list B) :=
  match xs with
  | [] => Ok []
  | x :: xs' =>
      match f x, mapR f xs' with
      | Ok b, Ok bs => Ok (b :: bs)
      | Raise e, _ => Raise e
      | _, Raise e => Raise e
      end
  end.

(** [Serializer.to_representation]: the readable fields, in order.
    [nested] renders the object whose primary key a nested serializer field
    reads, and [method] is the [get_<field_name>] method of the class.
    (Values are rendered as they are: the texts of UUIDs, decimals and
    dates are not modelled.) *)
Definition field_to_representation
    (nested : value -> Result value) (method : instance -> Result value)
    (inst : instance) (f : Field) : Result (string * value) :=
  match field_class f with
  | ColumnField | PrimaryKeyRelatedField _ =>
      match getattr inst (source f) with
      | Some v => Ok (field_name f, v)
      | None => Raise AttributeError
      end
  | NestedSerializer =>
      match getattr inst (source f) with
      | Some pk =>
          match nested pk with
          | Ok v => Ok (field_name f, v)
          | Raise e => Raise e
          end
      | None => Raise AttributeError
      end
  | SerializerMethodField =>
      match method inst with
      | Ok v => Ok (field_name f, v)
      | Raise e => Raise e
      end
  end.

Definition to_representation (c : SerializerClass)
    (nested : value -> Result value) (method : instance -> Result value)
    (inst : instance) : Result value :=
  match mapR (field_to_representation nested method inst)
          (readable_fields c) with
  | Ok kvs => Ok (VDict kvs)
  | Raise e => Raise e
  end.

Definition no_nested (_ : value) : Result value := Raise AttributeError.
Definition no_method (_ : instance) : Result value := Raise AttributeError.

(** [UserSerializer(user).data] *)
Definition UserSerializer_data (u : User.t) : Result value :=
  to_representation UserSerializer no_nested no_method (User_attrs u).

(** The user a foreign key attribute points to, rendered by
    [UserSerializer]. *)
Definition related_user (w : World) (pk : value) : Result value :=
  match pk with
  | VInt pk =>
      match find (fun u => Z.eqb (User.id u) pk) (users w) with
      | Some u => UserSerializer_data u
      | None => Raise DoesNotExist
      end
  | _ => Raise AttributeError
  end.

(** [ReviewSerializer(review).data] *)
Definition ReviewSerializer_data (w : World) (r : Review.t) : Result value :=
  to_representation ReviewSerializer (related_user w) no_method
    (Review_attrs r).

(** [.order_by('-created_at')]: an insertion sort, the newest first. *)
Fixpoint insert_by_created_at (r : Review.t) (rs : list Review.t)
    : list Review.t :=
  match rs with
  | [] => [r]
  | x :: rs' =>
      if Z.ltb (Review.created_at x) (Review.created_at r)
      then r :: x :: rs'
      else x :: insert_by_created_at r rs'
  end.

Definition order_by_created_at_desc (rs : list Review.t) : list Review.t :=
  fold_right insert_by_created_at [] rs.

(** [obj.reviews.all()] *)
Definition reviews_of (w : World) (pk : UUID) : list Review.t :=
  filter (fun r => N.eqb (Review.property r) pk) (reviews w).

(** [ListingSerializer.get_reviews] *)
Definition get_reviews (w : World) (obj : Listing.t) : Result value :=
  let reviews := order_by_created_at_desc
                   (reviews_of w (Listing.listing_id obj)) in
  match mapR (ReviewSerializer_data w) reviews with
  | Ok data => Ok (VList data)
  | Raise e => Raise e
  end.

(** [ListingSerializer(listing).data] *)
Definition ListingSerializer_data (w : World) (l : Listing.t) : Result value :=
  to_representation ListingSerializer (related_user w)
    (fun _ => get_reviews w l) (Listing_attrs l).

(** [BookingSerializer.get_property] *)
Definition get_property (w : World) (obj : Booking.t) : Result value :=
  match find (fun l => N.eqb (Listing.listing_id l) (Booking.property obj))
          (listings w) with
  | Some property =>
      Ok (VDict
            [ ("listing_id", VUuid (Listing.listing_id property));
              ("title", VStr (Listing.title property));
              ("city", VStr (Listing.city property));
              ("country", VStr (Listing.country property));
              ("price_per_night", VFloat (Listing.price_per_night property)) ])
  | None => Raise DoesNotExist
  end.

(** [BookingSerializer(booking).data] *)
Definition BookingSerializer_data (w : World) (b : Booking.t) : Result value :=
  to_representation BookingSerializer (related_user w)
    (fun _ => get_property w b) (Booking_attrs b).


(* ------------------------------------------------------------------ *)
(** ** Properties the statements below are about *)

(** Every booking and every review points to a listing of the table. *)
Definition no_dangling_listing (w : World) : Prop :=
  (forall b, In b (bookings w) ->
     exists l, In l (listings w)
               /\ Listing.listing_id l = Booking.property b)
  /\ (forall r, In r (reviews w) ->
        exists l, In l (listings w)
                  /\ Listing.listing_id l = Review.property r).

(** The number of reviews of a (listing, user) pair. *)
Definition count_reviews (p : UUID * Z) (rs : list Review.t) : nat :=
  List.length (filter (fun r => pair_eqb (Review.unique_together r) p) rs).

(** [unique_together] holds of a table of reviews. *)
Definition reviews_unique (rs : list Review.t) : Prop :=
  forall p, (count_reviews p rs <= 1)%nat.

(** The primary keys of the users are distinct. *)
Definition ids_unique (us : list User.t) : Prop := NoDup (map User.id us).

(** The number of users with an email. *)
Definition count_email (e : string) (us : list User.t) : nat :=
  List.length (filter (fun u => User.email u =? e) us).

Definition is_insert (c : OrmCall) : bool :=
  match c with
  | Insert _ => true
  | _ => false
  end.

(** The four manager calls of the clear phase, in the order of the code. *)
Definition clear_calls : list OrmCall :=
  [ DeleteAll TReview; DeleteAll TBooking; DeleteAll TListing;
    DeleteUsersNotSuperuser ].

(** The lines the two last loops print when they skip. *)
Definition no_guest_for_booking (listing : Listing.t) : Style * string :=
  (WARNING,
   "No guest users available to create booking for " ++ Listing.title listing).

Definition no_guest_for_review (listing : Listing.t) : Style * string :=
  (WARNING,
   "No guest users available to create review for " ++ Listing.title listing).

Definition already_reviewed (reviewer : User.t) (listing : Listing.t)
    : Style * string :=
  (WARNING,
   "User " ++ User.email reviewer ++ " already reviewed "
     ++ Listing.title listing ++ ", skipping.").

Definition review_created (reviewer : User.t) (listing : Listing.t)
    : Style * string :=
  (SUCCESS,
   "Created review for " ++ Listing.title listing ++ " by "
     ++ User.email reviewer).

(** Printing several lines. *)
Definition print_all (lines : list (Style * string)) (w : World) : World :=
  fold_left (fun w line => print line w) lines w.

(** The world in which the users are created: after the first line, and
    after the clear phase when it is asked for. *)
Definition after_clear (options : Options) (w : World) : World :=
  let w0 := print (NOTICE, "Starting database seeding...") w in
  if clear options then snd (clear_existing_data w0) else w0.

(** The line of line 93. *)
Definition already_exists (i : Z) : Style * string :=
  (WARNING, "User " ++ sample_email i ++ " already exists, skipping creation.").

(** The booking is for a listing of [ls], for two to seven nights, and its
    total price is the price per night of that listing times the nights. *)
Definition priced_from (ls : list Listing.t) (b : Booking.t) : Prop :=
  exists l,
    In l ls
    /\ Booking.property b = Listing.listing_id l
    /\ 2 <= days_between (Booking.check_in_date b) (Booking.check_out_date b)
         <= 7
    /\ Booking.total_price b
       = (Listing.price_per_night l
          * float_of_Z (days_between (Booking.check_in_date b)
                          (Booking.check_out_date b)))%float.

(** The listing belongs to a user of the table whose role is host. *)
Definition hosted (us : list User.t) (l : Listing.t) : Prop :=
  exists u,
    In u us /\ User.id u = Listing.host l /\ User.role u = "host".

(** The lines of the two last loops when there is no guest. *)
Definition no_guest_lines (line : Listing.t -> Style * string)
    (listings : list Listing.t) (n : Z) : list (Style * string) :=
  flat_map (fun l => flat_map (fun _ => [line l]) (range n)) listings.

(** The line of line 76. *)
Definition creating_users (n : Z) : Style * string :=
  (NOTICE, "Creating " ++ str n ++ " sample users...").

(** The scenario of the specification: two users, one listing per host, one
    booking and one review per listing. *)
Definition scenario : Options :=
  {| clear := false; num_users := 2; num_listings_per_host := 1;
     num_bookings_per_listing := 1; num_reviews_per_listing := 1 |}.

(** An environment in which every random output is 0, so that every
    [random.choice] takes the first element: every new user is a guest. *)
Definition first_choices : Env :=
  {| random_outputs := fun _ => 0%N;
     now_readings := fun _ => 1700000000000000;
     uuid4_values := fun n => N.of_nat n |}.

(** A small database for the examples: a superuser who hosts a flat, and a
    guest who booked it and reviewed it. *)
Definition alice : User.t :=
  {| User.id := 1; User.username := "alice";
     User.email := "alice@example.com"; User.first_name := "Alice";
     User.last_name := "Auma"; User.role := "host";
     User.is_superuser := true |}.

Definition bob : User.t :=
  {| User.id := 2; User.username := "bob"; User.email := "bob@example.com";
     User.first_name := "Bob"; User.last_name := "Boro";
     User.role := "guest"; User.is_superuser := false |}.

Definition flat : Listing.t :=
  {| Listing.listing_id := 7%N; Listing.host := 1; Listing.title := "Flat";
     Listing.description := "A beautiful place in Paris.";
     Listing.address := "4 Main St"; Listing.city := "Paris";
     Listing.country := "France"; Listing.price_per_night := 80%float;
     Listing.property_type := "apartment"; Listing.num_bedrooms := 2;
     Listing.num_bathrooms := 1; Listing.max_guests := 4;
     Listing.amenities := "WiFi, Pool";
     Listing.created_at := 1700000000000000;
     Listing.updated_at := 1700000000000000 |}.

Definition stay : Booking.t :=
  {| Booking.booking_id := 8%N; Booking.property := 7%N; Booking.user := 2;
     Booking.check_in_date := 19680; Booking.check_out_date := 19683;
     Booking.total_price := 240%float; Booking.status := "confirmed";
     Booking.booked_at := 1700000000000001 |}.

Definition praise : Review.t :=
  {| Review.review_id := 9%N; Review.property := 7%N; Review.user := 2;
     Review.rating := 5; Review.comment := "Great place!";
     Review.created_at := 1700000000000002 |}.

Definition sample_world : World :=
  {| users := [alice; bob]; listings := [flat]; bookings := [stay];
     reviews := [praise]; orm_calls := []; stdout := [];
     env := first_choices; random_calls := 0; now_calls := 0;
     uuid4_calls := 0 |}.

(** The scenario with the clear flag, and a run without users. *)
Definition scenario_with_clear : Options :=
  {| clear := true; num_users := 2; num_listings_per_host := 1;
     num_bookings_per_listing := 1; num_reviews_per_listing := 1 |}.

Definition scenario_without_users : Options :=
  {| clear := false; num_users := 0; num_listings_per_host := 1;
     num_bookings_per_listing := 1; num_reviews_per_listing := 1 |}.

(** A validation that accepts every value of a plain column. *)
Definition accept_all (_ : Table) (_ : string) (v : value) : option value :=
  Some v.



(** The serializers of the three models of [models.py]. *)
Definition model_serializers : list SerializerClass :=
  [ListingSerializer; BookingSerializer; ReviewSerializer].








(** [w'] is [w] with the rows [us], [ls], [bs] and [rs] appended to the four
    tables, by inserts only. *)
Definition delta (w w' : World) (us : list User.t) (ls : list Listing.t)
    (bs : list Booking.t) (rs : list Review.t) : Prop :=
  users w' = (users w ++ us)%list
  /\ listings w' = (listings w ++ ls)%list
  /\ bookings w' = (bookings w ++ bs)%list
  /\ reviews w' = (reviews w ++ rs)%list
  /\ (exists cs, orm_calls w' = (orm_calls w ++ cs)%list
                 /\ forallb is_insert cs = true).

(* ------------------------------------------------------------------ *)
(** ** More of the models: the choices of a rating and [__str__] *)

(** [range(a, b)] *)
Definition range_from (a b : Z) : list Z := map (Z.add a) (range (b - a)).

(** [Review.rating]: [choices=[(i, str(i)) for i in range(1, 6)]] *)
Definition Review_RATING_CHOICES : list (Z * string) :=
  map (fun i => (i, str i)) (range_from 1 6).

(** [str(uuid)]: the 32 hexadecimal digits of the number, most significant
    first ([hex = '%032x' % self.int]), in groups of 8, 4, 4, 4 and 12
    ([hex[:8]], [hex[8:12]], [hex[12:16]], [hex[16:20]], [hex[20:]]).  A
    UUID is below 2^128, where 32 digits are all the digits. *)
Definition hex_digit (d : N) : ascii :=
  nth (N.to_nat d) (list_ascii_of_string "0123456789abcdef") "0"%char.

Fixpoint hex_digits (k : nat) (n : N) : list ascii :=
  match k with
  | O => []
  | S k' => hex_digit (n mod 16) :: hex_digits k' (n / 16)
  end.

Definition hex32 (n : N) : string :=
  string_of_list_ascii (rev (hex_digits 32 n)).

Definition hyphenate (hex : string) : string :=
  substring 0 8 hex ++ "-" ++ substring 8 4 hex ++ "-"
    ++ substring 12 4 hex ++ "-" ++ substring 16 4 hex ++ "-"
    ++ substring 20 12 hex.

Definition UUID_str (u : UUID) : string := hyphenate (hex32 u).

(** [self.property] and [self.user] of a booking or a review: the row of
    the key, or [DoesNotExist]. *)
Definition Listing_get (w : World) (pk : UUID) : Result Listing.t :=
  match find (fun l => N.eqb (Listing.listing_id l) pk) (listings w) with
  | Some l => Ok l
  | None => Raise DoesNotExist
  end.

Definition User_get (w : World) (pk : Z) : Result User.t :=
  match find (fun u => Z.eqb (User.id u) pk) (users w) with
  | Some u => Ok u
  | None => Raise DoesNotExist
  end.

(** [Listing.__str__] *)
Definition Listing_str (l : Listing.t) : string := Listing.title l.

(** [Booking.__str__]:
    [f"Booking {self.booking_id} for {self.property.title} by
    {self.user.email}"] *)
Definition Booking_str (w : World) (b : Booking.t) : Result string :=
  match Listing_get w (Booking.property b) with
  | Raise e => Raise e
  | Ok property =>
      match User_get w (Booking.user b) with
      | Raise e => Raise e
      | Ok user =>
          Ok ("Booking " ++ UUID_str (Booking.booking_id b) ++ " for "
                ++ Listing.title property ++ " by " ++ User.email user)
      end
  end.

(** [Review.__str__]:
    [f"Review for {self.property.title} by {self.user.email} -
    {self.rating} stars"] *)
Definition Review_str (w : World) (r : Review.t) : Result string :=
  match Listing_get w (Review.property r) with
  | Raise e => Raise e
  | Ok property =>
      match User_get w (Review.user r) with
      | Raise e => Raise e
      | Ok user =>
          Ok ("Review for " ++ Listing.title property ++ " by "
                ++ User.email user ++ " - " ++ str (Review.rating r)
                ++ " stars")
      end
  end.

(* ------------------------------------------------------------------ *)
(** ** More properties of the command *)

(** Every foreign key of the three tables points to a row. *)
Definition referential_integrity (w : World) : Prop :=
  (forall l, In l (listings w) ->
     exists u, In u (users w) /\ User.id u = Listing.host l)
  /\ (forall b, In b (bookings w) ->
        (exists l, In l (listings w)
                   /\ Listing.listing_id l = Booking.property b)
        /\ (exists u, In u (users w) /\ User.id u = Booking.user b))
  /\ (forall r, In r (reviews w) ->
        (exists l, In l (listings w)
                   /\ Listing.listing_id l = Review.property r)
        /\ (exists u, In u (users w) /\ User.id u = Review.user r)).

(** The users the run starts from: the table, or with [--clear] what the
    clear phase leaves of it. *)
Definition kept_users (options : Options) (w : World) : list User.t :=
  if clear options then filter User.is_superuser (users w) else users w.

(** What lines 116-129 give a listing of [host], apart from its price. *)
Definition sample_listing_values (l : Listing.t) : Prop :=
  (exists n, 1 <= n <= 100 /\ Listing.address l = str n ++ " Main St")
  /\ In (Listing.city l) CITIES
  /\ In (Listing.country l) ["USA"; "UK"; "France"; "Japan"; "Australia"]
  /\ In (Listing.property_type l) (map fst Listing.PROPERTY_TYPE_CHOICES)
  /\ 1 <= Listing.num_bedrooms l <= 5
  /\ 1 <= Listing.num_bathrooms l <= 3
  /\ 1 <= Listing.max_guests l <= 10
  /\ In (Listing.amenities l)
       ["WiFi, Pool"; "Gym, Kitchen"; "Parking, Balcony"; "Pet-Friendly"].

(** What lines 138-149 give a booking: a listing of [ls], a guest of [gs],
    a check-in one to thirty days after the date of a reading of the clock
    (the reading before the one that stamps [booked_at]), a check-out two to
    seven days later and a status of the model. *)
Definition sample_booking_values (e : Env) (ls : list Listing.t)
    (gs : list User.t) (b : Booking.t) : Prop :=
  (exists l, In l ls /\ Booking.property b = Listing.listing_id l)
  /\ (exists g, In g gs /\ Booking.user b = User.id g)
  /\ (exists t,
        1 <= Booking.check_in_date b - date_of (now_readings e t) <= 30
        /\ Booking.booked_at b = now_readings e (S t))
  /\ 2 <= Booking.check_out_date b - Booking.check_in_date b <= 7
  /\ In (Booking.status b) (map fst Booking.STATUS_CHOICES).

(** What lines 159-170 give a review. *)
Definition sample_review_values (ls : list Listing.t) (gs : list User.t)
    (r : Review.t) : Prop :=
  (exists l, In l ls /\ Review.property r = Listing.listing_id l)
  /\ (exists g, In g gs /\ Review.user r = User.id g)
  /\ In (Review.rating r) (map fst Review_RATING_CHOICES)
  /\ In (Review.comment r) REVIEW_COMMENTS.

(** The user of line 81-88 for the index [i], with the role that was
    drawn. *)
Definition sample_user (id : Z) (i : Z) (role : string) : User.t :=
  {| User.id := id;
     User.username := "user" ++ str i;
     User.email := sample_email i;
     User.first_name := "First" ++ str i;
     User.last_name := "Last" ++ str i;
     User.role := role;
     User.is_superuser := false |}.

(** The username of a row is taken in a table. *)
Definition username_taken (name : string) (us : list User.t) : Prop :=
  exists u, In u us /\ User.username u = name.

(** A table on which the run cannot fail: no sample email is there twice; if
    usernames are unique, a sample username is only held by the user with the
    sample email; and either a host is among the users with a sample email, or
    the name and the email of the fallback host are free where they have to
    be. *)
Definition can_seed (s : User.Schema) (n : Z) (us : list User.t) : Prop :=
  (forall i, In i (range n) -> (count_email (sample_email i) us <= 1)%nat)
  /\ (User.unique_username s = true ->
      forall u i, In u us -> In i (range n) ->
                  User.username u = "user" ++ str i ->
                  User.email u = sample_email i)
  /\ ((exists u i, In u us /\ In i (range n)
                   /\ User.email u = sample_email i /\ User.role u = "host")
      \/ (forall u, In u us ->
            (User.unique_username s = true ->
             User.username u <> "auto_host")
            /\ (User.unique_email s = true ->
                User.email u <> "auto_host@example.com"))).

(** A computation that leaves the environment as it is. *)
Definition keeps_env {A} (m : M A) : Prop :=
  forall w, env (snd (m w)) = env w.

(** The fallback host of lines 100-107. *)
Definition fallback_host (id : Z) : User.t :=
  {| User.id := id;
     User.username := "auto_host";
     User.email := "auto_host@example.com";
     User.first_name := "Auto";
     User.last_name := "Host";
     User.role := "host";
     User.is_superuser := false |}.

(** A user the command creates: a sample user of an index of the loop with
    one of the two roles, or the fallback host. *)
Definition generated_user (n : Z) (u : User.t) : Prop :=
  (exists i role,
     In i (range n) /\ In role ["guest"; "host"]
     /\ u = sample_user (User.id u) i role)
  \/ u = fallback_host (User.id u).

(** The line of line 90. *)
Definition user_created (u : User.t) : Style * string :=
  (SUCCESS, "Created user: " ++ User.email u ++ " (" ++ User.role u ++ ")").

(** Why a run raised [e], on the users [kept] it started from: a sample
    email was there twice; or a sample username was held, and unique, by a
    user with another email; or no user with a sample email was a host and
    the username or the email of the fallback host was held, and unique. *)
Definition run_failure (s : User.Schema) (n : Z) (kept : list User.t)
    (e : Exception) : Prop :=
  (e = MultipleObjectsReturned
   /\ exists i, In i (range n)
                /\ (2 <= count_email (sample_email i) kept)%nat)
  \/ (e = IntegrityError
      /\ User.unique_username s = true
      /\ exists i x, In i (range n) /\ In x kept
                     /\ User.username x = "user" ++ str i
                     /\ User.email x <> sample_email i)
  \/ (e = IntegrityError
      /\ (forall u i, In u kept -> In i (range n) ->
                      User.email u = sample_email i ->
                      User.role u <> "host")
      /\ exists x, In x kept
                   /\ ((User.unique_username s = true
                        /\ User.username x = "auto_host")
                       \/ (User.unique_email s = true
                           /\ User.email x = "auto_host@example.com"))).

(** The indices of the loop whose sample email belongs to a host of a
    table. *)
Definition sample_hosts (n : Z) (us : list User.t) : list Z :=
  filter (fun i =>
            existsb (fun u => (User.email u =? sample_email i) && is_host u) us)
    (range n).

(** [pk] is the primary key of a user that
    [User.objects.filter(is_superuser=False).delete()] deletes. *)
Definition deleted_user (w : World) (pk : Z) : Prop :=
  exists u, In u (users w) /\ User.is_superuser u = false /\ User.id u = pk.

(** [pk] is the primary key of a listing of such a user. *)
Definition deleted_listing (w : World) (pk : UUID) : Prop :=
  exists l, In l (listings w) /\ Listing.listing_id l = pk
            /\ deleted_user w (Listing.host l).

(* ------------------------------------------------------------------ *)
(** ** More properties of the serializers

    What is modelled of a write is [to_internal_value], the validation
    field by field, and [create] and [update] on the data it returns.  The
    validators of a serializer class, which [is_valid()] runs after
    [to_internal_value] (the framework derives one from
    [Review.Meta.unique_together]), and the [validate] hooks, of which the
    classes define none, are not. *)

(** The names of the fields a payload is read for, and of those it has to
    hold. *)
Definition writable_names (c : SerializerClass) : list string :=
  map field_name (writable_fields c).

Definition required_names (c : SerializerClass) : list string :=
  map field_name (filter required (writable_fields c)).


(** The reduced user of the read shapes. *)
Definition reduced_user (u : User.t) : value :=
  VDict [ ("id", VInt (User.id u));
          ("first_name", VStr (User.first_name u));
          ("last_name", VStr (User.last_name u));
          ("email", VStr (User.email u)) ].



(** The field reads the primary key of a user, or of a listing. *)
Definition reads_user_key (f : Field) : bool :=
  match field_class f with
  | PrimaryKeyRelatedField TUser => true
  | _ => false
  end.

Definition reads_listing_key (f : Field) : bool :=
  match field_class f with
  | PrimaryKeyRelatedField TListing => true
  | _ => false
  end.







(* ------------------------------------------------------------------ *)
(** * Proofs *)

Local Open Scope list_scope.

(* ------------------------------------------------------------------ *)
(** ** Lists *)

Lemma filter_none {A} (l : list A) : filter (fun _ => false) l = [].
Proof. induction l; simpl; auto. Qed.

Lemma filter_negb_negb {A} (f : A -> bool) (l : list A) :
  filter (fun x => negb (negb (f x))) l = filter f l.
Proof.
  apply filter_ext. intros x. apply negb_involutive.
Qed.

Lemma mem_uuid_In (pk : UUID) (pks : list UUID) :
  mem_uuid pk pks = true <-> In pk pks.
Proof.
  unfold mem_uuid. rewrite existsb_exists. split.
  - intros [x [Hx E]]. apply N.eqb_eq in E. now subst.
  - intros H. exists pk. split; [exact H | apply N.eqb_refl].
Qed.

(** The primary keys of the rows with the key [k], when there is one. *)
Lemma mem_uuid_doomed (k pk : UUID) (ls : list Listing.t) :
  (exists l, In l ls /\ Listing.listing_id l = k) ->
  mem_uuid pk
    (map Listing.listing_id
       (filter (fun l => N.eqb (Listing.listing_id l) k) ls))
  = N.eqb pk k.
Proof.
  intros [l [Hl Hk]].
  destruct (N.eqb pk k) eqn:E.
  - apply N.eqb_eq in E. subst pk. apply mem_uuid_In.
    apply in_map_iff. exists l. split; [exact Hk|].
    apply filter_In. split; [exact Hl|]. now apply N.eqb_eq.
  - destruct (mem_uuid pk _) eqn:M; [|reflexivity].
    apply mem_uuid_In in M. apply in_map_iff in M.
    destruct M as [x [Hx Hin]]. apply filter_In in Hin.
    destruct Hin as [_ Hxk]. apply N.eqb_eq in Hxk.
    apply N.eqb_neq in E. congruence.
Qed.

(* ------------------------------------------------------------------ *)
(** ** Deleting a listing *)

Lemma Listing_delete_run (w : World) (listing : Listing.t) :
  let k := Listing.listing_id listing in
  In listing (listings w) ->
  fst (Listing_delete listing w) = Ok tt
  /\ listings (snd (Listing_delete listing w))
     = filter (fun l => negb (N.eqb (Listing.listing_id l) k)) (listings w)
  /\ bookings (snd (Listing_delete listing w))
     = filter (fun b => negb (N.eqb (Booking.property b) k)) (bookings w)
  /\ reviews (snd (Listing_delete listing w))
     = filter (fun r => negb (N.eqb (Review.property r) k)) (reviews w)
  /\ users (snd (Listing_delete listing w)) = users w.
Proof.
  intros k Hin.
  assert (Hex : exists l, In l (listings w) /\ Listing.listing_id l = k)
    by (exists listing; split; [exact Hin | reflexivity]).
  unfold Listing_delete, bind, modify, delete_listings, on_delete,
    Booking.property_on_delete, Review.property_on_delete.
  cbn [fst snd listings bookings reviews users set_listings set_reviews
       set_bookings log_call].
  repeat split.
  - apply filter_ext. intros b. fold k. now rewrite (mem_uuid_doomed k _ _ Hex).
  - apply filter_ext. intros r. fold k. now rewrite (mem_uuid_doomed k _ _ Hex).
Qed.

(** C5: deleting a listing of the table succeeds, removes the listing and
    every booking and every review that points to it, keeps the other
    bookings and reviews, and leaves no booking or review with a dangling
    listing when there was none before. *)
Theorem Listing_delete_cascades :
  forall (w : World) (listing : Listing.t),
    In listing (listings w) ->
    let k := Listing.listing_id listing in
    let w' := snd (Listing_delete listing w) in
    fst (Listing_delete listing w) = Ok tt
    /\ (forall l, In l (listings w') -> Listing.listing_id l <> k)
    /\ (forall b, In b (bookings w') -> Booking.property b <> k)
    /\ (forall r, In r (reviews w') -> Review.property r <> k)
    /\ (forall b, In b (bookings w) -> Booking.property b <> k ->
          In b (bookings w'))
    /\ (forall r, In r (reviews w) -> Review.property r <> k ->
          In r (reviews w'))
    /\ (no_dangling_listing w -> no_dangling_listing w').
Proof.
  intros w listing Hin k w'.
  destruct (Listing_delete_run w listing Hin) as (Hok & Hl & Hb & Hr & _).
  fold k in Hl, Hb, Hr. fold w' in Hl, Hb, Hr.
  split; [exact Hok|].
  assert (Hl' : forall l, In l (listings w') <->
                  In l (listings w) /\ Listing.listing_id l <> k).
  { intros l. rewrite Hl, filter_In, negb_true_iff, N.eqb_neq. tauto. }
  assert (Hb' : forall b, In b (bookings w') <->
                  In b (bookings w) /\ Booking.property b <> k).
  { intros b. rewrite Hb, filter_In, negb_true_iff, N.eqb_neq. tauto. }
  assert (Hr' : forall r, In r (reviews w') <->
                  In r (reviews w) /\ Review.property r <> k).
  { intros r. rewrite Hr, filter_In, negb_true_iff, N.eqb_neq. tauto. }
  split; [intros l H; now apply Hl'|].
  split; [intros b H; now apply Hb'|].
  split; [intros r H; now apply Hr'|].
  split; [intros b H1 H2; now apply Hb'|].
  split; [intros r H1 H2; now apply Hr'|].
  intros [Hdb Hdr]. split.
  - intros b H. apply Hb' in H. destruct H as [H Hk].
    destruct (Hdb b H) as [l [Hl1 Hl2]].
    exists l. split; [|exact Hl2]. apply Hl'. split; [exact Hl1|congruence].
  - intros r H. apply Hr' in H. destruct H as [H Hk].
    destruct (Hdr r H) as [l [Hl1 Hl2]].
    exists l. split; [|exact Hl2]. apply Hl'. split; [exact Hl1|congruence].
Qed.

(* ------------------------------------------------------------------ *)
(** ** What a run appends *)

Lemma delta_same w w' :
  users w' = users w -> listings w' = listings w ->
  bookings w' = bookings w -> reviews w' = reviews w ->
  orm_calls w' = orm_calls w ->
  delta w w' [] [] [] [].
Proof.
  intros H1 H2 H3 H4 H5. unfold delta.
  rewrite H1, H2, H3, H4, H5, !app_nil_r. repeat split.
  exists []. now rewrite app_nil_r.
Qed.

Lemma delta_refl w : delta w w [] [] [] [].
Proof. now apply delta_same. Qed.

Lemma delta_trans w w1 w2 us ls bs rs us' ls' bs' rs' :
  delta w w1 us ls bs rs ->
  delta w1 w2 us' ls' bs' rs' ->
  delta w w2 (us ++ us') (ls ++ ls') (bs ++ bs') (rs ++ rs').
Proof.
  intros (U1 & L1 & B1 & R1 & c1 & C1 & F1) (U2 & L2 & B2 & R2 & c2 & C2 & F2).
  unfold delta. rewrite U2, L2, B2, R2, C2, U1, L1, B1, R1, C1.
  rewrite <- !app_assoc. repeat split.
  exists (c1 ++ c2). split; [reflexivity|].
  rewrite forallb_app, F1, F2. reflexivity.
Qed.

Lemma delta_insert_user w w' u :
  users w' = users w ++ [u] -> listings w' = listings w ->
  bookings w' = bookings w -> reviews w' = reviews w ->
  orm_calls w' = orm_calls w ++ [Insert TUser] ->
  delta w w' [u] [] [] [].
Proof.
  intros H1 H2 H3 H4 H5. unfold delta.
  rewrite H1, H2, H3, H4, H5, !app_nil_r. repeat split.
  now exists [Insert TUser].
Qed.

Lemma delta_insert_listing w w' l :
  users w' = users w -> listings w' = listings w ++ [l] ->
  bookings w' = bookings w -> reviews w' = reviews w ->
  orm_calls w' = orm_calls w ++ [Insert TListing] ->
  delta w w' [] [l] [] [].
Proof.
  intros H1 H2 H3 H4 H5. unfold delta.
  rewrite H1, H2, H3, H4, H5, !app_nil_r. repeat split.
  now exists [Insert TListing].
Qed.

Lemma delta_insert_booking w w' b :
  users w' = users w -> listings w' = listings w ->
  bookings w' = bookings w ++ [b] -> reviews w' = reviews w ->
  orm_calls w' = orm_calls w ++ [Insert TBooking] ->
  delta w w' [] [] [b] [].
Proof.
  intros H1 H2 H3 H4 H5. unfold delta.
  rewrite H1, H2, H3, H4, H5, !app_nil_r. repeat split.
  now exists [Insert TBooking].
Qed.

Lemma delta_insert_review w w' r :
  users w' = users w -> listings w' = listings w ->
  bookings w' = bookings w -> reviews w' = reviews w ++ [r] ->
  orm_calls w' = orm_calls w ++ [Insert TReview] ->
  delta w w' [] [] [] [r].
Proof.
  intros H1 H2 H3 H4 H5. unfold delta.
  rewrite H1, H2, H3, H4, H5, !app_nil_r. repeat split.
  now exists [Insert TReview].
Qed.

(* ------------------------------------------------------------------ *)
(** ** Counting rows *)

Lemma existsb_false_filter {A} (f : A -> bool) (l : list A) :
  existsb f l = false -> filter f l = [].
Proof.
  induction l as [|a l IH]; simpl; [reflexivity|].
  intros H. apply orb_false_iff in H. destruct H as [Ha Hl].
  rewrite Ha. auto.
Qed.

Lemma existsb_true_filter {A} (f : A -> bool) (l : list A) :
  existsb f l = true -> (1 <= List.length (filter f l))%nat.
Proof.
  induction l as [|a l IH]; simpl; [discriminate|].
  intros H. destruct (f a); simpl; [lia|auto].
Qed.

Lemma count_email_app e us vs :
  count_email e (us ++ vs) = (count_email e us + count_email e vs)%nat.
Proof. unfold count_email. now rewrite filter_app, length_app. Qed.

Lemma count_reviews_app p rs ss :
  count_reviews p (rs ++ ss)
  = (count_reviews p rs + count_reviews p ss)%nat.
Proof. unfold count_reviews. now rewrite filter_app, length_app. Qed.

Lemma pair_eqb_eq p q : pair_eqb p q = true <-> p = q.
Proof.
  destruct p as [a b], q as [c d]. unfold pair_eqb. simpl.
  rewrite andb_true_iff, N.eqb_eq, Z.eqb_eq. split.
  - intros [-> ->]. reflexivity.
  - intros H. inversion H. auto.
Qed.

Lemma pair_eqb_refl p : pair_eqb p p = true.
Proof. now apply pair_eqb_eq. Qed.

(** The index [random.choice] reads is inside the sequence. *)
Lemma choice_index_lt (r : N) (n : nat) :
  (0 < n)%nat -> (N.to_nat (r mod N.of_nat n) < n)%nat.
Proof.
  intros Hn.
  assert (r mod N.of_nat n < N.of_nat n)%N by (apply N.mod_lt; lia).
  lia.
Qed.

(* ------------------------------------------------------------------ *)
(** ** One turn of each loop of the command *)

(** Lines 79-93.  When the email is in the table the user is read (or the
    read fails) and nothing is written; otherwise one row is inserted, or
    the insert is refused. *)
Lemma create_sample_user_run s i w :
  match create_sample_user s i w with
  | (Ok u, w') =>
      User.email u = sample_email i
      /\ ((delta w w' [] [] [] [] /\ In u (users w)
           /\ count_email (sample_email i) (users w) = 1%nat)
          \/ (delta w w' [u] [] [] []
              /\ count_email (sample_email i) (users w) = 0%nat
              /\ User.id u = next_user_id (users w)))
  | (Raise e, w') => delta w w' [] [] [] []
  end.
Proof.
  unfold create_sample_user, bind, User_exists_email, gets. cbv zeta.
  destruct (existsb (fun u => User.email u =? sample_email i) (users w))
    eqn:Ex; cbn [negb].
  - unfold User_get_email.
    destruct (filter (fun u => User.email u =? sample_email i) (users w))
      as [|u [|u' rest]] eqn:F.
    + apply delta_refl.
    + cbv beta iota zeta delta [write modify ret].
      assert (Hu : In u (filter (fun u => User.email u =? sample_email i)
                           (users w))) by (rewrite F; now left).
      apply filter_In in Hu. destruct Hu as [Hin He].
      apply String.eqb_eq in He. split; [exact He|]. left.
      split; [now apply delta_same|]. split; [exact Hin|].
      unfold count_email. now rewrite F.
    + apply delta_refl.
  - unfold random_choice, next_random, bind, ret, User_create_user.
    cbv beta iota zeta.
    match goal with |- context [if ?c then _ else _] => destruct c end.
    + now apply delta_same.
    + cbv beta iota zeta delta [write modify ret].
      split; [reflexivity|]. right. split; [|split].
      * now apply delta_insert_user.
      * unfold count_email. now rewrite (existsb_false_filter _ _ Ex).
      * reflexivity.
Qed.

(** Lines 98-109. *)
Lemma create_fallback_host_run s hosts w :
  match create_fallback_host s hosts w with
  | (Ok hs, w') =>
      (hosts <> [] /\ hs = hosts /\ w' = w)
      \/ (hosts = []
          /\ exists h, hs = [h] /\ User.role h = "host"%string
                       /\ User.email h = "auto_host@example.com"%string
                       /\ User.username h = "auto_host"%string
                       /\ User.id h = next_user_id (users w)
                       /\ delta w w' [h] [] [] [])
  | (Raise e, w') => hosts = [] /\ delta w w' [] [] [] []
  end.
Proof.
  destruct hosts as [|h hs].
  - unfold create_fallback_host, bind, write, modify, User_create_user.
    match goal with |- context [if ?c then _ else _] => destruct c end.
    + split; [reflexivity|]. now apply delta_same.
    + right. split; [reflexivity|]. eexists. split; [reflexivity|].
      split; [reflexivity|]. split; [reflexivity|]. split; [reflexivity|].
      split; [reflexivity|].
      now apply delta_insert_user.
  - left. cbn. repeat split. discriminate.
Qed.

(** Lines 116-131: a listing is always created, for the host of the turn. *)
Lemma create_sample_listing_run host i w :
  exists l w',
    create_sample_listing host i w = (Ok l, w')
    /\ Listing.host l = User.id host
    /\ delta w w' [] [l] [] [].
Proof.
  eexists. eexists. split; [reflexivity|]. split; [reflexivity|].
  apply delta_insert_listing; reflexivity.
Qed.

Lemma days_between_add (d n : Z) :
  days_between d (date_add_days d n) = n.
Proof. unfold days_between, date_add_days. lia. Qed.

(** Lines 137-152: without guests a warning is printed; otherwise one
    booking is created for the listing, for between two and seven nights,
    at the price of the listing times the nights. *)
Lemma create_sample_booking_run guests listing w :
  exists w',
    create_sample_booking guests listing w = (Ok tt, w')
    /\ match guests with
       | [] =>
           delta w w' [] [] [] []
           /\ stdout w' = stdout w ++ [no_guest_for_booking listing]
       | _ :: _ =>
           exists b,
             delta w w' [] [] [b] []
             /\ Booking.property b = Listing.listing_id listing
             /\ (exists g, In g guests /\ Booking.user b = User.id g)
             /\ 2 <= days_between (Booking.check_in_date b)
                       (Booking.check_out_date b) <= 7
             /\ Booking.total_price b
                = (Listing.price_per_night listing
                   * float_of_Z (days_between (Booking.check_in_date b)
                                   (Booking.check_out_date b)))%float
       end.
Proof.
  destruct guests as [|g gs].
  - eexists. split; [reflexivity|]. split; [now apply delta_same|reflexivity].
  - unfold create_sample_booking, random_choice, random_randint, bind,
      next_random, timezone_now, ret, Booking_create, uuid4, write, modify.
    cbv beta iota zeta.
    eexists. split; [reflexivity|]. eexists.
    split; [apply delta_insert_booking; reflexivity|].
    split; [reflexivity|].
    split.
    { eexists. split; [|reflexivity].
      apply nth_In. apply choice_index_lt. simpl. lia. }
    cbn [Booking.check_in_date Booking.check_out_date Booking.total_price].
    split; [|reflexivity].
    rewrite days_between_add.
    match goal with
    | |- _ <= 2 + ?x mod ?m <= _ =>
        assert (0 <= x mod (7 - 2 + 1) < 7 - 2 + 1)
          by (apply Z.mod_pos_bound; lia)
    end.
    lia.
Qed.

(** Lines 158-175: without guests a warning is printed; with guests, a
    reviewer is drawn, and either the pair has a review and a warning is
    printed, or it has none and one review is inserted.  No turn raises. *)
Lemma create_sample_review_run guests listing w :
  exists w',
    create_sample_review guests listing w = (Ok tt, w')
    /\ match guests with
       | [] =>
           delta w w' [] [] [] []
           /\ stdout w' = stdout w ++ [no_guest_for_review listing]
       | _ :: _ =>
           exists reviewer,
             In reviewer guests
             /\ let p := (Listing.listing_id listing, User.id reviewer) in
                ((1 <= count_reviews p (reviews w))%nat
                 /\ delta w w' [] [] [] []
                 /\ stdout w' = stdout w ++ [already_reviewed reviewer listing])
                \/ (count_reviews p (reviews w) = 0%nat
                    /\ exists r,
                         Review.unique_together r = p
                         /\ delta w w' [] [] [] [r]
                         /\ stdout w'
                            = stdout w ++ [review_created reviewer listing])
       end.
Proof.
  destruct guests as [|g gs].
  - eexists. split; [reflexivity|]. split; [now apply delta_same|reflexivity].
  - cbv beta iota zeta delta
      [create_sample_review bind random_choice next_random ret
       Review_exists gets].
    cbn [reviews tick_random].
    set (reviewer :=
           nth (N.to_nat (random_outputs (env w) (random_calls w)
                            mod N.of_nat (List.length (g :: gs))))
             (g :: gs) g).
    assert (Hin : In reviewer (g :: gs)).
    { apply nth_In. apply choice_index_lt. simpl. lia. }
    destruct (existsb
                (fun r => pair_eqb (Review.unique_together r)
                            (Listing.listing_id listing, User.id reviewer))
                (reviews w)) eqn:Ex; cbn [negb].
    + eexists. split; [reflexivity|]. exists reviewer. split; [exact Hin|].
      left. split; [exact (existsb_true_filter _ _ Ex)|].
      split; [now apply delta_same|reflexivity].
    + cbv beta iota zeta delta
        [Review_create random_randint random_choice REVIEW_COMMENTS bind
         next_random ret uuid4 timezone_now].
      cbn [reviews tick_random tick_now tick_uuid4].
      assert (Ex' := Ex).
      cbv beta iota delta [Review.unique_together Review.property Review.user]
        in Ex' |- *.
      rewrite Ex'.
      eexists. split; [reflexivity|]. exists reviewer. split; [exact Hin|].
      right. split.
      { unfold count_reviews. now rewrite (existsb_false_filter _ _ Ex). }
      eexists. split; [|split].
      2: { apply delta_insert_review; reflexivity. }
      2: { reflexivity. }
      reflexivity.
Qed.

(* ------------------------------------------------------------------ *)
(** ** The loops of the command *)

Lemma count_email_grows e w w' us ls bs rs :
  delta w w' us ls bs rs ->
  count_email e (users w') = (count_email e (users w) + count_email e us)%nat.
Proof. intros (U & _). rewrite U. apply count_email_app. Qed.

Lemma count_email_none e (us : list User.t) :
  (forall u, In u us -> User.email u <> e) -> count_email e us = 0%nat.
Proof.
  intros H. unfold count_email.
  induction us as [|u us IH]; simpl; [reflexivity|].
  destruct (String.eqb_spec (User.email u) e) as [E|E].
  - exfalso. apply (H u); [now left | exact E].
  - apply IH. intros v Hv. apply H. now right.
Qed.

(** The loop of lines 78-93 over any list of indices.  The rows it inserts
    have emails that were not in the table, and when it ends normally every
    index has exactly one row with its email. *)
Lemma create_sample_user_loop s (indices : list Z) :
  forall w,
    match forM indices (create_sample_user s) w with
    | (Ok us, w') =>
        exists new,
          delta w w' new [] [] []
          /\ (forall u, In u us -> In u (users w'))
          /\ map User.email us = map sample_email indices
          /\ (forall u, In u new ->
                count_email (User.email u) (users w) = 0%nat)
          /\ (forall i, In i indices ->
                count_email (sample_email i) (users w') = 1%nat)
    | (Raise e, w') =>
        exists new,
          delta w w' new [] [] []
          /\ (forall u, In u new ->
                count_email (User.email u) (users w) = 0%nat)
    end.
Proof.
  induction indices as [|i rest IH]; intros w.
  - simpl. exists []. split; [apply delta_refl|].
    repeat split; intros ? [].
  - simpl. unfold bind at 1.
    pose proof (create_sample_user_run s i w) as Hi.
    destruct (create_sample_user s i w) as [[u|e] w1].
    2:{ exists []. split; [exact Hi|]. intros ? []. }
    destruct Hi as [Hmail Hi].
    assert (H1 : exists new1,
               delta w w1 new1 [] [] []
               /\ In u (users w1)
               /\ (forall v, In v new1 ->
                     count_email (User.email v) (users w) = 0%nat)
               /\ count_email (sample_email i) (users w1) = 1%nat).
    { destruct Hi as [(D & Hin & Hc)|(D & Hc & _)].
      - exists []. split; [exact D|]. destruct D as (U & _).
        rewrite U, app_nil_r. repeat split; auto. intros ? [].
      - exists [u]. split; [exact D|].
        rewrite (count_email_grows _ _ _ _ _ _ _ D), Hc.
        destruct D as (U & _). rewrite U. split; [apply in_or_app; right; now left|].
        split.
        + intros v [<-|[]]. now rewrite Hmail.
        + unfold count_email. simpl. rewrite Hmail, String.eqb_refl.
          reflexivity. }
    destruct H1 as (new1 & D1 & Hu & Hnew1 & Hc1).
    specialize (IH w1). unfold bind.
    destruct (forM rest (create_sample_user s) w1) as [[us|e] w'].
    + destruct IH as (new2 & D2 & Hus & Hmap & Hnew2 & Hc2).
      cbn [ret].
      assert (Hzero : forall e, (1 <= count_email e (users w1))%nat ->
                count_email e new2 = 0%nat).
      { intros e He. apply count_email_none. intros v Hv Ev.
        specialize (Hnew2 v Hv). rewrite Ev in Hnew2. lia. }
      exists (new1 ++ new2).
      split; [exact (delta_trans _ _ _ _ _ _ _ _ _ _ _ D1 D2)|].
      split.
      { intros v [<-|Hv]; [|now apply Hus].
        destruct D2 as (U2 & _). rewrite U2. apply in_or_app. now left. }
      split; [simpl; now rewrite Hmail, Hmap|].
      split.
      { intros v Hv. apply in_app_or in Hv. destruct Hv as [Hv|Hv].
        - now apply Hnew1.
        - specialize (Hnew2 v Hv).
          rewrite (count_email_grows _ _ _ _ _ _ _ D1) in Hnew2. lia. }
      intros j [<-|Hj]; [|now apply Hc2].
      rewrite (count_email_grows _ _ _ _ _ _ _ D2), Hc1.
      rewrite Hzero; [reflexivity|lia].
    + destruct IH as (new2 & D2 & Hnew2).
      exists (new1 ++ new2).
      split; [exact (delta_trans _ _ _ _ _ _ _ _ _ _ _ D1 D2)|].
      intros v Hv. apply in_app_or in Hv. destruct Hv as [Hv|Hv].
      * now apply Hnew1.
      * specialize (Hnew2 v Hv).
        rewrite (count_email_grows _ _ _ _ _ _ _ D1) in Hnew2. lia.
Qed.

Lemma filter_length_one {A} (f : A -> bool) (l : list A) :
  List.length (filter f l) = 1%nat -> exists a, filter f l = [a].
Proof.
  destruct (filter f l) as [|a [|b r]]; simpl; try discriminate.
  intros _. now exists a.
Qed.

(** Line 92: a user whose email is in the table once is read, a warning is
    printed, and nothing else changes. *)
Lemma create_sample_user_reuse s i w :
  count_email (sample_email i) (users w) = 1%nat ->
  exists u,
    create_sample_user s i w = (Ok u, print (already_exists i) w)
    /\ In u (users w)
    /\ User.email u = sample_email i.
Proof.
  intros Hc. unfold count_email in Hc.
  destruct (filter_length_one _ _ Hc) as [u F].
  assert (Hu : In u (filter (fun u => User.email u =? sample_email i)
                       (users w))) by (rewrite F; now left).
  apply filter_In in Hu. destruct Hu as [Hin He].
  assert (Ex : existsb (fun u => User.email u =? sample_email i) (users w)
               = true).
  { apply existsb_exists. now exists u. }
  exists u. split; [|split; [exact Hin | now apply String.eqb_eq]].
  unfold create_sample_user, bind, User_exists_email, gets. cbv zeta.
  rewrite Ex. cbn [negb]. unfold User_get_email. rewrite F. reflexivity.
Qed.

(** The loop of lines 78-93 when every email is in the table once: every
    user is read and no row is written. *)
Lemma create_sample_user_loop_reuse s (indices : list Z) :
  forall w,
    (forall i, In i indices ->
       count_email (sample_email i) (users w) = 1%nat) ->
    exists us,
      forM indices (create_sample_user s) w
      = (Ok us, print_all (map already_exists indices) w)
      /\ (forall u, In u us -> In u (users w))
      /\ map User.email us = map sample_email indices.
Proof.
  induction indices as [|i rest IH]; intros w H.
  - exists []. repeat split. intros ? [].
  - destruct (create_sample_user_reuse s i w (H i (or_introl eq_refl)))
      as (u & Hrun & Hin & Hmail).
    destruct (IH (print (already_exists i) w)) as (us & Hloop & Hus & Hmap).
    { intros j Hj. apply H. now right. }
    exists (u :: us). split; [|split].
    + simpl. unfold bind at 1. rewrite Hrun. unfold bind. rewrite Hloop.
      reflexivity.
    + intros v [<-|Hv]; [exact Hin|]. exact (Hus v Hv).
    + simpl. now rewrite Hmail, Hmap.
Qed.

Lemma print_all_tables lines w :
  users (print_all lines w) = users w
  /\ listings (print_all lines w) = listings w
  /\ bookings (print_all lines w) = bookings w
  /\ reviews (print_all lines w) = reviews w
  /\ orm_calls (print_all lines w) = orm_calls w
  /\ stdout (print_all lines w) = stdout w ++ lines.
Proof.
  revert w. induction lines as [|l lines IH]; intros w.
  - simpl. now rewrite app_nil_r.
  - simpl. destruct (IH (print l w)) as (U & L & B & R & C & S).
    rewrite U, L, B, R, C, S. cbn. now rewrite <- app_assoc.
Qed.

Lemma print_all_app l1 l2 w :
  print_all (l1 ++ l2) w = print_all l2 (print_all l1 w).
Proof. unfold print_all. apply fold_left_app. Qed.

(** The inner loop of lines 115-131. *)
Lemma create_sample_listing_loop host (indices : list Z) :
  forall w,
    exists ls w',
      forM indices (create_sample_listing host) w = (Ok ls, w')
      /\ delta w w' [] ls [] []
      /\ (forall l, In l ls -> Listing.host l = User.id host)
      /\ List.length ls = List.length indices.
Proof.
  induction indices as [|i rest IH]; intros w.
  - exists [], w. split; [reflexivity|]. split; [apply delta_refl|].
    split; [intros ? []|reflexivity].
  - destruct (create_sample_listing_run host i w) as (l & w1 & Hrun & Hh & D1).
    destruct (IH w1) as (ls & w' & Hloop & D2 & Hls & Hlen).
    exists (l :: ls), w'. split; [|split; [|split]].
    + simpl. unfold bind at 1. rewrite Hrun. unfold bind. rewrite Hloop.
      reflexivity.
    + exact (delta_trans _ _ _ _ _ _ _ _ _ _ _ D1 D2).
    + intros x [<-|Hx]; [exact Hh|]. exact (Hls x Hx).
    + simpl. now rewrite Hlen.
Qed.

(** The two loops of lines 114-131: the listings that are created are the
    rows appended to the table, each for one of the hosts. *)
Lemma create_sample_listings_run hosts n w :
  exists ls w',
    create_sample_listings hosts n w = (Ok ls, w')
    /\ delta w w' [] ls [] []
    /\ (forall l, In l ls ->
          exists h, In h hosts /\ Listing.host l = User.id h)
    /\ List.length ls = (List.length hosts * Z.to_nat n)%nat.
Proof.
  unfold create_sample_listings, bind, write, modify.
  cbv beta iota.
  assert (D0 : delta w (print (NOTICE, "Creating sample listings..."%string) w)
                 [] [] [] []) by now apply delta_same.
  revert D0. generalize (print (NOTICE, "Creating sample listings..."%string) w).
  intros w0 D0.
  assert (H : exists lss w',
             forM hosts (fun host =>
               forM (range n) (create_sample_listing host)) w0
             = (Ok lss, w')
             /\ delta w0 w' [] (List.concat lss) [] []
             /\ (forall l, In l (List.concat lss) ->
                   exists h, In h hosts /\ Listing.host l = User.id h)
             /\ List.length (List.concat lss)
                = (List.length hosts * Z.to_nat n)%nat).
  { clear D0. revert w0.
    induction hosts as [|h hs IH]; intros w0.
    - exists [], w0. split; [reflexivity|]. split; [apply delta_refl|].
      split; [intros ? []|reflexivity].
    - destruct (create_sample_listing_loop h (range n) w0)
        as (ls & w1 & Hrun & D1 & Hls & Hlen).
      destruct (IH w1) as (lss & w' & Hloop & D2 & Hlss & Hlen2).
      exists (ls :: lss), w'. split; [|split; [|split]].
      + simpl. unfold bind at 1. rewrite Hrun. unfold bind. rewrite Hloop.
        reflexivity.
      + simpl. exact (delta_trans _ _ _ _ _ _ _ _ _ _ _ D1 D2).
      + simpl. intros l Hl. apply in_app_or in Hl. destruct Hl as [Hl|Hl].
        * exists h. split; [now left | now apply Hls].
        * destruct (Hlss l Hl) as (h' & Hh' & E). exists h'.
          split; [now right | exact E].
      + simpl. rewrite length_app, Hlen, Hlen2.
        unfold range. now rewrite length_map, length_seq. }
  destruct H as (lss & w' & Hrun & D & Hh & Hlen).
  exists (List.concat lss), w'. rewrite Hrun. split; [reflexivity|].
  split; [exact (delta_trans _ _ _ _ _ _ _ _ _ _ _ D0 D)|].
  split; [exact Hh | exact Hlen].
Qed.

Lemma bind_run {A B} (m : M A) (k : A -> M B) w :
  bind m k w
  = match m w with
    | (Ok a, w1) => k a w1
    | (Raise e, w1) => (Raise e, w1)
    end.
Proof. reflexivity. Qed.

(** A loop whose turns all end normally and are related by a preorder. *)
Lemma for_each_total {A} (R : World -> World -> Prop) (xs : list A)
    (body : A -> M unit) :
  (forall w, R w w) ->
  (forall a b c, R a b -> R b c -> R a c) ->
  (forall x w, In x xs -> exists w', body x w = (Ok tt, w') /\ R w w') ->
  forall w, exists w', for_each xs body w = (Ok tt, w') /\ R w w'.
Proof.
  intros Hrefl Htrans. induction xs as [|x xs IH]; intros Hbody w.
  - exists w. split; [reflexivity | apply Hrefl].
  - destruct (Hbody x w (or_introl eq_refl)) as (w1 & Hrun & R1).
    destruct (IH (fun y w Hy => Hbody y w (or_intror Hy)) w1)
      as (w' & Hloop & R2).
    exists w'. split; [|exact (Htrans _ _ _ R1 R2)].
    simpl. rewrite bind_run, Hrun. exact Hloop.
Qed.

(** A loop whose turns only print. *)
Lemma for_each_print_all {A} (lines : A -> list (Style * string))
    (xs : list A) (body : A -> M unit) :
  (forall x w, body x w = (Ok tt, print_all (lines x) w)) ->
  forall w, for_each xs body w = (Ok tt, print_all (flat_map lines xs) w).
Proof.
  intros Hbody. induction xs as [|x xs IH]; intros w.
  - reflexivity.
  - simpl. rewrite bind_run, Hbody, IH, print_all_app. reflexivity.
Qed.

(** Lines 134-152: the loops end normally, and every booking they add is
    priced from the listing it is for. *)
Lemma create_sample_bookings_run ls guests n w :
  exists w' bs,
    create_sample_bookings ls guests n w = (Ok tt, w')
    /\ delta w w' [] [] bs []
    /\ (forall b, In b bs -> priced_from ls b).
Proof.
  unfold create_sample_bookings. rewrite bind_run.
  unfold write, modify.
  set (w0 := print (NOTICE, "Creating sample bookings..."%string) w).
  assert (D0 : delta w w0 [] [] [] []) by now apply delta_same.
  pose (R := fun a b : World =>
               exists bs, delta a b [] [] bs []
                          /\ forall x, In x bs -> priced_from ls x).
  assert (Hrefl : forall a, R a a).
  { intros a. exists []. split; [apply delta_refl | intros ? []]. }
  assert (Htrans : forall a b c, R a b -> R b c -> R a c).
  { intros a b c (b1 & D1 & P1) (b2 & D2 & P2). exists (b1 ++ b2).
    split; [exact (delta_trans _ _ _ _ _ _ _ _ _ _ _ D1 D2)|].
    intros x Hx. apply in_app_or in Hx. destruct Hx; auto. }
  destruct (for_each_total R ls
              (fun listing =>
                 for_each (range n)
                   (fun _ => create_sample_booking guests listing))
              Hrefl Htrans) with (w := w0) as (w' & Hrun & (bs & D & P)).
  { intros l w1 Hl.
    apply (for_each_total R (range n)
             (fun _ => create_sample_booking guests l) Hrefl Htrans).
    intros i w2 _.
    destruct (create_sample_booking_run guests l w2) as (w3 & Hrun & Hb).
    exists w3. split; [exact Hrun|].
    destruct guests as [|g gs].
    - exists []. split; [apply Hb | intros ? []].
    - destruct Hb as (b & D & Hp & _ & Hn & Ht).
      exists [b]. split; [exact D|]. intros x [<-|[]].
      exists l. auto. }
  exists w', bs. split; [exact Hrun|].
  split; [exact (delta_trans _ _ _ _ _ _ _ _ _ _ _ D0 D) | exact P].
Qed.

(** One more review of a pair that has none keeps [unique_together]. *)
Lemma reviews_unique_add rs r :
  reviews_unique rs ->
  count_reviews (Review.unique_together r) rs = 0%nat ->
  reviews_unique (rs ++ [r]).
Proof.
  intros Hu Hc p. rewrite count_reviews_app.
  unfold count_reviews at 2. simpl.
  destruct (pair_eqb (Review.unique_together r) p) eqn:E.
  - apply pair_eqb_eq in E. subst p. rewrite Hc. simpl. lia.
  - simpl. specialize (Hu p). lia.
Qed.

(** Lines 155-175: the loops end normally, only add reviews, and keep
    [unique_together]. *)
Lemma create_sample_reviews_run ls guests n w :
  exists w' rs,
    create_sample_reviews ls guests n w = (Ok tt, w')
    /\ delta w w' [] [] [] rs
    /\ (reviews_unique (reviews w) -> reviews_unique (reviews w')).
Proof.
  unfold create_sample_reviews. rewrite bind_run.
  unfold write, modify.
  set (w0 := print (NOTICE, "Creating sample reviews..."%string) w).
  assert (D0 : delta w w0 [] [] [] []) by now apply delta_same.
  pose (R := fun a b : World =>
               exists rs, delta a b [] [] [] rs
                          /\ (reviews_unique (reviews a) ->
                              reviews_unique (reviews b))).
  assert (Hrefl : forall a, R a a).
  { intros a. exists []. split; [apply delta_refl | auto]. }
  assert (Htrans : forall a b c, R a b -> R b c -> R a c).
  { intros a b c (r1 & D1 & P1) (r2 & D2 & P2). exists (r1 ++ r2).
    split; [exact (delta_trans _ _ _ _ _ _ _ _ _ _ _ D1 D2) | auto]. }
  destruct (for_each_total R ls
              (fun listing =>
                 for_each (range n)
                   (fun _ => create_sample_review guests listing))
              Hrefl Htrans) with (w := w0) as (w' & Hrun & (rs & D & P)).
  { intros l w1 Hl.
    apply (for_each_total R (range n)
             (fun _ => create_sample_review guests l) Hrefl Htrans).
    intros i w2 _.
    destruct (create_sample_review_run guests l w2) as (w3 & Hrun & Hr).
    exists w3. split; [exact Hrun|].
    destruct guests as [|g gs].
    - exists []. split; [apply Hr|]. destruct Hr as ((_ & _ & _ & E & _) & _).
      rewrite E, app_nil_r. auto.
    - destruct Hr as (reviewer & _ & [(_ & D & _)|(Hc & r & Hp & D & _)]).
      + exists []. split; [exact D|]. destruct D as (_ & _ & _ & E & _).
        rewrite E, app_nil_r. auto.
      + exists [r]. split; [exact D|]. destruct D as (_ & _ & _ & E & _).
        rewrite E. intros Hu. apply reviews_unique_add; [exact Hu|].
        now rewrite Hp. }
  exists w', rs. split; [exact Hrun|].
  split; [exact (delta_trans _ _ _ _ _ _ _ _ _ _ _ D0 D) | exact P].
Qed.

(** Lines 133-178 without guests: nothing but lines is written. *)
Lemma seed_bookings_and_reviews_no_guest options ls w :
  seed_bookings_and_reviews options ls [] w
  = (Ok tt,
     print_all
       ([(NOTICE, "Creating sample bookings..."%string)]
        ++ no_guest_lines no_guest_for_booking ls
             (num_bookings_per_listing options)
        ++ [(NOTICE, "Creating sample reviews..."%string)]
        ++ no_guest_lines no_guest_for_review ls
             (num_reviews_per_listing options)
        ++ [(SUCCESS, "Database seeding completed successfully!"%string)])
       w).
Proof.
  assert (Hb : forall n w,
             for_each ls (fun listing =>
               for_each (range n)
                 (fun _ => create_sample_booking [] listing)) w
             = (Ok tt, print_all (no_guest_lines no_guest_for_booking ls n) w)).
  { intros n. apply for_each_print_all. intros l w1.
    apply (for_each_print_all (fun _ => [no_guest_for_booking l])).
    intros _ w2. reflexivity. }
  assert (Hr : forall n w,
             for_each ls (fun listing =>
               for_each (range n)
                 (fun _ => create_sample_review [] listing)) w
             = (Ok tt, print_all (no_guest_lines no_guest_for_review ls n) w)).
  { intros n. apply for_each_print_all. intros l w1.
    apply (for_each_print_all (fun _ => [no_guest_for_review l])).
    intros _ w2. reflexivity. }
  unfold seed_bookings_and_reviews, create_sample_bookings,
    create_sample_reviews.
  rewrite !print_all_app.
  rewrite bind_run, bind_run. unfold write at 1, modify at 1.
  rewrite Hb. rewrite bind_run, bind_run. unfold write at 1, modify at 1.
  rewrite Hr. reflexivity.
Qed.

(* ------------------------------------------------------------------ *)
(** ** The clear phase and what comes before the bookings *)

(** Lines 62-68. *)
Lemma clear_existing_data_run w :
  let w' := snd (clear_existing_data w) in
  fst (clear_existing_data w) = Ok tt
  /\ users w' = filter User.is_superuser (users w)
  /\ listings w' = []
  /\ bookings w' = []
  /\ reviews w' = []
  /\ orm_calls w' = orm_calls w ++ clear_calls
  /\ stdout w'
     = stdout w ++ [ (WARNING, "Clearing existing data..."%string);
                     (SUCCESS, "Existing data cleared."%string) ].
Proof.
  unfold clear_existing_data, Review_delete_all, Booking_delete_all,
    Listing_delete_all, User_delete_not_superuser, write.
  cbn. rewrite filter_negb_negb, filter_none, <- !app_assoc. repeat split.
Qed.

Lemma clear_then {A} options (k : M A) w :
  (write NOTICE "Starting database seeding..." ;;
   (if clear options then clear_existing_data else ret tt) ;;
   k)%seed w
  = k (after_clear options w).
Proof.
  rewrite bind_run. unfold write at 1, modify at 1. rewrite bind_run.
  unfold after_clear. destruct (clear options).
  - pose proof (clear_existing_data_run
                  (print (NOTICE, "Starting database seeding..."%string) w))
      as (Hok & _).
    destruct (clear_existing_data _) as [[[]|e] w1]; simpl in *;
      [reflexivity | discriminate].
  - reflexivity.
Qed.

(** Lines 60-131: the listings the command goes on with are the rows it
    appended, each of a user of the table whose role is host; the guests are
    users of the table whose role is guest. *)
Lemma seed_users_and_listings_run s options w :
  match seed_users_and_listings s options w with
  | (Ok (ls, gs), w') =>
      exists us,
        delta (after_clear options w) w' us ls [] []
        /\ (forall l, In l ls -> hosted (users w') l)
        /\ (forall g, In g gs ->
              In g (users w') /\ User.role g = "guest"%string)
  | (Raise e, w') =>
      exists us, delta (after_clear options w) w' us [] [] []
  end.
Proof.
  unfold seed_users_and_listings. rewrite clear_then.
  generalize (after_clear options w). intros wc.
  rewrite bind_run. unfold create_sample_users. rewrite bind_run.
  unfold write at 1, modify at 1.
  set (w0 := print (NOTICE,
                    ("Creating " ++ str (num_users options)
                       ++ " sample users...")%string) wc).
  assert (D0 : delta wc w0 [] [] [] []) by now apply delta_same.
  pose proof (create_sample_user_loop s (range (num_users options)) w0) as Hu.
  destruct (forM (range (num_users options)) (create_sample_user s) w0)
    as [[us|e] w1].
  2:{ destruct Hu as (new & D1 & _). exists new.
      exact (delta_trans _ _ _ _ _ _ _ _ _ _ _ D0 D1). }
  destruct Hu as (new & D1 & Hus & _).
  cbv zeta. rewrite bind_run.
  pose proof (create_fallback_host_run s (filter is_host us) w1) as Hf.
  destruct (create_fallback_host s (filter is_host us) w1) as [[hs|e] w2].
  2:{ destruct Hf as (_ & D2). eexists.
      exact (delta_trans _ _ _ _ _ _ _ _ _ _ _
               (delta_trans _ _ _ _ _ _ _ _ _ _ _ D0 D1) D2). }
  assert (H2 : exists new2,
             delta w1 w2 new2 [] [] []
             /\ forall h, In h hs ->
                  In h (users w2) /\ User.role h = "host"%string).
  { destruct Hf as [(_ & -> & ->)|(_ & h & -> & Hrole & _ & _ & _ & D2)].
    - exists []. split; [apply delta_refl|].
      intros h Hh. apply filter_In in Hh. destruct Hh as [Hh Hr].
      split; [now apply Hus | now apply String.eqb_eq].
    - exists [h]. split; [exact D2|]. intros x [<-|[]].
      split; [|exact Hrole]. destruct D2 as (U & _). rewrite U.
      apply in_or_app. right. now left. }
  destruct H2 as (new2 & D2 & Hhs).
  rewrite bind_run.
  destruct (create_sample_listings_run hs (num_listings_per_host options) w2)
    as (ls & w3 & Hrun & D3 & Hls & _).
  rewrite Hrun. cbn [ret].
  pose proof (delta_trans _ _ _ _ _ _ _ _ _ _ _
                (delta_trans _ _ _ _ _ _ _ _ _ _ _
                   (delta_trans _ _ _ _ _ _ _ _ _ _ _ D0 D1) D2) D3) as D.
  eexists. split; [exact D|].
  assert (U3 : users w3 = users w2)
    by (destruct D3 as (U & _); now rewrite U, app_nil_r).
  assert (U2 : forall u, In u (users w1) -> In u (users w2)).
  { intros u Hu. destruct D2 as (U & _). rewrite U. apply in_or_app.
    now left. }
  split.
  - intros l Hl. destruct (Hls l Hl) as (h & Hh & E).
    destruct (Hhs h Hh) as (Hin & Hrole).
    exists h. rewrite U3. auto.
  - intros g Hg. apply filter_In in Hg. destruct Hg as [Hg Hr].
    rewrite U3. split; [apply U2; now apply Hus | now apply String.eqb_eq].
Qed.

Lemma after_clear_tables options w :
  let wc := after_clear options w in
  users wc = (if clear options then filter User.is_superuser (users w)
              else users w)
  /\ listings wc = (if clear options then [] else listings w)
  /\ bookings wc = (if clear options then [] else bookings w)
  /\ reviews wc = (if clear options then [] else reviews w)
  /\ orm_calls wc
     = orm_calls w ++ (if clear options then clear_calls else []).
Proof.
  unfold after_clear. destruct (clear options).
  - pose proof (clear_existing_data_run
                  (print (NOTICE, "Starting database seeding..."%string) w))
      as (_ & U & L & B & R & C & _).
    cbv zeta in *. rewrite U, L, B, R, C. repeat split.
  - cbn. now rewrite app_nil_r.
Qed.

(* ------------------------------------------------------------------ *)
(** ** The whole command *)

(** However [handle] ends, it has appended rows to the tables as they were
    after the clear phase: listings of host users, bookings priced from
    those listings, and reviews that keep [unique_together]. *)
Lemma handle_run s options w :
  let wc := after_clear options w in
  let w' := snd (handle s options w) in
  exists us ls bs rs,
    delta wc w' us ls bs rs
    /\ (forall l, In l ls -> hosted (users w') l)
    /\ (forall b, In b bs -> priced_from ls b)
    /\ (reviews_unique (reviews wc) -> reviews_unique (reviews w')).
Proof.
  cbv zeta. unfold handle. rewrite bind_run.
  pose proof (seed_users_and_listings_run s options w) as Hp.
  destruct (seed_users_and_listings s options w) as [[[ls gs]|e] w1].
  2:{ destruct Hp as (us & D). exists us, [], [], []. cbn [snd].
      split; [exact D|]. split; [intros ? []|]. split; [intros ? []|].
      destruct D as (_ & _ & _ & R & _). rewrite R, app_nil_r. auto. }
  destruct Hp as (us & D1 & Hhost & _). cbn [fst snd].
  unfold seed_bookings_and_reviews. rewrite bind_run.
  destruct (create_sample_bookings_run ls gs
              (num_bookings_per_listing options) w1)
    as (w2 & bs & Hb & D2 & Hpriced).
  rewrite Hb, bind_run.
  destruct (create_sample_reviews_run ls gs
              (num_reviews_per_listing options) w2)
    as (w3 & rs & Hr & D3 & Huniq).
  rewrite Hr. unfold write, modify. cbn [snd].
  set (w4 := print _ w3).
  assert (D4 : delta w3 w4 [] [] [] []) by now apply delta_same.
  pose proof (delta_trans _ _ _ _ _ _ _ _ _ _ _
                (delta_trans _ _ _ _ _ _ _ _ _ _ _
                   (delta_trans _ _ _ _ _ _ _ _ _ _ _ D1 D2) D3) D4) as D.
  rewrite !app_nil_r in D. cbn [app] in D.
  exists us, ls, bs, rs. split; [exact D|].
  assert (U : users w4 = users w1).
  { destruct D2 as (U2 & _), D3 as (U3 & _).
    change (users w4) with (users w3). now rewrite U3, U2, !app_nil_r. }
  split; [intros l Hl; rewrite U; now apply Hhost|].
  split; [exact Hpriced|].
  intros Hu. change (reviews w4) with (reviews w3). apply Huniq.
  destruct D1 as (_ & _ & _ & R1 & _), D2 as (_ & _ & _ & R2 & _).
  now rewrite R2, R1, !app_nil_r.
Qed.


(** C9: when the command reaches the bookings without a guest, it ends
    normally; it writes no booking and no review, and prints one warning
    for every booking and one for every review it skips, between the lines
    that open the two loops and the line that closes the run. *)
Theorem no_guest_is_not_fatal :
  forall (s : User.Schema) (options : Options) (w : World)
         (ls : list Listing.t),
    fst (seed_users_and_listings s options w) = Ok (ls, []) ->
    let w1 := snd (seed_users_and_listings s options w) in
    let w' := snd (handle s options w) in
    fst (handle s options w) = Ok tt
    /\ users w' = users w1
    /\ listings w' = listings w1
    /\ bookings w' = bookings w1
    /\ reviews w' = reviews w1
    /\ orm_calls w' = orm_calls w1
    /\ stdout w'
       = stdout w1
         ++ [(NOTICE, "Creating sample bookings..."%string)]
         ++ no_guest_lines no_guest_for_booking ls
              (num_bookings_per_listing options)
         ++ [(NOTICE, "Creating sample reviews..."%string)]
         ++ no_guest_lines no_guest_for_review ls
              (num_reviews_per_listing options)
         ++ [(SUCCESS, "Database seeding completed successfully!"%string)].
Proof.
  intros s options w ls H w1 w'. subst w1 w'.
  unfold handle. rewrite bind_run.
  destruct (seed_users_and_listings s options w) as [[[ls' gs]|e] w1];
    cbn [fst snd] in *; [|discriminate].
  injection H as -> ->.
  rewrite seed_bookings_and_reviews_no_guest. cbn [fst snd].
  destruct (print_all_tables
              ([(NOTICE, "Creating sample bookings..."%string)]
               ++ no_guest_lines no_guest_for_booking ls
                    (num_bookings_per_listing options)
               ++ [(NOTICE, "Creating sample reviews..."%string)]
               ++ no_guest_lines no_guest_for_review ls
                    (num_reviews_per_listing options)
               ++ [(SUCCESS,
                    "Database seeding completed successfully!"%string)]) w1)
    as (U & L & B & R & C & S).
  repeat split; assumption.
Qed.

(** C8: with the clear flag, the command deletes the reviews, then the
    bookings, then the listings, then the users that are not superusers;
    after that the three tables are empty and the users are the superusers
    of before, unchanged; every later manager call of the run is an insert,
    and the users at the end are those superusers followed by the users the
    run created. *)
Theorem clear_deletes_children_before_parents :
  forall (s : User.Schema) (options : Options) (w : World),
    clear options = true ->
    let w0 := print (NOTICE, "Starting database seeding..."%string) w in
    let wc := snd (clear_existing_data w0) in
    let w' := snd (handle s options w) in
    fst (clear_existing_data w0) = Ok tt
    /\ reviews wc = []
    /\ bookings wc = []
    /\ listings wc = []
    /\ users wc = filter User.is_superuser (users w)
    /\ orm_calls wc
       = orm_calls w
         ++ [ DeleteAll TReview; DeleteAll TBooking; DeleteAll TListing;
              DeleteUsersNotSuperuser ]
    /\ (exists inserts,
          orm_calls w' = orm_calls wc ++ inserts
          /\ forallb is_insert inserts = true)
    /\ (exists created,
          users w' = filter User.is_superuser (users w) ++ created).
Proof.
  intros s options w Hc w0 wc w'.
  destruct (clear_existing_data_run w0) as (Hok & U & L & B & R & C & _).
  fold wc in U, L, B, R, C.
  destruct (handle_run s options w) as (us & ls & bs & rs & D & _).
  fold w' in D. unfold after_clear in D. rewrite Hc in D.
  fold w0 in D. fold wc in D.
  destruct D as (U' & _ & _ & _ & cs & C' & F).
  repeat split; try assumption.
  - exists cs. split; assumption.
  - exists us. rewrite U', U. reflexivity.
Qed.

Lemma count_reviews_In r rs :
  In r rs -> (1 <= count_reviews (Review.unique_together r) rs)%nat.
Proof.
  intros H. unfold count_reviews. apply existsb_true_filter.
  apply existsb_exists. exists r. split; [exact H | apply pair_eqb_refl].
Qed.

(** [Review.objects.create] on any table. *)
Lemma Review_create_run property user rating comment w :
  let p := (Listing.listing_id property, User.id user) in
  match Review_create property user rating comment w with
  | (Ok r, w') =>
      count_reviews p (reviews w) = 0%nat
      /\ Review.unique_together r = p
      /\ reviews w' = reviews w ++ [r]
  | (Raise e, w') =>
      e = IntegrityError
      /\ (1 <= count_reviews p (reviews w))%nat
      /\ reviews w' = reviews w
  end.
Proof.
  cbv beta iota zeta delta [Review_create bind uuid4 timezone_now].
  cbn [reviews tick_uuid4 tick_now].
  cbv beta iota delta [Review.unique_together Review.property Review.user].
  match goal with |- context [existsb ?f ?l] => destruct (existsb f l) eqn:E end.
  - split; [reflexivity|]. split; [|reflexivity].
    unfold count_reviews. apply existsb_true_filter. exact E.
  - split; [|split; reflexivity].
    exact (f_equal (@List.length _) (existsb_false_filter _ _ E)).
Qed.

(** C1, as amended: in a table that satisfies [unique_together], creating a
    review for a pair that has one is refused with [IntegrityError] and
    writes nothing; whatever is created, the table satisfies
    [unique_together] afterwards; a turn of the review loop with guests ends
    normally and leaves exactly one review of the pair it drew, and when the
    pair had a review it writes no row and prints the warning of line 173;
    and after any run the table satisfies [unique_together], so that the
    pair of every review in it has exactly that one review. *)
Theorem one_review_per_listing_and_user :
  forall (s : User.Schema) (options : Options) (w : World),
    reviews_unique (reviews w) ->
    (forall property user rating comment,
       (1 <= count_reviews (Listing.listing_id property, User.id user)
               (reviews w))%nat ->
       fst (Review_create property user rating comment w)
       = Raise IntegrityError
       /\ reviews (snd (Review_create property user rating comment w))
          = reviews w)
    /\ (forall property user rating comment,
          reviews_unique
            (reviews (snd (Review_create property user rating comment w))))
    /\ (forall guests listing,
          guests <> [] ->
          exists reviewer,
            let p := (Listing.listing_id listing, User.id reviewer) in
            let w' := snd (create_sample_review guests listing w) in
            In reviewer guests
            /\ fst (create_sample_review guests listing w) = Ok tt
            /\ count_reviews p (reviews w') = 1%nat
            /\ ((1 <= count_reviews p (reviews w))%nat ->
                reviews w' = reviews w
                /\ stdout w'
                   = stdout w ++ [already_reviewed reviewer listing]))
    /\ reviews_unique (reviews (snd (handle s options w)))
    /\ (forall r, In r (reviews (snd (handle s options w))) ->
          count_reviews (Review.unique_together r)
            (reviews (snd (handle s options w))) = 1%nat).
Proof.
  intros s options w Hu.
  assert (Hend : reviews_unique (reviews (snd (handle s options w)))).
  { destruct (handle_run s options w) as (us & ls & bs & rs & D & _ & _ & H).
    apply H.
    destruct (after_clear_tables options w) as (_ & _ & _ & R & _).
    cbv zeta in R. rewrite R. destruct (clear options); [|exact Hu].
    intros p. unfold count_reviews. simpl. lia. }
  split; [|split; [|split; [|split; [exact Hend|]]]].
  4:{ intros r Hr. pose proof (Hend (Review.unique_together r)) as Hle.
      pose proof (count_reviews_In r _ Hr). lia. }
  - intros property user rating comment Hc.
    pose proof (Review_create_run property user rating comment w) as H.
    cbv zeta in H.
    destruct (Review_create property user rating comment w) as [[r|e] w'].
    + destruct H as (H0 & _). lia.
    + destruct H as (-> & _ & R). split; [reflexivity | exact R].
  - intros property user rating comment.
    pose proof (Review_create_run property user rating comment w) as H.
    cbv zeta in H.
    destruct (Review_create property user rating comment w) as [[r|e] w'].
    + destruct H as (H0 & Hp & R). cbn [snd]. rewrite R.
      apply reviews_unique_add; [exact Hu | now rewrite Hp].
    + destruct H as (_ & _ & R). cbn [snd]. now rewrite R.
  - intros guests listing Hg.
    destruct (create_sample_review_run guests listing w) as (w' & Hrun & H).
    destruct guests as [|g gs]; [congruence|].
    destruct H as (reviewer & Hin & H). exists reviewer.
    cbv zeta in *. rewrite Hrun. cbn [fst snd].
    split; [exact Hin|]. split; [reflexivity|].
    destruct H as [(Hc & D & S)|(Hc & r & Hp & D & S)].
    + destruct D as (_ & _ & _ & R & _). rewrite app_nil_r in R.
      rewrite R. split; [|auto].
      specialize (Hu (Listing.listing_id listing, User.id reviewer)). lia.
    + destruct D as (_ & _ & _ & R & _). rewrite R. split; [|lia].
      rewrite count_reviews_app, Hc. unfold count_reviews. simpl.
      now rewrite Hp, pair_eqb_refl.
Qed.

(* ------------------------------------------------------------------ *)
(** ** Running the command again *)

(** [seed_users_and_listings], stage by stage. *)
Lemma seed_users_and_listings_stages s options w :
  match create_sample_users s (num_users options) (after_clear options w) with
  | (Raise e, w1) => seed_users_and_listings s options w = (Raise e, w1)
  | (Ok us, w1) =>
      match create_fallback_host s (filter is_host us) w1 with
      | (Raise e, w2) => seed_users_and_listings s options w = (Raise e, w2)
      | (Ok hs, w2) =>
          exists ls w3,
            seed_users_and_listings s options w
            = (Ok (ls, filter is_guest us), w3)
            /\ delta w2 w3 [] ls [] []
            /\ List.length ls
               = (List.length hs
                  * Z.to_nat (num_listings_per_host options))%nat
      end
  end.
Proof.
  unfold seed_users_and_listings. rewrite clear_then, bind_run.
  destruct (create_sample_users s (num_users options)
              (after_clear options w)) as [[us|e] w1]; [|reflexivity].
  cbv zeta. rewrite bind_run.
  destruct (create_fallback_host s (filter is_host us) w1) as [[hs|e] w2];
    [|reflexivity].
  rewrite bind_run.
  destruct (create_sample_listings_run hs (num_listings_per_host options) w2)
    as (ls & w3 & Hrun & D & _ & Hlen).
  rewrite Hrun. exists ls, w3. cbn [ret]. auto.
Qed.

(** The two last loops write no user. *)
Lemma seed_bookings_and_reviews_users options ls gs w :
  exists w',
    seed_bookings_and_reviews options ls gs w = (Ok tt, w')
    /\ users w' = users w /\ listings w' = listings w.
Proof.
  unfold seed_bookings_and_reviews. rewrite bind_run.
  destruct (create_sample_bookings_run ls gs
              (num_bookings_per_listing options) w)
    as (w2 & bs & Hb & (U2 & L2 & _) & _).
  rewrite Hb, bind_run.
  destruct (create_sample_reviews_run ls gs
              (num_reviews_per_listing options) w2)
    as (w3 & rs & Hr & (U3 & L3 & _) & _).
  rewrite Hr. eexists. split; [reflexivity|]. cbn.
  rewrite U3, U2, L3, L2, !app_nil_r. auto.
Qed.

Lemma handle_users s options w :
  users (snd (handle s options w))
  = users (snd (seed_users_and_listings s options w)).
Proof.
  unfold handle. rewrite bind_run.
  destruct (seed_users_and_listings s options w) as [[lg|e] w1];
    [|reflexivity].
  destruct (seed_bookings_and_reviews_users options (fst lg) (snd lg) w1)
    as (w' & Hrun & U & _).
  rewrite Hrun. exact U.
Qed.

Lemma handle_ok_stage s options w w' :
  handle s options w = (Ok tt, w') ->
  exists lg w1,
    seed_users_and_listings s options w = (Ok lg, w1)
    /\ users w' = users w1.
Proof.
  intros H. pose proof (handle_users s options w) as U.
  rewrite H in U. cbn [snd] in U.
  unfold handle in H. rewrite bind_run in H.
  destruct (seed_users_and_listings s options w) as [[lg|e] w1];
    [|discriminate].
  exists lg, w1. auto.
Qed.

Lemma sample_email_not_auto_host i :
  sample_email i <> "auto_host@example.com"%string.
Proof. unfold sample_email. simpl. discriminate. Qed.

(** A row whose email is in the table once is the only row with it. *)
Lemma count_email_one_unique e (us : list User.t) a b :
  count_email e us = 1%nat ->
  In a us -> In b us -> User.email a = e -> User.email b = e -> a = b.
Proof.
  intros Hc Ha Hb Ea Eb. unfold count_email in Hc.
  destruct (filter_length_one _ _ Hc) as [z F].
  assert (Ha' : In a (filter (fun u => User.email u =? e) us)).
  { apply filter_In. split; [exact Ha | now apply String.eqb_eq]. }
  assert (Hb' : In b (filter (fun u => User.email u =? e) us)).
  { apply filter_In. split; [exact Hb | now apply String.eqb_eq]. }
  rewrite F in Ha', Hb'. destruct Ha' as [<-|[]], Hb' as [<-|[]].
  reflexivity.
Qed.

(** Two lists of rows of the table with the same emails, each email in the
    table once, are the same list. *)
Lemma same_rows (table : list User.t) (emails : list string) :
  (forall e, In e emails -> count_email e table = 1%nat) ->
  forall a b,
    map User.email a = emails -> map User.email b = emails ->
    (forall u, In u a -> In u table) -> (forall u, In u b -> In u table) ->
    a = b.
Proof.
  induction emails as [|e emails IH]; intros Hc a b Ma Mb Ha Hb.
  - destruct a, b; try discriminate. reflexivity.
  - destruct a as [|x a], b as [|y b]; try discriminate.
    simpl in Ma, Mb. injection Ma as Ex Ma. injection Mb as Ey Mb.
    f_equal.
    + apply (count_email_one_unique e table); auto.
      * apply Hc. now left.
      * apply Ha. now left.
      * apply Hb. now left.
    + apply IH; auto.
      * intros e' He'. apply Hc. now right.
      * intros u Hu. apply Ha. now right.
      * intros u Hu. apply Hb. now right.
Qed.

(** Lines 100-107 when [auto_host] is in the table and the user model
    declares the username or the email unique: the insert is refused. *)
Lemma create_fallback_host_collides s w :
  User.unique_username s || User.unique_email s = true ->
  (exists h, In h (users w)
             /\ User.username h = "auto_host"%string
             /\ User.email h = "auto_host@example.com"%string) ->
  create_fallback_host s [] w
  = (Raise IntegrityError,
     print (WARNING,
            "No hosts created. Creating at least one host for listings."%string)
       w).
Proof.
  intros Hs (h & Hin & Hn & He).
  unfold create_fallback_host. rewrite bind_run.
  unfold write at 1, modify at 1. rewrite bind_run.
  unfold User_create_user. cbn [users print].
  assert (E1 : existsb (fun u => User.username u =? "auto_host") (users w)
               = true).
  { apply existsb_exists. exists h. split; [exact Hin|].
    now apply String.eqb_eq. }
  assert (E2 : existsb (fun u => User.email u =? "auto_host@example.com")
                 (users w) = true).
  { apply existsb_exists. exists h. split; [exact Hin|].
    now apply String.eqb_eq. }
  rewrite E1, E2, !andb_true_r, Hs. reflexivity.
Qed.

(** What a run that ended normally leaves in the table of users. *)
Lemma handle_ok_users s options w w' :
  handle s options w = (Ok tt, w') ->
  exists us,
    (forall u, In u us -> In u (users w'))
    /\ map User.email us = map sample_email (range (num_users options))
    /\ (forall i, In i (range (num_users options)) ->
          count_email (sample_email i) (users w') = 1%nat)
    /\ (filter is_host us = [] ->
        exists h, In h (users w')
                  /\ User.username h = "auto_host"%string
                  /\ User.email h = "auto_host@example.com"%string).
Proof.
  intros H. destruct (handle_ok_stage s options w w' H) as (lg & w3 & Hp & U).
  pose proof (seed_users_and_listings_stages s options w) as Hs.
  unfold create_sample_users in Hs. rewrite bind_run in Hs.
  unfold write at 1, modify at 1 in Hs.
  match type of Hs with
  | context [forM _ _ ?w0] =>
      pose proof (create_sample_user_loop s (range (num_users options)) w0)
        as Hl;
      destruct (forM (range (num_users options)) (create_sample_user s) w0)
        as [[us|e] w1]
  end.
  2:{ rewrite Hp in Hs. discriminate. }
  destruct Hl as (new & D1 & Hus & Hmap & _ & Hcount).
  pose proof (create_fallback_host_run s (filter is_host us) w1) as Hf.
  destruct (create_fallback_host s (filter is_host us) w1) as [[hs|e] w2].
  2:{ rewrite Hp in Hs. discriminate. }
  destruct Hs as (ls & w3' & Hp' & (U3 & _) & _).
  rewrite Hp in Hp'. injection Hp' as _ <-.
  rewrite app_nil_r in U3. rewrite U, U3.
  exists us.
  destruct Hf as [(Hne & -> & ->)|(He & h & -> & _ & Hmail & Hname & _ & D2)].
  - split; [exact Hus|]. split; [exact Hmap|]. split; [exact Hcount|].
    intros E. contradiction.
  - destruct D2 as (U2 & _). rewrite U2.
    split; [intros u Hu; apply in_or_app; left; now apply Hus|].
    split; [exact Hmap|]. split.
    + intros i Hi. rewrite count_email_app, (Hcount i Hi).
      unfold count_email. simpl.
      destruct (String.eqb_spec (User.email h) (sample_email i)) as [E|E].
      * rewrite Hmail in E. symmetry in E.
        now apply sample_email_not_auto_host in E.
      * reflexivity.
    + intros _. exists h. split; [|auto]. apply in_or_app. right. now left.
Qed.

(** The loop of lines 78-93 never adds a row for an email that is in the
    table, nor two rows for one email. *)
Lemma create_sample_user_loop_bound s (indices : list Z) e :
  forall w,
    (count_email e (users (snd (forM indices (create_sample_user s) w)))
     <= Nat.max (count_email e (users w)) 1)%nat.
Proof.
  induction indices as [|i rest IH]; intros w.
  - simpl. lia.
  - simpl. rewrite bind_run.
    pose proof (create_sample_user_run s i w) as Hi.
    destruct (create_sample_user s i w) as [[u|x] w1].
    + assert (H1 : (count_email e (users w1)
                    <= Nat.max (count_email e (users w)) 1)%nat).
      { destruct Hi as [Hmail [(D & _)|(D & Hc & _)]].
        - rewrite (count_email_grows _ _ _ _ _ _ _ D).
          unfold count_email at 2. simpl. lia.
        - rewrite (count_email_grows _ _ _ _ _ _ _ D).
          unfold count_email at 2. simpl.
          destruct (String.eqb_spec (User.email u) e) as [E|E]; simpl.
          + rewrite <- E, Hmail, Hc. simpl. lia.
          + lia. }
      specialize (IH w1). rewrite bind_run.
      destruct (forM rest (create_sample_user s) w1) as [[us|x] w'];
        cbn [snd ret] in *; lia.
    + cbn [snd]. rewrite (count_email_grows _ _ _ _ _ _ _ Hi).
      unfold count_email at 2. simpl. lia.
Qed.

(** The users at the end of lines 60-131: those at the end of the first
    loop, and possibly the fallback host. *)
Lemma seed_users_and_listings_users s options w :
  let wl := snd (create_sample_users s (num_users options)
                   (after_clear options w)) in
  let wp := snd (seed_users_and_listings s options w) in
  users wp = users wl
  \/ exists h, users wp = users wl ++ [h]
               /\ User.email h = "auto_host@example.com"%string
               /\ User.id h = next_user_id (users wl).
Proof.
  cbv zeta.
  pose proof (seed_users_and_listings_stages s options w) as Hs.
  destruct (create_sample_users s (num_users options)
              (after_clear options w)) as [[us|e] w1].
  2:{ rewrite Hs. now left. }
  pose proof (create_fallback_host_run s (filter is_host us) w1) as Hf.
  destruct (create_fallback_host s (filter is_host us) w1) as [[hs|e] w2].
  - destruct Hs as (ls & w3 & -> & (U3 & _) & _). cbn [snd].
    rewrite U3, app_nil_r.
    destruct Hf as [(_ & _ & ->)|(_ & h & _ & _ & Hmail & _ & Hid & (U2 & _))].
    + now left.
    + right. exists h. now rewrite U2.
  - rewrite Hs. cbn [snd]. destruct Hf as (_ & (U2 & _)).
    left. now rewrite U2, app_nil_r.
Qed.

(** A run adds no row for an email [user<i>@example.com] that is in the
    table, nor two rows for one such email. *)
Lemma handle_sample_email_bound s options w i :
  (count_email (sample_email i) (users (snd (handle s options w)))
   <= Nat.max (count_email (sample_email i) (users (after_clear options w)))
        1)%nat.
Proof.
  rewrite handle_users.
  assert (Hl : (count_email (sample_email i)
                  (users (snd (create_sample_users s (num_users options)
                                 (after_clear options w))))
                <= Nat.max (count_email (sample_email i)
                              (users (after_clear options w))) 1)%nat).
  { unfold create_sample_users. rewrite bind_run.
    unfold write at 1, modify at 1.
    apply (create_sample_user_loop_bound s (range (num_users options))
             (sample_email i) (print _ (after_clear options w))). }
  destruct (seed_users_and_listings_users s options w)
    as [->|(h & -> & Hm & _)]; [exact Hl|].
  rewrite count_email_app. unfold count_email at 2. simpl.
  destruct (String.eqb_spec (User.email h) (sample_email i)) as [E|E].
  - rewrite Hm in E. symmetry in E. now apply sample_email_not_auto_host in E.
  - simpl. lia.
Qed.

(** C4: a run without the clear flag adds no row for an email
    [user<i>@example.com] that is in the table, nor two rows for one such
    email.  After a run that ended normally, a second run without the clear
    flag and with the same number of users reads every user of the first
    loop back from the table and writes no row in that loop; the emails
    [user<i>@example.com] are in the table of users once, before and after
    the second run, however it ends; and when the user model declares the
    username or the email unique, the second run leaves the table of users
    as it was. *)
Theorem rerun_creates_no_duplicate_user :
  forall (s : User.Schema) (options2 : Options) (w2 : World),
    clear options2 = false ->
    let n := num_users options2 in
    let w0 := after_clear options2 w2 in
    let w3 := snd (handle s options2 w2) in
    (forall i,
       (count_email (sample_email i) (users w3)
        <= Nat.max (count_email (sample_email i) (users w2)) 1)%nat)
    /\ (forall (options : Options) (w w1 : World),
          handle s options w = (Ok tt, w1) ->
          num_users options2 = num_users options ->
          users w2 = users w1 ->
          (exists us,
             create_sample_users s n w0
             = (Ok us,
                print_all (creating_users n :: map already_exists (range n))
                  w0)
             /\ (forall u, In u us -> In u (users w2))
             /\ map User.email us = map sample_email (range n))
          /\ (forall i, In i (range n) ->
                count_email (sample_email i) (users w2) = 1%nat
                /\ count_email (sample_email i) (users w3) = 1%nat)
          /\ (User.unique_username s || User.unique_email s = true ->
              users w3 = users w2)).
Proof.
  intros s options2 w2 Hclear n w0 w3.
  assert (U0 : users w0 = users w2).
  { unfold w0, after_clear. now rewrite Hclear. }
  split.
  { intros i. rewrite <- U0. apply handle_sample_email_bound. }
  intros options w w1 H1 Hn Hu.
  destruct (handle_ok_users s options w w1 H1)
    as (us1 & Hus1 & Hmap1 & Hcount & Hauto).
  rewrite <- Hn in Hmap1, Hcount. fold n in Hmap1, Hcount.
  rewrite <- Hu in Hus1, Hcount, Hauto.
  set (wn := print (creating_users n) w0).
  destruct (create_sample_user_loop_reuse s (range n) wn)
    as (us2 & Hloop & Hus2 & Hmap2).
  { intros i Hi. change (users wn) with (users w0). rewrite U0. auto. }
  change (users wn) with (users w0) in Hus2. rewrite U0 in Hus2.
  assert (Hsame : us2 = us1).
  { apply (same_rows (users w2) (map sample_email (range n))); auto.
    intros e He. apply in_map_iff in He. destruct He as (i & <- & Hi). auto. }
  subst us2.
  assert (Hrun : create_sample_users s n w0
                 = (Ok us1,
                    print_all
                      (creating_users n :: map already_exists (range n)) w0)).
  { unfold create_sample_users. rewrite bind_run.
    unfold write at 1, modify at 1. exact Hloop. }
  split; [exists us1; auto|].
  split.
  - intros i Hi. split; [auto|].
    pose proof (handle_sample_email_bound s options2 w2 i) as Hb.
    fold w3 in Hb. fold w0 in Hb. rewrite U0, (Hcount i Hi) in Hb.
    assert (Hge : (count_email (sample_email i) (users w2)
                   <= count_email (sample_email i) (users w3))%nat).
    { unfold w3. rewrite handle_users.
      destruct (seed_users_and_listings_users s options2 w2)
        as [->|(h & -> & _)]; fold n; fold w0; rewrite Hrun; cbn [snd];
        destruct (print_all_tables
                    (creating_users n :: map already_exists (range n)) w0)
          as (U & _); rewrite ?count_email_app, U, U0; lia. }
    rewrite (Hcount i Hi) in Hge. simpl in Hb. lia.
  - intros Hs. unfold w3. rewrite handle_users.
    pose proof (seed_users_and_listings_stages s options2 w2) as Hst.
    fold n in Hst. fold w0 in Hst. rewrite Hrun in Hst.
    set (wl := print_all (creating_users n :: map already_exists (range n)) w0)
      in *.
    assert (Ul : users wl = users w2).
    { destruct (print_all_tables
                  (creating_users n :: map already_exists (range n)) w0)
        as (U & _). unfold wl. now rewrite U. }
    pose proof (create_fallback_host_run s (filter is_host us1) wl) as Hf.
    destruct (create_fallback_host s (filter is_host us1) wl)
      as [[hs|e] wf] eqn:Ef.
    + destruct Hst as (ls & wx & -> & (Ux & _) & _). cbn [snd].
      rewrite Ux, app_nil_r.
      destruct Hf as [(_ & _ & ->)|(He & _)]; [exact Ul|].
      exfalso. rewrite He in Ef.
      rewrite (create_fallback_host_collides s wl Hs) in Ef;
        [discriminate|].
      rewrite Ul. auto.
    + rewrite Hst. cbn [snd]. destruct Hf as (_ & (Uf & _)).
      now rewrite Uf, app_nil_r.
Qed.

(** C3 at a failing input, for the user model of Django ([AbstractUser]: the
    username is unique).  A first run of the scenario on empty tables, in
    which both users draw the role guest, creates the fallback host and one
    listing.  A second run on the tables it leaves reads the two guests
    back, finds no host, and raises [IntegrityError] when it creates
    [auto_host] again: it creates no listing.  So does a run of the scenario
    on tables that hold [auto_host] alone, in which both users are created
    as guests. *)
Theorem fallback_host_is_created_without_a_lookup :
  let first := handle User.AbstractUser scenario (empty_world first_choices) in
  let second := handle User.AbstractUser scenario (snd first) in
  let no_user :=
    {| clear := false; num_users := 0; num_listings_per_host := 0;
       num_bookings_per_listing := 0; num_reviews_per_listing := 0 |} in
  let auto_host_alone :=
    snd (handle User.AbstractUser no_user (empty_world first_choices)) in
  let third := handle User.AbstractUser scenario auto_host_alone in
  fst first = Ok tt
  /\ map User.username (users (snd first))
     = ["user0"; "user1"; "auto_host"]%string
  /\ map User.role (users (snd first)) = ["guest"; "guest"; "host"]%string
  /\ List.length (listings (snd first)) = 1%nat
  /\ fst second = Raise IntegrityError
  /\ users (snd second) = users (snd first)
  /\ listings (snd second) = listings (snd first)
  /\ map User.username (users auto_host_alone) = ["auto_host"]%string
  /\ listings auto_host_alone = []
  /\ fst third = Raise IntegrityError
  /\ map User.role (users (snd third)) = ["host"; "guest"; "guest"]%string
  /\ listings (snd third) = [].
Proof.
  cbv zeta. repeat apply conj; vm_compute; reflexivity.
Qed.

(* ------------------------------------------------------------------ *)
(** ** The read shapes *)

Lemma insert_by_created_at_perm r rs :
  Permutation (r :: rs) (insert_by_created_at r rs).
Proof.
  induction rs as [|x rs IH]; simpl; [reflexivity|].
  destruct (Z.ltb (Review.created_at x) (Review.created_at r)).
  - reflexivity.
  - rewrite perm_swap. now apply perm_skip.
Qed.

Lemma order_by_created_at_desc_perm rs :
  Permutation rs (order_by_created_at_desc rs).
Proof.
  induction rs as [|r rs IH]; simpl; [reflexivity|].
  rewrite <- insert_by_created_at_perm. now apply perm_skip.
Qed.



Lemma find_id (pk : Z) (us : list User.t) :
  (exists u, In u us /\ User.id u = pk) ->
  exists u, find (fun u => Z.eqb (User.id u) pk) us = Some u
            /\ In u us /\ User.id u = pk.
Proof.
  intros (u & Hin & E).
  destruct (find (fun u => Z.eqb (User.id u) pk) us) as [v|] eqn:F.
  - apply find_some in F. destruct F as [Hv Ev]. apply Z.eqb_eq in Ev.
    now exists v.
  - exfalso. apply (find_none _ _ F) in Hin. apply Z.eqb_neq in Hin.
    contradiction.
Qed.

(** [UserSerializer(user).data] *)
Lemma UserSerializer_data_shape u :
  UserSerializer_data u
  = Ok (VDict [ ("id"%string, VInt (User.id u));
                ("first_name"%string, VStr (User.first_name u));
                ("last_name"%string, VStr (User.last_name u));
                ("email"%string, VStr (User.email u)) ]).
Proof. reflexivity. Qed.

(** [ReviewSerializer(review).data] *)
Lemma ReviewSerializer_data_shape w r :
  ReviewSerializer_data w r
  = match find (fun u => Z.eqb (User.id u) (Review.user r)) (users w) with
    | Some u =>
        match UserSerializer_data u with
        | Ok user =>
            Ok (VDict [ ("review_id"%string, VUuid (Review.review_id r));
                        ("property"%string, VUuid (Review.property r));
                        ("user"%string, user);
                        ("rating"%string, VInt (Review.rating r));
                        ("comment"%string, VStr (Review.comment r));
                        ("created_at"%string, VInt (Review.created_at r)) ])
        | Raise e => Raise e
        end
    | None => Raise DoesNotExist
    end.
Proof.
  unfold ReviewSerializer_data, to_representation. cbn.
  destruct (find _ (users w)); reflexivity.
Qed.

(** [ListingSerializer(listing).data] *)
Lemma ListingSerializer_data_shape w l :
  ListingSerializer_data w l
  = match find (fun u => Z.eqb (User.id u) (Listing.host l)) (users w) with
    | Some u =>
        match UserSerializer_data u, get_reviews w l with
        | Ok host, Ok reviews =>
            Ok (VDict
                  [ ("listing_id"%string, VUuid (Listing.listing_id l));
                    ("host"%string, host);
                    ("title"%string, VStr (Listing.title l));
                    ("description"%string, VStr (Listing.description l));
                    ("address"%string, VStr (Listing.address l));
                    ("city"%string, VStr (Listing.city l));
                    ("country"%string, VStr (Listing.country l));
                    ("price_per_night"%string,
                     VFloat (Listing.price_per_night l));
                    ("property_type"%string, VStr (Listing.property_type l));
                    ("num_bedrooms"%string, VInt (Listing.num_bedrooms l));
                    ("num_bathrooms"%string, VInt (Listing.num_bathrooms l));
                    ("max_guests"%string, VInt (Listing.max_guests l));
                    ("amenities"%string, VStr (Listing.amenities l));
                    ("created_at"%string, VInt (Listing.created_at l));
                    ("updated_at"%string, VInt (Listing.updated_at l));
                    ("reviews"%string, reviews) ])
        | Raise e, _ => Raise e
        | _, Raise e => Raise e
        end
    | None => Raise DoesNotExist
    end.
Proof.
  unfold ListingSerializer_data, to_representation. cbn.
  destruct (find _ (users w)); [|reflexivity].
  destruct (get_reviews w l); reflexivity.
Qed.

(** [BookingSerializer(booking).data] *)
Lemma BookingSerializer_data_shape w b :
  BookingSerializer_data w b
  = match get_property w b,
          find (fun u => Z.eqb (User.id u) (Booking.user b)) (users w) with
    | Ok property, Some u =>
        match UserSerializer_data u with
        | Ok user =>
            Ok (VDict
                  [ ("booking_id"%string, VUuid (Booking.booking_id b));
                    ("property"%string, property);
                    ("user"%string, user);
                    ("check_in_date"%string, VInt (Booking.check_in_date b));
                    ("check_out_date"%string, VInt (Booking.check_out_date b));
                    ("total_price"%string, VFloat (Booking.total_price b));
                    ("status"%string, VStr (Booking.status b));
                    ("booked_at"%string, VInt (Booking.booked_at b)) ])
        | Raise e => Raise e
        end
    | Ok _, None => Raise DoesNotExist
    | Raise e, _ => Raise e
    end.
Proof.
  unfold BookingSerializer_data, to_representation. cbn.
  destruct (get_property w b); [|reflexivity].
  destruct (find _ (users w)); reflexivity.
Qed.

Lemma mapR_ok {A B} (f : A -> Result B) (xs : list A) :
  (forall x, In x xs -> exists b, f x = Ok b) ->
  exists bs, mapR f xs = Ok bs.
Proof.
  induction xs as [|x xs IH]; intros H.
  - now exists [].
  - destruct (H x (or_introl eq_refl)) as [b Hb].
    destruct IH as [bs Hbs]; [intros y Hy; apply H; now right|].
    exists (b :: bs). simpl. now rewrite Hb, Hbs.
Qed.



(* ------------------------------------------------------------------ *)
(** ** The write shapes *)

Lemma validate_fields_ext rv w m fs data data' :
  (forall f, In f fs ->
     getattr data (field_name f) = getattr data' (field_name f)) ->
  validate_fields rv w m fs data = validate_fields rv w m fs data'.
Proof.
  induction fs as [|f fs IH]; intros H; simpl; [reflexivity|].
  rewrite IH by (intros g Hg; apply H; now right).
  now rewrite (H f (or_introl eq_refl)).
Qed.

Lemma validate_fields_keys rv w m fs data :
  forall k, In k (map fst (fst (validate_fields rv w m fs data))) ->
            In k (map source fs).
Proof.
  induction fs as [|f fs IH]; intros k; simpl; [auto|].
  destruct (validate_fields rv w m fs data) as [ret errors].
  destruct (getattr data (field_name f)) as [primitive|].
  - destruct (field_run_validation rv w m f primitive); simpl.
    + intros [<-|H]; [now left | right; now apply IH].
    + intros H. right. now apply IH.
  - destruct (required f); simpl; intros H; right; now apply IH.
Qed.

Lemma to_internal_value_keys rv c w data validated_data :
  to_internal_value rv c w data = Valid validated_data ->
  forall k, In k (map fst validated_data) ->
            In k (map source (writable_fields c)).
Proof.
  unfold to_internal_value. intros H k Hk.
  apply (validate_fields_keys rv w (model (meta c)) (writable_fields c) data).
  destruct (validate_fields rv w (model (meta c)) (writable_fields c) data)
    as [ret [|e es]]; [|discriminate].
  injection H as <-. exact Hk.
Qed.

Lemma mem_string_In x xs : mem_string x xs = true <-> In x xs.
Proof.
  unfold mem_string. rewrite existsb_exists. split.
  - intros (y & Hy & E). apply String.eqb_eq in E. now subst.
  - intros H. exists x. split; [exact H | apply String.eqb_refl].
Qed.



Lemma getattr_setattr_other inst k v k' :
  k <> k' -> getattr (setattr inst k v) k' = getattr inst k'.
Proof.
  intros N. induction inst as [|[k0 x] inst IH]; simpl.
  - destruct (String.eqb_spec k k'); [contradiction | reflexivity].
  - destruct (String.eqb_spec k0 k) as [->|N0]; simpl.
    + destruct (String.eqb_spec k k'); [contradiction | reflexivity].
    + now rewrite IH.
Qed.

Lemma getattr_setattrs_other validated_data :
  forall inst k,
    ~ In k (map fst validated_data) ->
    getattr (setattrs inst validated_data) k = getattr inst k.
Proof.
  unfold setattrs.
  induction validated_data as [|[k0 v] vd IH]; intros inst k H; simpl.
  - reflexivity.
  - rewrite IH by (intros Hk; apply H; now right).
    apply getattr_setattr_other. intros ->. apply H. now left.
Qed.


Lemma forallb_In {A} (f : A -> bool) (l : list A) x :
  forallb f l = true -> In x l -> f x = true.
Proof. intros H Hx. rewrite forallb_forall in H. now apply H. Qed.

Lemma not_mem_string x xs : negb (mem_string x xs) = true -> ~ In x xs.
Proof.
  intros H Hin. apply mem_string_In in Hin. rewrite Hin in H. discriminate.
Qed.















(* ------------------------------------------------------------------ *)
(** ** The owners of the listings *)

Lemma next_user_id_fresh (us : list User.t) u :
  In u us -> User.id u < next_user_id us.
Proof.
  unfold next_user_id.
  induction us as [|v us IH]; cbn [map fold_right In]; [intros []|].
  intros [<-|H]; [lia|]. specialize (IH H). lia.
Qed.

Lemma ids_unique_add us u :
  ids_unique us -> User.id u = next_user_id us -> ids_unique (us ++ [u]).
Proof.
  unfold ids_unique. intros Hn Hid. rewrite map_app. simpl.
  apply NoDup_app; [exact Hn | constructor; [intros [] | constructor] |].
  intros a Ha [<-|[]]. apply in_map_iff in Ha.
  destruct Ha as (v & Ev & Hv). apply next_user_id_fresh in Hv. lia.
Qed.

Lemma ids_unique_filter (f : User.t -> bool) us :
  ids_unique us -> ids_unique (filter f us).
Proof.
  unfold ids_unique. induction us as [|u us IH]; simpl; [auto|].
  intros H. inversion H as [|? ? Hn Hr]; subst.
  destruct (f u); simpl; [|auto].
  constructor; [|auto]. intros Hin. apply Hn.
  apply in_map_iff in Hin. destruct Hin as (v & Ev & Hv).
  apply filter_In in Hv. apply in_map_iff. exists v. tauto.
Qed.

Lemma ids_unique_same us a b :
  ids_unique us -> In a us -> In b us -> User.id a = User.id b -> a = b.
Proof.
  unfold ids_unique. induction us as [|u us IH]; simpl; [intros _ []|].
  intros H Ha Hb E. inversion H as [|? ? Hn Hr]; subst.
  destruct Ha as [->|Ha], Hb as [->|Hb]; auto.
  - exfalso. apply Hn. rewrite E. now apply in_map.
  - exfalso. apply Hn. rewrite <- E. now apply in_map.
Qed.

(** The first loop keeps the primary keys distinct. *)
Lemma create_sample_user_loop_ids s (indices : list Z) :
  forall w,
    ids_unique (users w) ->
    ids_unique (users (snd (forM indices (create_sample_user s) w))).
Proof.
  induction indices as [|i rest IH]; intros w H; [exact H|].
  simpl. rewrite bind_run.
  pose proof (create_sample_user_run s i w) as Hi.
  destruct (create_sample_user s i w) as [[u|x] w1].
  - assert (H1 : ids_unique (users w1)).
    { destruct Hi as [_ [((U & _) & _)|((U & _) & _ & Hid)]]; rewrite U.
      - now rewrite app_nil_r.
      - now apply ids_unique_add. }
    specialize (IH w1 H1). rewrite bind_run.
    destruct (forM rest (create_sample_user s) w1) as [[us|x] w']; exact IH.
  - destruct Hi as (U & _). cbn [snd]. now rewrite U, app_nil_r.
Qed.

(** A run keeps the primary keys of the users distinct. *)
Lemma handle_ids_unique s options w :
  ids_unique (users w) -> ids_unique (users (snd (handle s options w))).
Proof.
  intros H. rewrite handle_users.
  assert (Hc : ids_unique (users (after_clear options w))).
  { destruct (after_clear_tables options w) as (U & _). cbv zeta in U.
    rewrite U. destruct (clear options); [now apply ids_unique_filter | auto]. }
  assert (Hl : ids_unique
                 (users (snd (create_sample_users s (num_users options)
                                (after_clear options w))))).
  { unfold create_sample_users. rewrite bind_run.
    unfold write at 1, modify at 1.
    apply (create_sample_user_loop_ids s (range (num_users options))
             (print _ (after_clear options w))). exact Hc. }
  destruct (seed_users_and_listings_users s options w)
    as [->|(h & -> & _ & Hid)]; [exact Hl|].
  now apply ids_unique_add.
Qed.

(** C10: the listings a run creates are the rows appended to the table, and
    each belongs to a user of the table whose role is host; when the
    primary keys of the users are distinct, as they are in a database, that
    user is the only one with the primary key the listing holds. *)
Theorem created_listings_belong_to_hosts :
  forall (s : User.Schema) (options : Options) (w : World),
    let w' := snd (handle s options w) in
    exists created,
      listings w' = (if clear options then [] else listings w) ++ created
      /\ (forall l, In l created ->
            exists u, In u (users w')
                      /\ User.id u = Listing.host l
                      /\ User.role u = "host"%string)
      /\ (ids_unique (users w) ->
          forall l u, In l created -> In u (users w') ->
                      User.id u = Listing.host l ->
                      User.role u = "host"%string).
Proof.
  intros s options w w'.
  destruct (handle_run s options w) as (us & ls & bs & rs & D & Hh & _).
  fold w' in D, Hh. destruct D as (_ & L & _).
  destruct (after_clear_tables options w) as (_ & Lc & _).
  cbv zeta in Lc. rewrite Lc in L.
  exists ls. split; [exact L|]. split; [exact Hh|].
  intros Hid l u Hl Hu E.
  destruct (Hh l Hl) as (h & Hin & Eh & Hrole).
  pose proof (handle_ids_unique s options w Hid) as Hid'. fold w' in Hid'.
  assert (u = h) by (apply (ids_unique_same (users w')); auto; congruence).
  now subst.
Qed.

(** Lines 98-131 when no user has the name or the email of the fallback
    host: the host is created, and every listing is created for it. *)
Lemma fallback_host_when_free s options w us w1 :
  create_sample_users s (num_users options) (after_clear options w)
  = (Ok us, w1) ->
  filter is_host us = [] ->
  (forall u, In u (users w1) ->
     User.username u <> "auto_host"%string
     /\ User.email u <> "auto_host@example.com"%string) ->
  exists h ls w',
    seed_users_and_listings s options w = (Ok (ls, filter is_guest us), w')
    /\ users w' = users w1 ++ [h]
    /\ User.role h = "host"%string
    /\ List.length ls = Z.to_nat (num_listings_per_host options)
    /\ (forall l, In l ls -> Listing.host l = User.id h).
Proof.
  intros Hrun Hnone Hfree.
  assert (Hf : exists h w2,
             create_fallback_host s [] w1 = (Ok [h], w2)
             /\ users w2 = users w1 ++ [h]
             /\ User.role h = "host"%string).
  { unfold create_fallback_host. rewrite bind_run.
    unfold write at 1, modify at 1. rewrite bind_run.
    unfold User_create_user. cbn [users print].
    assert (E1 : existsb (fun u => User.username u =? "auto_host")%string
                   (users w1) = false).
    { apply not_true_is_false. intros E. apply existsb_exists in E.
      destruct E as (u & Hu & E). apply String.eqb_eq in E.
      exact (proj1 (Hfree u Hu) E). }
    assert (E2 : existsb (fun u => User.email u =? "auto_host@example.com")%string
                   (users w1) = false).
    { apply not_true_is_false. intros E. apply existsb_exists in E.
      destruct E as (u & Hu & E). apply String.eqb_eq in E.
      exact (proj2 (Hfree u Hu) E). }
    rewrite E1, E2, !andb_false_r. cbn [orb].
    eexists. eexists. split; [reflexivity|]. split; reflexivity. }
  destruct Hf as (h & w2 & Hf & U2 & Hrole).
  unfold seed_users_and_listings. rewrite clear_then, bind_run, Hrun.
  cbv zeta. rewrite bind_run, Hnone, Hf, bind_run.
  destruct (create_sample_listings_run [h] (num_listings_per_host options) w2)
    as (ls & w3 & Hl & (U3 & _) & Hhost & Hlen).
  rewrite Hl. exists h, ls, w3. cbn [ret]. split; [reflexivity|].
  split; [now rewrite U3, app_nil_r, U2|]. split; [exact Hrole|].
  split; [simpl in Hlen; lia|].
  intros l Hin. destruct (Hhost l Hin) as (h' & [<-|[]] & E). exact E.
Qed.

(* ------------------------------------------------------------------ *)
(** ** The statements at concrete inputs *)

Lemma sample_world_no_dangling : no_dangling_listing sample_world.
Proof.
  split.
  - intros b [<-|[]]. exists flat. split; [now left | reflexivity].
  - intros r [<-|[]]. exists flat. split; [now left | reflexivity].
Qed.

Lemma sample_world_reviews_unique : reviews_unique (reviews sample_world).
Proof.
  intros p. unfold count_reviews. simpl.
  destruct (pair_eqb (Review.unique_together praise) p); simpl; lia.
Qed.

Lemma pair_of_fst {A B} (p : A * B) (a : A) : fst p = a -> p = (a, snd p).
Proof. destruct p. simpl. now intros ->. Qed.

(** Deleting the flat of the sample database leaves its three tables of
    listings, bookings and reviews without a row for it. *)
Lemma Listing_delete_cascades_witness :
  In flat (listings sample_world)
  /\ no_dangling_listing sample_world
  /\ fst (Listing_delete flat sample_world) = Ok tt
  /\ no_dangling_listing (snd (Listing_delete flat sample_world)).
Proof.
  pose proof (Listing_delete_cascades sample_world flat (or_introl eq_refl))
    as H. cbv zeta in H.
  split; [now left|]. split; [exact sample_world_no_dangling|].
  split; [exact (proj1 H)|].
  exact (proj2 (proj2 (proj2 (proj2 (proj2 (proj2 H)))))
           sample_world_no_dangling).
Defined.

(** With the clear flag on the sample database, the superuser stays and the
    guest goes. *)
Lemma clear_deletes_children_before_parents_witness :
  clear scenario_with_clear = true
  /\ users (snd (clear_existing_data
                   (print (NOTICE, "Starting database seeding..."%string)
                      sample_world)))
     = filter User.is_superuser (users sample_world).
Proof.
  split; [reflexivity|].
  exact (proj1 (proj2 (proj2 (proj2 (proj2
           (clear_deletes_children_before_parents User.AbstractUser
              scenario_with_clear sample_world eq_refl)))))).
Defined.

(** A run without users on empty tables has no guest, and ends normally. *)
Lemma no_guest_is_not_fatal_witness :
  fst (handle User.AbstractUser scenario_without_users
         (empty_world first_choices)) = Ok tt.
Proof.
  refine (proj1 (no_guest_is_not_fatal User.AbstractUser
                   scenario_without_users (empty_world first_choices)
                   (match fst (seed_users_and_listings User.AbstractUser
                                 scenario_without_users
                                 (empty_world first_choices)) with
                    | Ok lg => fst lg
                    | Raise _ => []
                    end) _)).
  vm_compute. reflexivity.
Defined.

(** The sample database satisfies [unique_together], and does after a run
    of the scenario. *)
Lemma one_review_per_listing_and_user_witness :
  reviews_unique (reviews sample_world)
  /\ reviews_unique
       (reviews (snd (handle User.AbstractUser scenario sample_world))).
Proof.
  split; [exact sample_world_reviews_unique|].
  exact (proj1 (proj2 (proj2 (proj2
           (one_review_per_listing_and_user User.AbstractUser scenario
              sample_world sample_world_reviews_unique))))).
Defined.

(** The claim as the specification states it fails on the sample database:
    the only guest has reviewed the flat, the turn of the loop writes no
    review, and it is not silent: it prints the warning of line 173. *)
Lemma skipped_review_prints_a_warning :
  (1 <= count_reviews (Listing.listing_id flat, User.id bob)
          (reviews sample_world))%nat
  /\ fst (create_sample_review [bob] flat sample_world) = Ok tt
  /\ reviews (snd (create_sample_review [bob] flat sample_world))
     = reviews sample_world
  /\ stdout (snd (create_sample_review [bob] flat sample_world))
     = stdout sample_world
       ++ [(WARNING,
            "User bob@example.com already reviewed Flat, skipping."%string)]
  /\ stdout (snd (create_sample_review [bob] flat sample_world))
     <> stdout sample_world.
Proof.
  split; [vm_compute; lia|].
  split; [vm_compute; reflexivity|].
  split; [vm_compute; reflexivity|].
  split; [vm_compute; reflexivity|].
  vm_compute. discriminate.
Qed.

(** After a first run of the scenario on empty tables, a second run leaves
    the table of users as it was. *)
Lemma rerun_creates_no_duplicate_user_witness :
  fst (handle User.AbstractUser scenario (empty_world first_choices)) = Ok tt
  /\ users (snd (handle User.AbstractUser scenario
                   (snd (handle User.AbstractUser scenario
                           (empty_world first_choices)))))
     = users (snd (handle User.AbstractUser scenario
                     (empty_world first_choices))).
Proof.
  assert (H : fst (handle User.AbstractUser scenario
                     (empty_world first_choices)) = Ok tt)
    by (vm_compute; reflexivity).
  split; [exact H|].
  exact (proj2 (proj2
           (proj2
              (rerun_creates_no_duplicate_user User.AbstractUser scenario
                 _ eq_refl)
              scenario (empty_world first_choices) _ (pair_of_fst _ _ H)
              eq_refl eq_refl))
           eq_refl).
Defined.



Lemma sample_world_ids_unique : ids_unique (users sample_world).
Proof.
  unfold ids_unique. simpl.
  constructor; [intros [E|[]]; discriminate|].
  constructor; [intros []|constructor].
Qed.

(** After a run of the scenario on the sample database, every user with the
    primary key a new listing holds is a host. *)
Lemma created_listings_belong_to_hosts_witness :
  ids_unique (users sample_world)
  /\ exists created,
       listings (snd (handle User.AbstractUser scenario sample_world))
       = listings sample_world ++ created
       /\ forall l u,
            In l created ->
            In u (users (snd (handle User.AbstractUser scenario
                                sample_world))) ->
            User.id u = Listing.host l -> User.role u = "host"%string.
Proof.
  split; [exact sample_world_ids_unique|].
  destruct (created_listings_belong_to_hosts User.AbstractUser scenario
              sample_world) as (created & L & _ & H).
  exists created. split; [exact L|].
  exact (H sample_world_ids_unique).
Defined.

(* ------------------------------------------------------------------ *)
(** ** The environment is only read *)

Lemma keeps_env_bind {A B} (m : M A) (k : A -> M B) :
  keeps_env m -> (forall a, keeps_env (k a)) -> keeps_env (bind m k).
Proof.
  intros Hm Hk w. rewrite bind_run. specialize (Hm w).
  destruct (m w) as [[a|e] w1]; cbn [snd] in *.
  - now rewrite (Hk a w1).
  - exact Hm.
Qed.

Lemma keeps_env_forM {A B} (xs : list A) (body : A -> M B) :
  (forall x, keeps_env (body x)) -> keeps_env (forM xs body).
Proof.
  intros Hbody. induction xs as [|x xs IH].
  - intros w. reflexivity.
  - cbn [forM]. apply keeps_env_bind; [apply Hbody|]. intros b.
    apply keeps_env_bind; [exact IH|]. intros bs w. reflexivity.
Qed.

Lemma keeps_env_write style msg : keeps_env (write style msg).
Proof. intros w. reflexivity. Qed.

Lemma keeps_env_clear_existing_data : keeps_env clear_existing_data.
Proof. intros w. reflexivity. Qed.

Lemma after_clear_env options w : env (after_clear options w) = env w.
Proof.
  unfold after_clear. destruct (clear options); [|reflexivity].
  now rewrite keeps_env_clear_existing_data.
Qed.

Lemma keeps_env_create_sample_user s i : keeps_env (create_sample_user s i).
Proof.
  intros w. unfold create_sample_user, bind, User_exists_email, gets.
  cbv zeta.
  destruct (existsb _ (users w)); cbn [negb].
  - unfold User_get_email.
    destruct (filter _ (users w)) as [|u [|u' rest]]; reflexivity.
  - unfold random_choice, next_random, bind, ret, User_create_user.
    cbv beta iota zeta.
    match goal with |- context [if ?c then _ else _] => destruct c end;
      reflexivity.
Qed.

Lemma keeps_env_create_fallback_host s hosts :
  keeps_env (create_fallback_host s hosts).
Proof.
  intros w. destruct hosts as [|h hs]; [|reflexivity].
  unfold create_fallback_host, bind, write, modify, User_create_user.
  match goal with |- context [if ?c then _ else _] => destruct c end;
    reflexivity.
Qed.

Lemma keeps_env_create_sample_listing host i :
  keeps_env (create_sample_listing host i).
Proof. intros w. reflexivity. Qed.

Lemma keeps_env_seed_users_and_listings s options :
  keeps_env (seed_users_and_listings s options).
Proof.
  intros w. unfold seed_users_and_listings. rewrite clear_then.
  rewrite <- (after_clear_env options w).
  generalize (after_clear options w). clear w.
  apply keeps_env_bind.
  { unfold create_sample_users. apply keeps_env_bind;
      [apply keeps_env_write|]. intros _. apply keeps_env_forM.
    apply keeps_env_create_sample_user. }
  intros us. cbv zeta. apply keeps_env_bind;
    [apply keeps_env_create_fallback_host|].
  intros hs. apply keeps_env_bind; [|intros ls w; reflexivity].
  unfold create_sample_listings. apply keeps_env_bind;
    [apply keeps_env_write|]. intros _.
  apply keeps_env_bind; [|intros lss w; reflexivity].
  apply keeps_env_forM. intros h. apply keeps_env_forM.
  apply keeps_env_create_sample_listing.
Qed.

(* ------------------------------------------------------------------ *)
(** ** Ranges and the choices of a rating *)

Lemma In_range (n z : Z) : 0 <= z < n -> In z (range n).
Proof.
  intros H. unfold range. apply in_map_iff. exists (Z.to_nat z).
  split; [lia|]. apply in_seq. lia.
Qed.

Lemma range_In (n z : Z) : In z (range n) -> 0 <= z < n.
Proof.
  unfold range. intros H. apply in_map_iff in H.
  destruct H as (k & <- & Hk). apply in_seq in Hk. lia.
Qed.

Lemma In_range_from (a b z : Z) : a <= z < b -> In z (range_from a b).
Proof.
  intros H. unfold range_from. apply in_map_iff. exists (z - a).
  split; [lia|]. apply In_range. lia.
Qed.

(** The values a rating may take are one to five. *)
Lemma rating_choices (z : Z) :
  In z (map fst Review_RATING_CHOICES) <-> 1 <= z <= 5.
Proof.
  unfold Review_RATING_CHOICES. rewrite map_map. cbn [fst]. rewrite map_id.
  split.
  - unfold range_from. intros H. apply in_map_iff in H.
    destruct H as (k & <- & Hk). apply range_In in Hk. lia.
  - intros H. apply In_range_from. lia.
Qed.

(* ------------------------------------------------------------------ *)
(** ** The values of the rows of one turn *)

Lemma create_sample_listing_values host i w :
  exists l w',
    create_sample_listing host i w = (Ok l, w')
    /\ sample_listing_values l.
Proof.
  eexists. eexists. split; [reflexivity|].
  unfold sample_listing_values.
  cbn [Listing.address Listing.city Listing.country Listing.property_type
       Listing.num_bedrooms Listing.num_bathrooms Listing.max_guests
       Listing.amenities].
  assert (Hm : forall (x : N) (a b : Z), a <= b ->
                 a <= a + Z.of_N x mod (b - a + 1) <= b).
  { intros x a b Hab.
    assert (0 <= Z.of_N x mod (b - a + 1) < b - a + 1)
      by (apply Z.mod_pos_bound; lia).
    lia. }
  split; [eexists; split; [|reflexivity]; apply Hm; lia|].
  split; [apply nth_In; apply choice_index_lt; simpl; lia|].
  split; [apply nth_In; apply choice_index_lt; simpl; lia|].
  split; [apply nth_In; apply choice_index_lt; simpl; lia|].
  split; [apply Hm; lia|].
  split; [apply Hm; lia|].
  split; [apply Hm; lia|].
  apply nth_In; apply choice_index_lt; simpl; lia.
Qed.

Lemma create_sample_booking_values g gs listing w :
  exists w' b,
    create_sample_booking (g :: gs) listing w = (Ok tt, w')
    /\ delta w w' [] [] [b] []
    /\ env w' = env w
    /\ sample_booking_values (env w) [listing] (g :: gs) b.
Proof.
  unfold create_sample_booking, random_choice, random_randint, bind,
    next_random, timezone_now, ret, Booking_create, uuid4, write, modify.
  cbv beta iota zeta.
  eexists. eexists. split; [reflexivity|].
  split; [apply delta_insert_booking; reflexivity|].
  split; [reflexivity|].
  unfold sample_booking_values.
  cbn [Booking.property Booking.user Booking.check_in_date
       Booking.check_out_date Booking.status Booking.booked_at
       env tick_random tick_now tick_uuid4 now_calls].
  assert (Hm : forall (x : N) (a b : Z), a <= b ->
                 a <= a + Z.of_N x mod (b - a + 1) <= b).
  { intros x a b Hab.
    assert (0 <= Z.of_N x mod (b - a + 1) < b - a + 1)
      by (apply Z.mod_pos_bound; lia).
    lia. }
  split; [exists listing; split; [now left | reflexivity]|].
  split.
  { eexists. split; [|reflexivity].
    apply nth_In. apply choice_index_lt. simpl. lia. }
  split.
  { exists (now_calls w). split; [|reflexivity].
    unfold date_add_days.
    match goal with
    | |- _ <= ?d + (1 + ?x mod ?m) - ?d <= _ =>
        assert (0 <= x mod (30 - 1 + 1) < 30 - 1 + 1)
          by (apply Z.mod_pos_bound; lia)
    end.
    lia. }
  split.
  { unfold date_add_days.
    match goal with
    | |- _ <= ?d + (2 + ?x mod ?m) - ?d <= _ =>
        assert (0 <= x mod (7 - 2 + 1) < 7 - 2 + 1)
          by (apply Z.mod_pos_bound; lia)
    end.
    lia. }
  apply nth_In. apply choice_index_lt. simpl. lia.
Qed.

Lemma create_sample_review_values g gs listing w :
  exists w' rs,
    create_sample_review (g :: gs) listing w = (Ok tt, w')
    /\ delta w w' [] [] [] rs
    /\ env w' = env w
    /\ Forall (sample_review_values [listing] (g :: gs)) rs
    /\ (List.length rs <= 1)%nat.
Proof.
  cbv beta iota zeta delta
    [create_sample_review bind random_choice next_random ret
     Review_exists gets].
  cbn [reviews tick_random].
  set (reviewer :=
         nth (N.to_nat (random_outputs (env w) (random_calls w)
                          mod N.of_nat (List.length (g :: gs))))
           (g :: gs) g).
  assert (Hin : In reviewer (g :: gs)).
  { apply nth_In. apply choice_index_lt. simpl. lia. }
  destruct (existsb
              (fun r => pair_eqb (Review.unique_together r)
                          (Listing.listing_id listing, User.id reviewer))
              (reviews w)) eqn:Ex; cbn [negb].
  - eexists. exists []. split; [reflexivity|].
    split; [now apply delta_same|]. split; [reflexivity|].
    split; [constructor | simpl; lia].
  - cbv beta iota zeta delta
      [Review_create random_randint random_choice REVIEW_COMMENTS bind
       next_random ret uuid4 timezone_now].
    cbn [reviews tick_random tick_now tick_uuid4].
    assert (Ex' := Ex).
    cbv beta iota delta [Review.unique_together Review.property Review.user]
      in Ex' |- *.
    rewrite Ex'.
    eexists. eexists [_]. split; [reflexivity|].
    split; [apply delta_insert_review; reflexivity|].
    split; [reflexivity|].
    split; [|simpl; lia].
    constructor; [|constructor].
    unfold sample_review_values.
    cbn [Review.property Review.user Review.rating Review.comment].
    split; [exists listing; split; [now left | reflexivity]|].
    split; [exists reviewer; split; [exact Hin | reflexivity]|].
    split.
    + apply rating_choices.
      match goal with
      | |- _ <= 1 + ?x mod ?m <= _ =>
          assert (0 <= x mod (5 - 1 + 1) < 5 - 1 + 1)
            by (apply Z.mod_pos_bound; lia)
      end.
      lia.
    + apply nth_In. apply choice_index_lt. simpl. lia.
Qed.

(* ------------------------------------------------------------------ *)
(** ** The rows of the loops *)

(** A loop that collects results, all of whose turns end normally. *)
Lemma forM_all {A B} (P : B -> Prop) (xs : list A) (body : A -> M B) :
  (forall x w, exists b w', body x w = (Ok b, w') /\ P b) ->
  forall w, exists bs w', forM xs body w = (Ok bs, w') /\ Forall P bs.
Proof.
  intros Hbody. induction xs as [|x xs IH]; intros w.
  - exists [], w. split; [reflexivity | constructor].
  - destruct (Hbody x w) as (b & w1 & Hrun & Hb).
    destruct (IH w1) as (bs & w' & Hloop & Hbs).
    exists (b :: bs), w'. split; [|now constructor].
    cbn [forM]. rewrite bind_run, Hrun, bind_run, Hloop. reflexivity.
Qed.

(** A loop all of whose turns end normally: the rows of its turns, under an
    invariant of the world. *)
Lemma for_each_rows {A Row} (I : World -> Prop)
    (get : World -> World -> list Row -> Prop) (P : Row -> Prop)
    (cmp : nat -> nat -> Prop) (c : nat) (xs : list A) (body : A -> M unit) :
  (forall w, get w w []) ->
  (forall a b d r1 r2, get a b r1 -> get b d r2 -> get a d (r1 ++ r2)) ->
  cmp 0%nat 0%nat ->
  (forall a b a' b', cmp a b -> cmp a' b' -> cmp (a + a')%nat (b + b')%nat) ->
  (forall x w, In x xs -> I w ->
     exists w' rows,
       body x w = (Ok tt, w') /\ I w' /\ get w w' rows /\ Forall P rows
       /\ cmp (List.length rows) c) ->
  forall w, I w ->
    exists w' rows,
      for_each xs body w = (Ok tt, w') /\ I w' /\ get w w' rows
      /\ Forall P rows
      /\ cmp (List.length rows) (List.length xs * c)%nat.
Proof.
  intros Hrefl Htrans H0 Hadd. induction xs as [|x xs IH]; intros Hbody w Hw.
  - exists w, []. split; [reflexivity|]. split; [exact Hw|].
    split; [apply Hrefl|]. split; [constructor | exact H0].
  - destruct (Hbody x w (or_introl eq_refl) Hw)
      as (w1 & r1 & Hrun & Hw1 & G1 & P1 & C1).
    destruct (IH (fun y w Hy => Hbody y w (or_intror Hy)) w1 Hw1)
      as (w' & r2 & Hloop & Hw' & G2 & P2 & C2).
    exists w', (r1 ++ r2). split; [|split; [exact Hw'|split; [|split]]].
    + cbn [for_each]. rewrite bind_run, Hrun. exact Hloop.
    + exact (Htrans _ _ _ _ _ G1 G2).
    + apply Forall_app. now split.
    + rewrite length_app. cbn [List.length Nat.mul]. now apply Hadd.
Qed.

Lemma range_length n : List.length (range n) = Z.to_nat n.
Proof. unfold range. now rewrite length_map, length_seq. Qed.

Lemma sample_booking_values_In e l ls gs b :
  In l ls -> sample_booking_values e [l] gs b ->
  sample_booking_values e ls gs b.
Proof.
  intros Hl ((x & [<-|[]] & E) & H). split; [|exact H]. now exists l.
Qed.

Lemma sample_review_values_In l ls gs r :
  In l ls -> sample_review_values [l] gs r -> sample_review_values ls gs r.
Proof.
  intros Hl ((x & [<-|[]] & E) & H). split; [|exact H]. now exists l.
Qed.

(** Lines 112-131: the values of the listings. *)
Lemma create_sample_listings_values hosts n w :
  exists ls w',
    create_sample_listings hosts n w = (Ok ls, w')
    /\ Forall sample_listing_values ls.
Proof.
  unfold create_sample_listings. rewrite bind_run.
  unfold write at 1, modify at 1. rewrite bind_run.
  destruct (forM_all (Forall sample_listing_values) hosts
              (fun host => forM (range n) (create_sample_listing host)))
    with (w := print (NOTICE, "Creating sample listings..."%string) w)
    as (lss & w' & Hrun & Hall).
  { intros h w1. apply forM_all. intros i w2.
    apply create_sample_listing_values. }
  rewrite Hrun. exists (List.concat lss), w'. split; [reflexivity|].
  now apply Forall_concat.
Qed.

(** Lines 134-152: the bookings, one per turn when there is a guest. *)
Lemma create_sample_bookings_values ls gs n w :
  exists w' bs,
    create_sample_bookings ls gs n w = (Ok tt, w')
    /\ env w' = env w
    /\ delta w w' [] [] bs []
    /\ Forall (sample_booking_values (env w) ls gs) bs
    /\ List.length bs
       = (List.length ls
          * (Z.to_nat n * match gs with [] => 0 | _ :: _ => 1 end))%nat.
Proof.
  unfold create_sample_bookings. rewrite bind_run.
  unfold write, modify.
  set (w0 := print (NOTICE, "Creating sample bookings..."%string) w).
  assert (D0 : delta w w0 [] [] [] []) by now apply delta_same.
  pose (I := fun a : World => env a = env w).
  pose (get := fun (a b : World) (bs : list Booking.t) =>
                 delta a b [] [] bs []).
  assert (Hrefl : forall a, get a a []) by (intros a; apply delta_refl).
  assert (Htrans : forall a b d r1 r2,
             get a b r1 -> get b d r2 -> get a d (r1 ++ r2)).
  { intros a b d r1 r2 D1 D2.
    exact (delta_trans _ _ _ _ _ _ _ _ _ _ _ D1 D2). }
  destruct (for_each_rows I get (sample_booking_values (env w) ls gs) eq
              (Z.to_nat n * match gs with [] => 0 | _ :: _ => 1 end)%nat ls
              (fun listing =>
                 for_each (range n)
                   (fun _ => create_sample_booking gs listing))
              Hrefl Htrans eq_refl)
    with (w := w0) as (w' & bs & Hrun & Hw' & D & P & C).
  { intros; subst; reflexivity. }
  { intros l w1 Hl Hw1. rewrite <- (range_length n).
    apply (for_each_rows I get (sample_booking_values (env w) ls gs) eq
             (match gs with [] => 0 | _ :: _ => 1 end)%nat (range n)
             (fun _ => create_sample_booking gs l) Hrefl Htrans eq_refl);
      [intros; subst; reflexivity | | exact Hw1].
    intros i w2 _ Hw2. destruct gs as [|g gs'].
    - exists (print (no_guest_for_booking l) w2), [].
      split; [reflexivity|]. split; [exact Hw2|].
      split; [now apply delta_same|]. split; [constructor | reflexivity].
    - destruct (create_sample_booking_values g gs' l w2)
        as (w3 & b & Hrun & D & E & V).
      exists w3, [b]. split; [exact Hrun|].
      split; [unfold I; now rewrite E|]. split; [exact D|].
      split; [|reflexivity]. constructor; [|constructor].
      unfold I in Hw2. rewrite <- Hw2.
      now apply sample_booking_values_In with (l := l). }
  { reflexivity. }
  exists w', bs. split; [exact Hrun|]. split; [exact Hw'|].
  split; [exact (delta_trans _ _ _ _ _ _ _ _ _ _ _ D0 D)|].
  split; [exact P | exact C].
Qed.

(** Lines 155-175: the reviews, at most one per turn. *)
Lemma create_sample_reviews_values ls gs n w :
  exists w' rs,
    create_sample_reviews ls gs n w = (Ok tt, w')
    /\ env w' = env w
    /\ delta w w' [] [] [] rs
    /\ Forall (sample_review_values ls gs) rs
    /\ (List.length rs
        <= List.length ls
           * (Z.to_nat n * match gs with [] => 0 | _ :: _ => 1 end))%nat.
Proof.
  unfold create_sample_reviews. rewrite bind_run.
  unfold write, modify.
  set (w0 := print (NOTICE, "Creating sample reviews..."%string) w).
  assert (D0 : delta w w0 [] [] [] []) by now apply delta_same.
  pose (I := fun a : World => env a = env w).
  pose (get := fun (a b : World) (rs : list Review.t) =>
                 delta a b [] [] [] rs).
  assert (Hrefl : forall a, get a a []) by (intros a; apply delta_refl).
  assert (Htrans : forall a b d r1 r2,
             get a b r1 -> get b d r2 -> get a d (r1 ++ r2)).
  { intros a b d r1 r2 D1 D2.
    exact (delta_trans _ _ _ _ _ _ _ _ _ _ _ D1 D2). }
  assert (Hadd : forall a b a' b' : nat,
             (a <= b -> a' <= b' -> a + a' <= b + b')%nat) by (intros; lia).
  destruct (for_each_rows I get (sample_review_values ls gs) le
              (Z.to_nat n * match gs with [] => 0 | _ :: _ => 1 end)%nat ls
              (fun listing =>
                 for_each (range n)
                   (fun _ => create_sample_review gs listing))
              Hrefl Htrans (le_n 0) Hadd)
    with (w := w0) as (w' & rs & Hrun & Hw' & D & P & C).
  { intros l w1 Hl Hw1. rewrite <- (range_length n).
    apply (for_each_rows I get (sample_review_values ls gs) le
             (match gs with [] => 0 | _ :: _ => 1 end)%nat (range n)
             (fun _ => create_sample_review gs l) Hrefl Htrans (le_n 0) Hadd);
      [| exact Hw1].
    intros i w2 _ Hw2. destruct gs as [|g gs'].
    - exists (print (no_guest_for_review l) w2), [].
      split; [reflexivity|]. split; [exact Hw2|].
      split; [now apply delta_same|]. split; [constructor | apply le_n].
    - destruct (create_sample_review_values g gs' l w2)
        as (w3 & rs & Hrun & D & E & V & Hlen).
      exists w3, rs. split; [exact Hrun|].
      split; [unfold I; now rewrite E|]. split; [exact D|].
      split; [|exact Hlen].
      apply Forall_forall. intros r Hr.
      apply sample_review_values_In with (l := l); [exact Hl|].
      now apply (proj1 (Forall_forall _ _) V). }
  { reflexivity. }
  exists w', rs. split; [exact Hrun|]. split; [exact Hw'|].
  split; [exact (delta_trans _ _ _ _ _ _ _ _ _ _ _ D0 D)|].
  split; [exact P | exact C].
Qed.

(* ------------------------------------------------------------------ *)
(** ** The three ways of a turn of the user loop *)

Lemma count_email_existsb e us :
  existsb (fun u => User.email u =? e)%string us
  = negb (Nat.eqb (count_email e us) 0).
Proof.
  unfold count_email. induction us as [|u us IH]; [reflexivity|].
  simpl. destruct (User.email u =? e)%string; [reflexivity | exact IH].
Qed.

(** Lines 79-90 when the email is not in the table: a role is drawn, and
    the row is inserted unless the username is taken and unique. *)
Lemma create_sample_user_new s i w :
  count_email (sample_email i) (users w) = 0%nat ->
  exists role,
    In role ["guest"; "host"]%string
    /\ let u := sample_user (next_user_id (users w)) i role in
       create_sample_user s i w
       = if User.unique_username s
            && existsb (fun x => User.username x =? "user" ++ str i)%string
                 (users w)
         then (Raise IntegrityError, tick_random w)
         else (Ok u,
               print (user_created u)
                 (log_call (Insert TUser)
                    (set_users (users w ++ [u]) (tick_random w)))).
Proof.
  intros Hc.
  assert (Ex : existsb (fun u => User.email u =? sample_email i)%string
                 (users w) = false)
    by (rewrite count_email_existsb, Hc; reflexivity).
  unfold create_sample_user, bind, User_exists_email, gets. cbv zeta.
  rewrite Ex. cbn [negb].
  unfold random_choice, next_random, bind, ret, User_create_user.
  cbv beta iota zeta. cbn [users tick_random].
  rewrite Ex, andb_false_r, orb_false_r.
  eexists. split.
  { apply nth_In. apply choice_index_lt. simpl. lia. }
  match goal with |- context [if ?c then _ else _] => destruct c end;
    reflexivity.
Qed.

(** Lines 91-92 when the email is in the table more than once:
    [User.objects.get] raises, and nothing is written or printed. *)
Lemma create_sample_user_twice s i w :
  (2 <= count_email (sample_email i) (users w))%nat ->
  create_sample_user s i w = (Raise MultipleObjectsReturned, w).
Proof.
  intros Hc.
  assert (Ex : existsb (fun u => User.email u =? sample_email i)%string
                 (users w) = true).
  { rewrite count_email_existsb.
    destruct (count_email (sample_email i) (users w)); [lia | reflexivity]. }
  unfold create_sample_user, bind, User_exists_email, gets. cbv zeta.
  rewrite Ex. cbn [negb]. unfold User_get_email.
  unfold count_email in Hc.
  destruct (filter (fun u => User.email u =? sample_email i)%string (users w))
    as [|u [|u' rest]]; simpl in Hc; try lia.
  reflexivity.
Qed.

(** The three cases are all the cases. *)
Lemma create_sample_user_outcome s i w :
  match create_sample_user s i w with
  | (Ok u, w') =>
      (count_email (sample_email i) (users w) = 1%nat
       /\ In u (users w) /\ users w' = users w)
      \/ (count_email (sample_email i) (users w) = 0%nat
          /\ (exists role, In role ["guest"; "host"]%string
                /\ u = sample_user (next_user_id (users w)) i role)
          /\ (User.unique_username s = true ->
              ~ username_taken ("user" ++ str i)%string (users w))
          /\ users w' = users w ++ [u])
  | (Raise e, w') =>
      users w' = users w
      /\ ((e = MultipleObjectsReturned
           /\ (2 <= count_email (sample_email i) (users w))%nat)
          \/ (e = IntegrityError
              /\ count_email (sample_email i) (users w) = 0%nat
              /\ User.unique_username s = true
              /\ username_taken ("user" ++ str i)%string (users w)))
  end.
Proof.
  destruct (count_email (sample_email i) (users w)) as [|[|k]] eqn:Hc.
  - destruct (create_sample_user_new s i w Hc) as (role & Hrole & Hrun).
    cbv zeta in Hrun. rewrite Hrun.
    destruct (User.unique_username s) eqn:Hs; cbn [andb].
    + destruct (existsb _ (users w)) eqn:Ex.
      * split; [reflexivity|]. right. split; [reflexivity|].
        split; [reflexivity|]. split; [reflexivity|].
        apply existsb_exists in Ex. destruct Ex as (x & Hx & E).
        apply String.eqb_eq in E. now exists x.
      * right. split; [reflexivity|]. split; [now exists role|].
        split; [|reflexivity]. intros _ (x & Hx & E).
        assert (existsb (fun x => User.username x =? "user" ++ str i)%string
                  (users w) = true).
        { apply existsb_exists. exists x. split; [exact Hx|].
          now apply String.eqb_eq. }
        congruence.
    + right. split; [reflexivity|]. split; [now exists role|].
      split; [discriminate | reflexivity].
  - destruct (create_sample_user_reuse s i w Hc) as (u & Hrun & Hin & _).
    rewrite Hrun. left. auto.
  - rewrite create_sample_user_twice by lia.
    split; [reflexivity|]. left. split; [reflexivity | lia].
Qed.

(* ------------------------------------------------------------------ *)
(** ** The names of the sample users *)

Lemma str_inj (i j : Z) : str i = str j -> i = j.
Proof.
  unfold str. intros H.
  assert (Hn : forall z, Z.to_int z <> Decimal.Pos Decimal.Nil
                         /\ Z.to_int z <> Decimal.Neg Decimal.Nil).
  { intros z. split; intros E; pose proof (f_equal Z.of_int E) as E';
      rewrite DecimalZ.of_to in E'; cbn in E'; subst z; cbn in E;
      discriminate. }
  apply DecimalZ.to_int_inj.
  assert (E : Some (Z.to_int i) = Some (Z.to_int j)).
  { rewrite <- (NilZero.isi (Z.to_int i)) by apply Hn.
    rewrite <- (NilZero.isi (Z.to_int j)) by apply Hn.
    now rewrite H. }
  now injection E.
Qed.

Lemma sample_username_inj (i j : Z) :
  ("user" ++ str i)%string = ("user" ++ str j)%string -> i = j.
Proof.
  intros H. cbn [String.append] in H. apply str_inj. congruence.
Qed.

Lemma sample_username_not_auto_host i :
  ("user" ++ str i)%string <> "auto_host"%string.
Proof. simpl. discriminate. Qed.

Lemma count_email_In e (us : list User.t) u :
  In u us -> User.email u = e -> (1 <= count_email e us)%nat.
Proof.
  intros Hu He. unfold count_email.
  apply existsb_true_filter. apply existsb_exists. exists u.
  split; [exact Hu | now apply String.eqb_eq].
Qed.

Lemma count_email_snoc e (us : list User.t) u :
  count_email e (us ++ [u])
  = (count_email e us + if (User.email u =? e)%string then 1 else 0)%nat.
Proof.
  rewrite count_email_app. unfold count_email at 2. simpl.
  now destruct (User.email u =? e)%string.
Qed.

(* ------------------------------------------------------------------ *)
(** ** The user loop, however it ends *)

(** The rows the user loop appends are sample users of its indices. *)
Lemma create_sample_user_loop_new s (indices : list Z) :
  forall w,
    exists new,
      users (snd (forM indices (create_sample_user s) w)) = users w ++ new
      /\ Forall (fun u => exists i role,
                   In i indices /\ In role ["guest"; "host"]%string
                   /\ u = sample_user (User.id u) i role) new.
Proof.
  induction indices as [|i rest IH]; intros w.
  - exists []. split; [now rewrite app_nil_r | constructor].
  - cbn [forM]. rewrite bind_run.
    pose proof (create_sample_user_outcome s i w) as Ho.
    destruct (create_sample_user s i w) as [[u|e] w1].
    2:{ exists []. destruct Ho as (U & _). cbn [snd].
        split; [now rewrite U, app_nil_r | constructor]. }
    rewrite bind_run. destruct (IH w1) as (new & U1 & Hnew).
    assert (Hrest : Forall (fun u => exists j role,
                     In j (i :: rest) /\ In role ["guest"; "host"]%string
                     /\ u = sample_user (User.id u) j role) new).
    { apply Forall_forall. intros x Hx.
      destruct (proj1 (Forall_forall _ _) Hnew x Hx) as (j & role & Hj & H).
      exists j, role. split; [now right | exact H]. }
    assert (Hsnd : users (snd (match forM rest (create_sample_user s) w1 with
                               | (Ok bs, w2) => ret (u :: bs) w2
                               | (Raise e, w2) => (Raise e, w2)
                               end))
                   = users (snd (forM rest (create_sample_user s) w1))).
    { destruct (forM rest (create_sample_user s) w1) as [[bs|e] w2];
        reflexivity. }
    rewrite Hsnd, U1.
    destruct Ho as [(_ & _ & U)|(_ & (role & Hrole & Eu) & _ & U)].
    + exists new. split; [now rewrite U | exact Hrest].
    + exists (u :: new). split; [rewrite U, <- app_assoc; reflexivity|].
      constructor; [|exact Hrest].
      exists i, role. split; [now left|]. split; [exact Hrole|].
      rewrite Eu at 1. now rewrite Eu.
Qed.

(** When the user loop raises: a sample email was in the table twice, or a
    sample username was held by a user with another email. *)
Lemma create_sample_user_loop_raises s (indices : list Z) :
  forall w e w',
    forM indices (create_sample_user s) w = (Raise e, w') ->
    (e = MultipleObjectsReturned
     /\ exists i, In i indices
                  /\ (2 <= count_email (sample_email i) (users w))%nat)
    \/ (e = IntegrityError
        /\ User.unique_username s = true
        /\ exists i x, In i indices /\ In x (users w)
                       /\ User.username x = ("user" ++ str i)%string
                       /\ User.email x <> sample_email i).
Proof.
  induction indices as [|i rest IH]; intros w e w' Hrun.
  - discriminate.
  - cbn [forM] in Hrun. rewrite bind_run in Hrun.
    pose proof (create_sample_user_outcome s i w) as Ho.
    destruct (create_sample_user s i w) as [[u|e1] w1].
    2:{ injection Hrun as -> ->.
        destruct Ho as (_ & [(-> & Hc)|(-> & Hc & Hs & (x & Hx & En))]).
        - left. split; [reflexivity|]. exists i. split; [now left | exact Hc].
        - right. split; [reflexivity|]. split; [exact Hs|].
          exists i, x. split; [now left|]. split; [exact Hx|].
          split; [exact En|]. intros Ee.
          pose proof (count_email_In _ _ _ Hx Ee). lia. }
    rewrite bind_run in Hrun.
    destruct (forM rest (create_sample_user s) w1) as [[bs|e2] w2] eqn:Hloop;
      [discriminate|].
    injection Hrun as -> ->.
    destruct (IH w1 e w' Hloop)
      as [(-> & j & Hj & Hc)|(-> & Hs & j & x & Hj & Hx & En & Ee)].
    + left. split; [reflexivity|]. exists j. split; [now right|].
      destruct Ho as [(_ & _ & U)|(Hc0 & (role & _ & Eu) & _ & U)].
      * now rewrite <- U.
      * rewrite U, count_email_snoc in Hc.
        destruct (User.email u =? sample_email j)%string eqn:E; [|lia].
        apply String.eqb_eq in E. rewrite Eu in E.
        cbn [User.email sample_user] in E.
        rewrite <- E in Hc. lia.
    + right. split; [reflexivity|]. split; [exact Hs|].
      exists j, x. split; [now right|].
      destruct Ho as [(_ & _ & U)|(Hc0 & (role & _ & Eu) & _ & U)].
      * rewrite <- U. auto.
      * rewrite U in Hx. apply in_app_or in Hx.
        destruct Hx as [Hx|[<-|[]]]; [auto|].
        exfalso. rewrite Eu in En, Ee.
        cbn [User.username User.email sample_user] in En, Ee.
        apply sample_username_inj in En. subst j. now apply Ee.
Qed.

(** Lines 98-107 when the insert of the fallback host is refused. *)
Lemma create_fallback_host_raises s hosts w e w' :
  create_fallback_host s hosts w = (Raise e, w') ->
  e = IntegrityError
  /\ hosts = []
  /\ exists x, In x (users w)
               /\ ((User.unique_username s = true
                    /\ User.username x = "auto_host"%string)
                   \/ (User.unique_email s = true
                       /\ User.email x = "auto_host@example.com"%string)).
Proof.
  destruct hosts as [|h hs]; [|discriminate].
  unfold create_fallback_host. rewrite bind_run.
  unfold write at 1, modify at 1. rewrite bind_run.
  unfold User_create_user. cbn [users print].
  destruct (User.unique_username s
              && existsb (fun u => User.username u =? "auto_host")%string
                   (users w)) eqn:E1.
  - cbn [orb]. intros H. injection H as <- _.
    split; [reflexivity|]. split; [reflexivity|].
    apply andb_prop in E1. destruct E1 as (Hs & Ex).
    apply existsb_exists in Ex. destruct Ex as (x & Hx & E).
    apply String.eqb_eq in E. exists x. auto.
  - cbn [orb].
    destruct (User.unique_email s
                && existsb
                     (fun u => User.email u =? "auto_host@example.com")%string
                     (users w)) eqn:E2.
    + intros H. injection H as <- _.
      split; [reflexivity|]. split; [reflexivity|].
      apply andb_prop in E2. destruct E2 as (Hs & Ex).
      apply existsb_exists in Ex. destruct Ex as (x & Hx & E).
      apply String.eqb_eq in E. exists x. auto.
    + discriminate.
Qed.

(* ------------------------------------------------------------------ *)
(** ** When the command raises *)

Lemma after_clear_users options w :
  users (after_clear options w) = kept_users options w.
Proof. exact (proj1 (after_clear_tables options w)). Qed.

Lemma seed_users_and_listings_raises s options w e w' :
  seed_users_and_listings s options w = (Raise e, w') ->
  run_failure s (num_users options) (kept_users options w) e.
Proof.
  intros Hrun. rewrite <- after_clear_users.
  pose proof (seed_users_and_listings_stages s options w) as Hst.
  unfold create_sample_users in Hst. rewrite bind_run in Hst.
  unfold write at 1, modify at 1 in Hst.
  set (n := num_users options) in *.
  set (wc := after_clear options w) in *.
  set (w0 := print (NOTICE, ("Creating " ++ str n ++ " sample users...")%string)
               wc) in *.
  change (users wc) with (users w0).
  pose proof (create_sample_user_loop s (range n) w0) as Hloop.
  pose proof (create_sample_user_loop_new s (range n) w0) as Hnew.
  destruct (forM (range n) (create_sample_user s) w0) as [[us|e1] w1] eqn:Hus.
  2:{ rewrite Hrun in Hst. injection Hst as <- <-.
      destruct (create_sample_user_loop_raises s (range n) w0 e w' Hus)
        as [H|H]; [left | right; left]; exact H. }
  destruct (create_fallback_host s (filter is_host us) w1) as [[hs|e2] w2]
    eqn:Hf.
  { destruct Hst as (ls & w3 & Hst & _). rewrite Hrun in Hst. discriminate. }
  rewrite Hrun in Hst. injection Hst as <- <-.
  destruct (create_fallback_host_raises _ _ _ _ _ Hf)
    as (-> & Hnone & x & Hx & Hauto).
  right. right. split; [reflexivity|].
  destruct Hloop as (new & (U & _) & Hin & Hmap & _ & Hone).
  destruct Hnew as (new' & U' & Hsample). cbn [snd] in U'.
  split.
  - intros u i Hu Hi He Hrole.
    assert (Hy : exists y, In y us /\ User.email y = sample_email i).
    { assert (Hm : In (sample_email i) (map User.email us))
        by (rewrite Hmap; now apply in_map).
      apply in_map_iff in Hm. destruct Hm as (y & Ey & Hy). now exists y. }
    destruct Hy as (y & Hy & Ey).
    assert (y = u).
    { apply (count_email_one_unique (sample_email i) (users w1));
        auto.
      rewrite U. apply in_or_app. now left. }
    subst y.
    assert (Hh : In u (filter is_host us)).
    { apply filter_In. split; [exact Hy|]. unfold is_host.
      now apply String.eqb_eq. }
    rewrite Hnone in Hh. exact Hh.
  - exists x. split; [|exact Hauto].
    rewrite U' in Hx. apply in_app_or in Hx. destruct Hx as [Hx|Hx];
      [exact Hx|].
    exfalso.
    destruct (proj1 (Forall_forall _ _) Hsample x Hx)
      as (i & role & _ & _ & Ex).
    destruct Hauto as [(_ & E)|(_ & E)]; rewrite Ex in E;
      cbn [User.username User.email sample_user] in E.
    + exact (sample_username_not_auto_host i E).
    + exact (sample_email_not_auto_host i E).
Qed.

(** The two last loops always end normally: [handle] raises what the part
    before them raises, in the same world. *)
Lemma handle_raises s options w e w' :
  handle s options w = (Raise e, w') ->
  seed_users_and_listings s options w = (Raise e, w').
Proof.
  unfold handle. rewrite bind_run.
  destruct (seed_users_and_listings s options w) as [[lg|e1] w1];
    [|intros H; injection H as -> ->; reflexivity].
  destruct (seed_bookings_and_reviews_users options (fst lg) (snd lg) w1)
    as (w2 & Hrun & _).
  rewrite Hrun. discriminate.
Qed.

Lemma handle_result s options w :
  fst (handle s options w) = Ok tt
  \/ exists e, fst (handle s options w) = Raise e.
Proof.
  destruct (handle s options w) as [[[]|e] w']; [now left | right].
  now exists e.
Qed.

Lemma pair_of_fst_snd {A B} (p : A * B) a b :
  fst p = a -> snd p = b -> p = (a, b).
Proof. destruct p. cbn. now intros -> ->. Qed.

(* ------------------------------------------------------------------ *)
(** ** The rows of a run *)

Lemma create_fallback_host_new s hosts w :
  let w' := snd (create_fallback_host s hosts w) in
  users w' = users w
  \/ users w' = users w ++ [fallback_host (next_user_id (users w))].
Proof.
  destruct hosts as [|h hs]; [|now left].
  unfold create_fallback_host, bind, write, modify, User_create_user.
  cbv zeta.
  match goal with |- context [if ?c then _ else _] => destruct c end;
    [now left | now right].
Qed.

(** The users a run appends, however it ends. *)
Lemma seed_users_and_listings_new_users s options w :
  exists us,
    users (snd (seed_users_and_listings s options w))
    = kept_users options w ++ us
    /\ Forall (generated_user (num_users options)) us.
Proof.
  rewrite <- after_clear_users.
  unfold seed_users_and_listings. rewrite clear_then.
  generalize (after_clear options w). intros wc.
  rewrite bind_run. unfold create_sample_users. rewrite bind_run.
  unfold write at 1, modify at 1.
  set (n := num_users options).
  set (w0 := print (NOTICE, ("Creating " ++ str n ++ " sample users...")%string)
               wc).
  change (users wc) with (users w0).
  destruct (create_sample_user_loop_new s (range n) w0) as (new & U & Hnew).
  assert (Hgen : Forall (generated_user n) new).
  { apply Forall_forall. intros u Hu. left.
    exact (proj1 (Forall_forall _ _) Hnew u Hu). }
  destruct (forM (range n) (create_sample_user s) w0) as [[us|e] w1];
    cbn [snd] in U.
  2:{ exists new. split; [exact U | exact Hgen]. }
  cbv zeta. rewrite bind_run.
  pose proof (create_fallback_host_new s (filter is_host us) w1) as Hf.
  cbv zeta in Hf.
  assert (H2 : exists new2,
             users (snd (create_fallback_host s (filter is_host us) w1))
             = users w0 ++ new2
             /\ Forall (generated_user n) new2).
  { destruct Hf as [Hf|Hf]; rewrite Hf, U.
    - exists new. auto.
    - exists (new ++ [fallback_host (next_user_id (users w0 ++ new))]).
      split; [now rewrite app_assoc|].
      apply Forall_app. split; [exact Hgen|].
      constructor; [|constructor]. now right. }
  destruct (create_fallback_host s (filter is_host us) w1) as [[hs|e] w2];
    cbn [snd] in H2; [|exact H2].
  rewrite bind_run.
  destruct (create_sample_listings_run hs (num_listings_per_host options) w2)
    as (ls & w3 & Hrun & (U3 & _) & _).
  rewrite Hrun. cbn [ret snd]. rewrite U3, app_nil_r. exact H2.
Qed.

(** The values of the listings of a run. *)
Lemma seed_users_and_listings_values s options w :
  match seed_users_and_listings s options w with
  | (Ok (ls, gs), w') => Forall sample_listing_values ls
  | (Raise e, w') => True
  end.
Proof.
  unfold seed_users_and_listings. rewrite clear_then, bind_run.
  destruct (create_sample_users s (num_users options)
              (after_clear options w)) as [[us|e] w1]; [|exact I].
  cbv zeta. rewrite bind_run.
  destruct (create_fallback_host s (filter is_host us) w1) as [[hs|e] w2];
    [|exact I].
  rewrite bind_run.
  destruct (create_sample_listings_values hs (num_listings_per_host options)
              w2) as (ls & w3 & Hrun & V).
  rewrite Hrun. exact V.
Qed.

(** However [handle] ends, the rows it appended to the tables as they were
    after the clear phase, and the guests it drew from. *)
Lemma handle_rows s options w :
  let wc := after_clear options w in
  let w' := snd (handle s options w) in
  exists us ls gs bs rs,
    delta wc w' us ls bs rs
    /\ Forall (generated_user (num_users options)) us
    /\ (forall g, In g gs -> In g (users w') /\ User.role g = "guest"%string)
    /\ (forall l, In l ls -> hosted (users w') l)
    /\ Forall sample_listing_values ls
    /\ Forall (sample_booking_values (env w) ls gs) bs
    /\ Forall (sample_review_values ls gs) rs
    /\ List.length bs
       = (List.length ls
          * (Z.to_nat (num_bookings_per_listing options)
             * match gs with [] => 0 | _ :: _ => 1 end))%nat
    /\ (List.length rs
        <= List.length ls
           * (Z.to_nat (num_reviews_per_listing options)
              * match gs with [] => 0 | _ :: _ => 1 end))%nat.
Proof.
  cbv zeta.
  destruct (seed_users_and_listings_new_users s options w) as (us' & U' & G).
  rewrite <- after_clear_users, <- handle_users in U'.
  unfold handle in *. rewrite bind_run in *.
  pose proof (seed_users_and_listings_run s options w) as Hp.
  pose proof (seed_users_and_listings_values s options w) as Hv.
  pose proof (keeps_env_seed_users_and_listings s options w) as He.
  destruct (seed_users_and_listings s options w) as [[[ls gs]|e] w1].
  2:{ destruct Hp as (us & D). exists us, [], [], [], []. cbn [snd] in *.
      assert (us = us').
      { destruct D as (U & _). rewrite U in U'.
        now apply app_inv_head in U'. }
      subst us'.
      split; [exact D|]. split; [exact G|]. split; [intros ? []|].
      split; [intros ? []|]. repeat (split; [constructor|]).
      simpl. lia. }
  destruct Hp as (us & D1 & Hhost & Hguest). cbn [fst snd] in *.
  unfold seed_bookings_and_reviews in *. rewrite bind_run in *.
  destruct (create_sample_bookings_values ls gs
              (num_bookings_per_listing options) w1)
    as (w2 & bs & Hb & E2 & D2 & Vb & Cb).
  rewrite Hb in *. rewrite bind_run in *.
  destruct (create_sample_reviews_values ls gs
              (num_reviews_per_listing options) w2)
    as (w3 & rs & Hr & E3 & D3 & Vr & Cr).
  rewrite Hr in *. unfold write, modify in *. cbn [snd] in *.
  set (w4 := print _ w3) in *.
  assert (D4 : delta w3 w4 [] [] [] []) by now apply delta_same.
  pose proof (delta_trans _ _ _ _ _ _ _ _ _ _ _
                (delta_trans _ _ _ _ _ _ _ _ _ _ _
                   (delta_trans _ _ _ _ _ _ _ _ _ _ _ D1 D2) D3) D4) as D.
  rewrite !app_nil_r in D. cbn [app] in D.
  assert (us = us').
  { destruct D as (U & _). rewrite U in U'. now apply app_inv_head in U'. }
  subst us'.
  exists us, ls, gs, bs, rs. split; [exact D|]. split; [exact G|].
  assert (U : users w4 = users w1).
  { destruct D2 as (U2 & _), D3 as (U3 & _).
    change (users w4) with (users w3). now rewrite U3, U2, !app_nil_r. }
  split; [intros g Hg; rewrite U; now apply Hguest|].
  split; [intros l Hl; rewrite U; now apply Hhost|].
  split; [exact Hv|].
  split; [now rewrite <- He|].
  split; [exact Vr|].
  split; [exact Cb | exact Cr].
Qed.

Lemma after_clear_referential_integrity options w :
  referential_integrity w -> referential_integrity (after_clear options w).
Proof.
  intros (HL & HB & HR).
  destruct (after_clear_tables options w) as (U & L & B & R & _).
  cbv zeta in *. unfold referential_integrity. rewrite U, L, B, R.
  destruct (clear options).
  - split; [intros ? []|]. split; intros ? [].
  - auto.
Qed.

(** The hosts among the users the loop returns, counted in the table. *)
Lemma sample_hosts_length (table : list User.t) (indices : list Z) :
  (forall i, In i indices -> count_email (sample_email i) table = 1%nat) ->
  forall us,
    (forall u, In u us -> In u table) ->
    map User.email us = map sample_email indices ->
    List.length (filter is_host us)
    = List.length
        (filter (fun i =>
                   existsb (fun u => (User.email u =? sample_email i)%string
                                     && is_host u) table) indices).
Proof.
  induction indices as [|i rest IH]; intros Hc us Hin Hmap.
  - destruct us; [reflexivity | discriminate].
  - destruct us as [|u us]; [discriminate|].
    cbn [map] in Hmap. injection Hmap as Eu Hmap.
    cbn [filter].
    assert (E : existsb (fun x => (User.email x =? sample_email i)%string
                                  && is_host x) table = is_host u).
    { destruct (is_host u) eqn:Hh.
      - apply existsb_exists. exists u. split; [apply Hin; now left|].
        rewrite Hh, andb_true_r. now apply String.eqb_eq.
      - apply not_true_is_false. intros Ex. apply existsb_exists in Ex.
        destruct Ex as (x & Hx & Exx). apply andb_prop in Exx.
        destruct Exx as (Ex1 & Ex2). apply String.eqb_eq in Ex1.
        assert (x = u).
        { apply (count_email_one_unique (sample_email i) table); auto.
          - apply Hc. now left.
          - apply Hin. now left. }
        subst x. congruence. }
    rewrite E.
    assert (IH' := IH (fun j Hj => Hc j (or_intror Hj)) us
                     (fun x Hx => Hin x (or_intror Hx)) Hmap).
    destruct (is_host u); cbn [List.length]; now rewrite IH'.
Qed.

(** A run that ends normally: the users of the loop, and the listings. *)
Lemma handle_ok_listings s options w w' :
  handle s options w = (Ok tt, w') ->
  exists us created,
    (forall u, In u us -> In u (users w'))
    /\ map User.email us = map sample_email (range (num_users options))
    /\ (forall i, In i (range (num_users options)) ->
          count_email (sample_email i) (users w') = 1%nat)
    /\ listings w' = listings (after_clear options w) ++ created
    /\ List.length created
       = (Nat.max 1 (List.length (filter is_host us))
          * Z.to_nat (num_listings_per_host options))%nat.
Proof.
  intros H.
  assert (Hst : exists lg w3,
             seed_users_and_listings s options w = (Ok lg, w3)
             /\ users w' = users w3 /\ listings w' = listings w3).
  { unfold handle in H. rewrite bind_run in H.
    destruct (seed_users_and_listings s options w) as [[lg|e] w3];
      [|discriminate].
    destruct (seed_bookings_and_reviews_users options (fst lg) (snd lg) w3)
      as (w4 & Hrun & U & L).
    rewrite Hrun in H. injection H as <-. exists lg, w3. auto. }
  destruct Hst as (lg & w3 & Hp & U & L).
  pose proof (seed_users_and_listings_stages s options w) as Hs.
  unfold create_sample_users in Hs. rewrite bind_run in Hs.
  unfold write at 1, modify at 1 in Hs.
  set (wc := after_clear options w) in *.
  match type of Hs with
  | context [forM _ _ ?w0] =>
      pose proof (create_sample_user_loop s (range (num_users options)) w0)
        as Hl;
      destruct (forM (range (num_users options)) (create_sample_user s) w0)
        as [[us|e] w1]
  end.
  2:{ rewrite Hp in Hs. discriminate. }
  destruct Hl as (new & D1 & Hus & Hmap & _ & Hcount).
  pose proof (create_fallback_host_run s (filter is_host us) w1) as Hf.
  destruct (create_fallback_host s (filter is_host us) w1) as [[hs|e] w2].
  2:{ rewrite Hp in Hs. discriminate. }
  destruct Hs as (ls & w3' & Hp' & (U3 & L3 & _) & Hlen).
  rewrite Hp in Hp'. injection Hp' as _ <-.
  rewrite app_nil_r in U3. rewrite U, U3, L, L3.
  assert (L1 : listings w1 = listings wc).
  { destruct D1 as (_ & L1 & _). now rewrite L1, app_nil_r. }
  exists us, ls.
  destruct Hf as [(Hne & -> & ->)|(He & h & -> & _ & Hmail & Hname & _ & D2)].
  - split; [exact Hus|]. split; [exact Hmap|]. split; [exact Hcount|].
    split; [now rewrite L1|].
    rewrite Hlen. destruct (filter is_host us); [contradiction|].
    cbn [List.length]. f_equal; lia.
  - destruct D2 as (U2 & L2 & _). rewrite U2, L2, app_nil_r.
    split; [intros u Hu; apply in_or_app; left; now apply Hus|].
    split; [exact Hmap|]. split.
    + intros i Hi. rewrite count_email_app, (Hcount i Hi).
      unfold count_email. simpl.
      destruct (String.eqb_spec (User.email h) (sample_email i)) as [E|E].
      * rewrite Hmail in E. symmetry in E.
        now apply sample_email_not_auto_host in E.
      * reflexivity.
    + split; [now rewrite L1|]. rewrite Hlen, He. reflexivity.
Qed.

Lemma can_seed_not_failure s n kept e :
  can_seed s n kept -> run_failure s n kept e -> False.
Proof.
  intros (Ha & Hb & Hc) [(_ & i & Hi & H2)|[(_ & Hs & i & x & Hi & Hx & En & Ee)
                                          |(_ & Hno & x & Hx & Hauto)]].
  - specialize (Ha i Hi). lia.
  - exact (Ee (Hb Hs x i Hx Hi En)).
  - destruct Hc as [(u & i & Hu & Hi & Ee & Hr)|Hfree].
    + exact (Hno u i Hu Hi Ee Hr).
    + destruct (Hfree x Hx) as (Hn & Hm).
      destruct Hauto as [(Hs & E)|(Hs & E)];
        [exact (Hn Hs E) | exact (Hm Hs E)].
Qed.

(* ------------------------------------------------------------------ *)
(** ** More statements about the command *)

(** X1: a run without [--clear] deletes and changes no row.  Each table
    after the run is the table before it followed by the rows the run
    created; every manager call that wrote is an insert; and the users it
    created are sample users of the loop with the role guest or host, or
    the fallback host, none of them a superuser. *)
Theorem run_without_clear_only_inserts :
  forall (s : User.Schema) (options : Options) (w : World),
    clear options = false ->
    let w' := snd (handle s options w) in
    exists us ls bs rs calls,
      users w' = users w ++ us
      /\ listings w' = listings w ++ ls
      /\ bookings w' = bookings w ++ bs
      /\ reviews w' = reviews w ++ rs
      /\ orm_calls w' = orm_calls w ++ calls
      /\ forallb is_insert calls = true
      /\ (forall u, In u us ->
            generated_user (num_users options) u
            /\ User.is_superuser u = false).
Proof.
  intros s options w Hclear. cbv zeta.
  destruct (handle_rows s options w)
    as (us & ls & gs & bs & rs & (U & L & B & R & calls & C & Hins) & G & _).
  destruct (after_clear_tables options w) as (U0 & L0 & B0 & R0 & C0).
  cbv zeta in *. rewrite Hclear in *. rewrite app_nil_r in C0.
  rewrite U0 in U. rewrite L0 in L. rewrite B0 in B. rewrite R0 in R.
  rewrite C0 in C.
  exists us, ls, bs, rs, calls. repeat (split; [assumption|]).
  intros u Hu. pose proof (proj1 (Forall_forall _ _) G u Hu) as Hg.
  split; [exact Hg|].
  destruct Hg as [(i & role & _ & _ & ->)| ->]; reflexivity.
Qed.

(** X2: when a run raises, it raises in the part that creates users: a
    sample email is in the table twice ([MultipleObjectsReturned] from
    [User.objects.get]); or a sample username is held, and unique, by a user
    with another email; or no sample user is a host and the username or the
    email of the fallback host is held and unique (both [IntegrityError]).
    Nothing is rolled back: the users created before stay, and no listing,
    booking or review has been created. *)
Theorem run_raises_only_while_creating_users :
  forall (s : User.Schema) (options : Options) (w : World) (e : Exception),
    fst (handle s options w) = Raise e ->
    let w' := snd (handle s options w) in
    run_failure s (num_users options) (kept_users options w) e
    /\ (exists created, users w' = kept_users options w ++ created)
    /\ listings w' = (if clear options then [] else listings w)
    /\ bookings w' = (if clear options then [] else bookings w)
    /\ reviews w' = (if clear options then [] else reviews w).
Proof.
  intros s options w e He. cbv zeta.
  assert (Hrun : handle s options w = (Raise e, snd (handle s options w)))
    by (now apply pair_of_fst_snd).
  apply handle_raises in Hrun.
  split; [exact (seed_users_and_listings_raises _ _ _ _ _ Hrun)|].
  pose proof (seed_users_and_listings_run s options w) as Hp.
  rewrite Hrun in Hp. destruct Hp as (us & U & L & B & R & _).
  destruct (after_clear_tables options w) as (U0 & L0 & B0 & R0 & _).
  cbv zeta in *. rewrite U0 in U. rewrite L0 in L. rewrite B0 in B.
  rewrite R0 in R. rewrite app_nil_r in L, B, R. unfold kept_users.
  split; [now exists us|]. auto.
Qed.

(** X3: a run ends normally, and prints its last line, on every table
    where no sample email is held twice, a sample username (when usernames
    are unique) is only held by the user with the sample email, and either
    a user with a sample email is a host or the username and the email of
    the fallback host are free where they are unique. *)
Theorem run_succeeds_when_the_names_are_free :
  forall (s : User.Schema) (options : Options) (w : World),
    can_seed s (num_users options) (kept_users options w) ->
    fst (handle s options w) = Ok tt
    /\ exists lines,
         stdout (snd (handle s options w))
         = lines
           ++ [(SUCCESS, "Database seeding completed successfully!"%string)].
Proof.
  intros s options w Hcan.
  assert (Hok : fst (handle s options w) = Ok tt).
  { destruct (handle_result s options w) as [H|(e & H)]; [exact H|].
    exfalso. apply (can_seed_not_failure _ _ _ e Hcan).
    apply seed_users_and_listings_raises with (w' := snd (handle s options w)).
    apply handle_raises. now apply pair_of_fst_snd. }
  split; [exact Hok|].
  revert Hok. unfold handle. rewrite bind_run.
  destruct (seed_users_and_listings s options w) as [[lg|e] w1];
    [|discriminate].
  intros _. unfold seed_bookings_and_reviews. rewrite bind_run.
  destruct (create_sample_bookings_run (fst lg) (snd lg)
              (num_bookings_per_listing options) w1) as (w2 & bs & Hb & _).
  rewrite Hb, bind_run.
  destruct (create_sample_reviews_run (fst lg) (snd lg)
              (num_reviews_per_listing options) w2) as (w3 & rs & Hr & _).
  rewrite Hr. exists (stdout w3). reflexivity.
Qed.


(** X5: the number of listings of a run.  A run that ends normally
    appends [num_listings_per_host] listings (none when it is zero or
    negative) times the number of the indices of the loop whose sample email
    is the one of a host of the table, or times one, for the fallback host,
    when there is no such index. *)
Theorem listings_created_per_host :
  forall (s : User.Schema) (options : Options) (w : World),
    fst (handle s options w) = Ok tt ->
    let w' := snd (handle s options w) in
    exists created,
      listings w' = (if clear options then [] else listings w) ++ created
      /\ List.length created
         = (Nat.max 1
              (List.length (sample_hosts (num_users options) (users w')))
            * Z.to_nat (num_listings_per_host options))%nat.
Proof.
  intros s options w Hok. cbv zeta.
  assert (Hrun : handle s options w = (Ok tt, snd (handle s options w)))
    by (now apply pair_of_fst_snd).
  destruct (handle_ok_listings _ _ _ _ Hrun)
    as (us & created & Hin & Hmap & Hone & L & Hlen).
  exists created. split.
  - rewrite L. now rewrite (proj1 (proj2 (after_clear_tables options w))).
  - rewrite Hlen. unfold sample_hosts.
    now rewrite (sample_hosts_length _ _ Hone us Hin Hmap).
Qed.

(** X6: every listing a run creates has a property type of
    [Listing.PROPERTY_TYPE_CHOICES], one to five bedrooms, one to three
    bathrooms, one to ten guests, an address "<1..100> Main St", and a
    city, a country and amenities of the lists of lines 121-128. *)
Theorem created_listings_take_sample_values :
  forall (s : User.Schema) (options : Options) (w : World),
    let w' := snd (handle s options w) in
    exists created,
      listings w' = (if clear options then [] else listings w) ++ created
      /\ forall l, In l created -> sample_listing_values l.
Proof.
  intros s options w. cbv zeta.
  destruct (handle_rows s options w)
    as (us & ls & gs & bs & rs & (_ & L & _) & _ & _ & _ & V & _).
  exists ls. split.
  - rewrite L. now rewrite (proj1 (proj2 (after_clear_tables options w))).
  - now apply Forall_forall.
Qed.


(** X8: every review a run creates is for a listing this run created and
    by a user of the table whose role is guest; its rating is one of the
    choices of [Review.rating] (one to five) and its comment one of the five
    of lines 166-169.  The number of reviews of the run is at most
    [num_reviews_per_listing] times the number of listings it created, and
    zero without a guest. *)
Theorem created_reviews_take_sample_values :
  forall (s : User.Schema) (options : Options) (w : World),
    let w' := snd (handle s options w) in
    exists listings_created guests created,
      listings w' = (if clear options then [] else listings w)
                    ++ listings_created
      /\ (forall g, In g guests ->
            In g (users w') /\ User.role g = "guest"%string)
      /\ reviews w' = (if clear options then [] else reviews w) ++ created
      /\ (forall r, In r created ->
            sample_review_values listings_created guests r
            /\ 1 <= Review.rating r <= 5)
      /\ (List.length created
          <= List.length listings_created
             * (Z.to_nat (num_reviews_per_listing options)
                * match guests with [] => 0 | _ :: _ => 1 end))%nat.
Proof.
  intros s options w. cbv zeta.
  destruct (handle_rows s options w)
    as (us & ls & gs & bs & rs & (_ & L & _ & R & _) & _ & Hg & _ & _ & _ & V
        & _ & C).
  destruct (after_clear_tables options w) as (_ & L0 & _ & R0 & _).
  cbv zeta in *. rewrite L0 in L. rewrite R0 in R.
  exists ls, gs, rs. split; [exact L|]. split; [exact Hg|].
  split; [exact R|]. split; [|exact C].
  intros r Hr. pose proof (proj1 (Forall_forall _ _) V r Hr) as Hv.
  split; [exact Hv|]. apply rating_choices. apply Hv.
Qed.

(** The rows a run appends point to rows of the tables. *)
Lemma handle_referential_integrity s options w :
  referential_integrity w ->
  referential_integrity (snd (handle s options w)).
Proof.
  intros Hw.
  apply (after_clear_referential_integrity options) in Hw.
  destruct Hw as (HL & HB & HR).
  destruct (handle_rows s options w)
    as (us & ls & gs & bs & rs & (U & L & B & R & _) & _ & Hg & Hh & _ & Vb
        & Vr & _).
  cbv zeta in *.
  set (wc := after_clear options w) in *.
  set (w' := snd (handle s options w)) in *.
  assert (Hu : forall u, In u (users wc) -> In u (users w')).
  { intros u Hu. rewrite U. apply in_or_app. now left. }
  assert (Hl : forall l, In l (listings wc) -> In l (listings w')).
  { intros l Hl. rewrite L. apply in_or_app. now left. }
  assert (Hnew : forall l, In l ls -> In l (listings w')).
  { intros l Hl'. rewrite L. apply in_or_app. now right. }
  split; [|split].
  - intros l Hin. rewrite L in Hin. apply in_app_or in Hin.
    destruct Hin as [Hin|Hin].
    + destruct (HL l Hin) as (u & Hin' & E). exists u. auto.
    + destruct (Hh l Hin) as (u & Hin' & E & _). exists u. auto.
  - intros b Hin. rewrite B in Hin. apply in_app_or in Hin.
    destruct Hin as [Hin|Hin].
    + destruct (HB b Hin) as ((l & Hl' & El) & (u & Hu' & Eu)).
      split; [exists l | exists u]; auto.
    + destruct (proj1 (Forall_forall _ _) Vb b Hin)
        as ((l & Hl' & El) & (g & Hg' & Eg) & _).
      split; [exists l | exists g]; split; auto.
      now apply Hg.
  - intros r Hin. rewrite R in Hin. apply in_app_or in Hin.
    destruct Hin as [Hin|Hin].
    + destruct (HR r Hin) as ((l & Hl' & El) & (u & Hu' & Eu)).
      split; [exists l | exists u]; auto.
    + destruct (proj1 (Forall_forall _ _) Vr r Hin)
        as ((l & Hl' & El) & (g & Hg' & Eg) & _).
      split; [exists l | exists g]; split; auto.
      now apply Hg.
Qed.

(** X9: a run keeps the foreign keys valid.  If every listing, booking
    and review of the tables points to rows of the tables before the run,
    the same holds after it, however the run ends. *)
Theorem run_keeps_referential_integrity :
  forall (s : User.Schema) (options : Options) (w : World),
    referential_integrity w ->
    referential_integrity (snd (handle s options w)).
Proof. intros s options w. apply handle_referential_integrity. Qed.

(* ------------------------------------------------------------------ *)
(** ** Deleting users *)

Lemma mem_id_In (pk : Z) (pks : list Z) : mem_id pk pks = true <-> In pk pks.
Proof.
  unfold mem_id. rewrite existsb_exists. split.
  - intros (x & Hx & E). apply Z.eqb_eq in E. now subst.
  - intros H. exists pk. split; [exact H | apply Z.eqb_refl].
Qed.

Lemma mem_id_deleted w pk :
  mem_id pk
    (map User.id (filter (fun u => negb (User.is_superuser u)) (users w)))
  = true
  <-> deleted_user w pk.
Proof.
  rewrite mem_id_In, in_map_iff. unfold deleted_user. split.
  - intros (u & E & Hu). apply filter_In in Hu. destruct Hu as (Hu & Hs).
    exists u. split; [exact Hu|]. split; [|exact E].
    now destruct (User.is_superuser u).
  - intros (u & Hu & Hs & E). exists u. split; [exact E|].
    apply filter_In. split; [exact Hu|]. now rewrite Hs.
Qed.

Lemma mem_uuid_deleted w pk :
  mem_uuid pk
    (map Listing.listing_id
       (filter (fun l =>
                  mem_id (Listing.host l)
                    (map User.id
                       (filter (fun u => negb (User.is_superuser u))
                          (users w))))
          (listings w)))
  = true
  <-> deleted_listing w pk.
Proof.
  rewrite mem_uuid_In, in_map_iff. unfold deleted_listing. split.
  - intros (l & E & Hl). apply filter_In in Hl. destruct Hl as (Hl & Hd).
    exists l. split; [exact Hl|]. split; [exact E|].
    now apply mem_id_deleted.
  - intros (l & Hl & E & Hd). exists l. split; [exact E|].
    apply filter_In. split; [exact Hl|]. now apply mem_id_deleted.
Qed.

Lemma negb_true_not (b : bool) (P : Prop) :
  (b = true <-> P) -> (negb b = true <-> ~ P).
Proof.
  intros H. destruct b; cbn; split; intros H1.
  - discriminate.
  - exfalso. apply H1. now apply H.
  - intros HP. apply H in HP. discriminate.
  - reflexivity.
Qed.

(** Line 67: the tables after
    [User.objects.filter(is_superuser=False).delete()]. *)
Lemma User_delete_not_superuser_run w :
  let pks := map User.id
               (filter (fun u => negb (User.is_superuser u)) (users w)) in
  let gone := map Listing.listing_id
                (filter (fun l => mem_id (Listing.host l) pks) (listings w)) in
  let w' := snd (User_delete_not_superuser w) in
  fst (User_delete_not_superuser w) = Ok tt
  /\ users w' = filter User.is_superuser (users w)
  /\ listings w'
     = filter (fun l => negb (mem_id (Listing.host l) pks)) (listings w)
  /\ bookings w'
     = filter (fun b => negb (mem_id (Booking.user b) pks))
         (filter (fun b => negb (mem_uuid (Booking.property b) gone))
            (bookings w))
  /\ reviews w'
     = filter (fun r => negb (mem_id (Review.user r) pks))
         (filter (fun r => negb (mem_uuid (Review.property r) gone))
            (reviews w)).
Proof.
  cbv zeta. unfold User_delete_not_superuser. rewrite bind_run.
  unfold modify at 1. unfold delete_users.
  cbv beta iota zeta delta [Listing.host_on_delete]. unfold delete_listings.
  cbv beta iota zeta delta
    [Booking.property_on_delete Review.property_on_delete
     Booking.user_on_delete Review.user_on_delete on_delete].
  unfold modify. cbv beta iota zeta.
  cbn [users listings bookings reviews log_call set_listings set_bookings
       set_reviews set_users fst snd].
  rewrite filter_negb_negb. repeat split.
Qed.

(** X10: deleting the users that are not superusers cascades along
    [Listing.host], [Booking.user] and [Review.user], and from the deleted
    listings along [Booking.property] and [Review.property].  The call ends
    normally; the superusers stay; a listing stays when its host is not
    deleted; a booking or a review stays when neither its user nor the host
    of its listing is deleted; and foreign keys that were valid are valid
    afterwards. *)
Theorem User_delete_cascades :
  forall (w : World),
    let w' := snd (User_delete_not_superuser w) in
    fst (User_delete_not_superuser w) = Ok tt
    /\ users w' = filter User.is_superuser (users w)
    /\ (forall l, In l (listings w')
                  <-> In l (listings w) /\ ~ deleted_user w (Listing.host l))
    /\ (forall b, In b (bookings w')
                  <-> In b (bookings w)
                      /\ ~ deleted_user w (Booking.user b)
                      /\ ~ deleted_listing w (Booking.property b))
    /\ (forall r, In r (reviews w')
                  <-> In r (reviews w)
                      /\ ~ deleted_user w (Review.user r)
                      /\ ~ deleted_listing w (Review.property r))
    /\ (referential_integrity w -> referential_integrity w').
Proof.
  intros w. cbv zeta.
  destruct (User_delete_not_superuser_run w) as (Hok & U & L & B & R).
  cbv zeta in *.
  set (w' := snd (User_delete_not_superuser w)) in *.
  assert (HL : forall l, In l (listings w')
                         <-> In l (listings w)
                             /\ ~ deleted_user w (Listing.host l)).
  { intros l. rewrite L, filter_In.
    now rewrite (negb_true_not _ _ (mem_id_deleted w (Listing.host l))). }
  assert (HB : forall b, In b (bookings w')
                         <-> In b (bookings w)
                             /\ ~ deleted_user w (Booking.user b)
                             /\ ~ deleted_listing w (Booking.property b)).
  { intros b. rewrite B, !filter_In.
    rewrite (negb_true_not _ _ (mem_id_deleted w (Booking.user b))).
    rewrite (negb_true_not _ _ (mem_uuid_deleted w (Booking.property b))).
    tauto. }
  assert (HR : forall r, In r (reviews w')
                         <-> In r (reviews w)
                             /\ ~ deleted_user w (Review.user r)
                             /\ ~ deleted_listing w (Review.property r)).
  { intros r. rewrite R, !filter_In.
    rewrite (negb_true_not _ _ (mem_id_deleted w (Review.user r))).
    rewrite (negb_true_not _ _ (mem_uuid_deleted w (Review.property r))).
    tauto. }
  split; [exact Hok|]. split; [exact U|]. split; [exact HL|].
  split; [exact HB|]. split; [exact HR|].
  intros (IL & IB & IR).
  assert (Hkeep : forall pk, ~ deleted_user w pk ->
                    (exists u, In u (users w) /\ User.id u = pk) ->
                    exists u, In u (users w') /\ User.id u = pk).
  { intros pk Hn (u & Hu & E). exists u. split; [|exact E].
    rewrite U. apply filter_In. split; [exact Hu|].
    destruct (User.is_superuser u) eqn:Hs; [reflexivity|].
    exfalso. apply Hn. now exists u. }
  assert (Hkeepl : forall pk, ~ deleted_listing w pk ->
                     (exists l, In l (listings w)
                                /\ Listing.listing_id l = pk) ->
                     exists l, In l (listings w')
                               /\ Listing.listing_id l = pk).
  { intros pk Hn (l & Hl & E). exists l. split; [|exact E].
    apply HL. split; [exact Hl|]. intros Hd. apply Hn. now exists l. }
  split; [|split].
  - intros l Hl. apply HL in Hl. destruct Hl as (Hl & Hn).
    apply Hkeep; auto.
  - intros b Hb. apply HB in Hb. destruct Hb as (Hb & Hu & Hl).
    destruct (IB b Hb) as (H1 & H2). split; auto.
  - intros r Hr. apply HR in Hr. destruct Hr as (Hr & Hu & Hl).
    destruct (IR r Hr) as (H1 & H2). split; auto.
Qed.

(* ------------------------------------------------------------------ *)
(** ** What [to_internal_value] keeps and what it rejects *)

(** The field is in error for the payload. *)
Lemma validate_fields_errors rv w m fs data :
  snd (validate_fields rv w m fs data)
  = map field_name
      (filter (fun f =>
                 match getattr data (field_name f) with
                 | None => required f
                 | Some primitive =>
                     match field_run_validation rv w m f primitive with
                     | Some _ => false
                     | None => true
                     end
                 end) fs).
Proof.
  induction fs as [|f fs IH]; [reflexivity|].
  cbn [validate_fields filter].
  destruct (validate_fields rv w m fs data) as [ret errors].
  cbn [snd] in IH.
  destruct (getattr data (field_name f)) as [primitive|].
  - destruct (field_run_validation rv w m f primitive); cbn [snd map];
      now rewrite IH.
  - destruct (required f); cbn [snd map]; now rewrite IH.
Qed.

(** A validated attribute comes from a field of the payload that passed
    its validation. *)
Lemma validate_fields_In rv w m fs data k v :
  In (k, v) (fst (validate_fields rv w m fs data)) ->
  exists f primitive,
    In f fs /\ k = source f
    /\ getattr data (field_name f) = Some primitive
    /\ field_run_validation rv w m f primitive = Some v.
Proof.
  induction fs as [|f fs IH]; [intros []|].
  cbn [validate_fields].
  destruct (validate_fields rv w m fs data) as [ret errors].
  cbn [fst] in IH.
  assert (Hrest : In (k, v) ret ->
                  exists g primitive,
                    In g (f :: fs) /\ k = source g
                    /\ getattr data (field_name g) = Some primitive
                    /\ field_run_validation rv w m g primitive = Some v).
  { intros H. destruct (IH H) as (g & p & Hg & Hk).
    exists g, p. split; [now right | exact Hk]. }
  destruct (getattr data (field_name f)) as [primitive|] eqn:G.
  - destruct (field_run_validation rv w m f primitive) as [v'|] eqn:V;
      cbn [fst]; [|exact Hrest].
    intros [E|H]; [|now apply Hrest].
    injection E as <- <-. exists f, primitive.
    split; [now left|]. auto.
  - destruct (required f); cbn [fst]; exact Hrest.
Qed.



Lemma to_internal_value_Valid rv c w data vd :
  to_internal_value rv c w data = Valid vd ->
  validate_fields rv w (model (meta c)) (writable_fields c) data = (vd, []).
Proof.
  unfold to_internal_value.
  destruct (validate_fields rv w (model (meta c)) (writable_fields c) data)
    as [ret [|e es]]; [|discriminate].
  now intros [= ->].
Qed.

Lemma to_internal_value_Invalid rv c w data errors :
  to_internal_value rv c w data = Invalid errors ->
  errors <> []
  /\ snd (validate_fields rv w (model (meta c)) (writable_fields c) data)
     = errors.
Proof.
  unfold to_internal_value.
  destruct (validate_fields rv w (model (meta c)) (writable_fields c) data)
    as [ret [|e es]]; [discriminate|].
  intros [= <-]. split; [discriminate | reflexivity].
Qed.

Lemma to_internal_value_errors rv c w data :
  match snd (validate_fields rv w (model (meta c)) (writable_fields c) data)
  with
  | [] => exists vd, to_internal_value rv c w data = Valid vd
  | e :: es => to_internal_value rv c w data = Invalid (e :: es)
  end.
Proof.
  unfold to_internal_value.
  destruct (validate_fields rv w (model (meta c)) (writable_fields c) data)
    as [ret [|e es]]; cbn [snd]; [now exists ret | reflexivity].
Qed.

Lemma validate_fields_empty rv w m fs :
  validate_fields rv w m fs []
  = ([], map field_name (filter required fs)).
Proof.
  induction fs as [|f fs IH]; [reflexivity|].
  cbn [validate_fields getattr filter]. rewrite IH.
  now destruct (required f).
Qed.

(** X11: a payload has to hold the required fields.  A required field
    that is missing is in the errors of [to_internal_value], the errors
    only name fields the serializer reads, and for the empty payload they
    are the names of all required fields.  For a listing these are the
    host, the texts but not the amenities, the price and the three counts,
    but not the property type, which has a default; for a booking the
    dates, the price and the two keys, but not the status; for a review the
    rating and the two keys, but not the comment. *)
Theorem payload_needs_the_required_fields :
  forall (run_validation : Table -> string -> value -> option value)
         (c : SerializerClass) (w : World) (data : list (string * value)),
    (forall name,
       In name (required_names c) -> getattr data name = None ->
       exists errors,
         to_internal_value run_validation c w data = Invalid errors
         /\ In name errors)
    /\ (forall errors,
          to_internal_value run_validation c w data = Invalid errors ->
          forall name, In name errors -> In name (writable_names c))
    /\ to_internal_value run_validation c w []
       = match required_names c with
         | [] => Valid []
         | e :: es => Invalid (e :: es)
         end
    /\ required_names ListingSerializer
       = [ "host_id"; "title"; "description"; "address"; "city"; "country";
           "price_per_night"; "num_bedrooms"; "num_bathrooms";
           "max_guests" ]%string
    /\ required_names BookingSerializer
       = [ "check_in_date"; "check_out_date"; "total_price"; "property_id";
           "user_id" ]%string
    /\ required_names ReviewSerializer
       = ["rating"; "property_id"; "user_id"]%string.
Proof.
  intros rv c w data. split; [|split; [|split]].
  - intros name Hname Hnone.
    pose proof (to_internal_value_errors rv c w data) as He.
    pose proof (validate_fields_errors rv w (model (meta c))
                  (writable_fields c) data) as Hs.
    assert (Hin : In name
                    (snd (validate_fields rv w (model (meta c))
                            (writable_fields c) data))).
    { rewrite Hs. unfold required_names in Hname.
      apply in_map_iff in Hname. destruct Hname as (f & <- & Hf).
      apply filter_In in Hf. destruct Hf as (Hf & Hr).
      apply in_map. apply filter_In. split; [exact Hf|].
      now rewrite Hnone. }
    destruct (snd (validate_fields rv w (model (meta c)) (writable_fields c)
                     data)) as [|e es]; [destruct Hin|].
    now exists (e :: es).
  - intros errors Hinv name Hname.
    apply to_internal_value_Invalid in Hinv. destruct Hinv as (_ & <-).
    rewrite validate_fields_errors in Hname.
    apply in_map_iff in Hname. destruct Hname as (f & <- & Hf).
    apply filter_In in Hf. unfold writable_names. apply in_map. apply Hf.
  - unfold to_internal_value. rewrite validate_fields_empty.
    reflexivity.
  - repeat apply conj; vm_compute; reflexivity.
Qed.

(* ------------------------------------------------------------------ *)
(** ** The keys a payload may hold *)

Lemma model_serializers_keys c :
  In c model_serializers ->
  forallb (fun f =>
             (reads_user_key f
              || negb (mem_string (source f) ["host"; "user"]%string))
             && (reads_listing_key f || negb (source f =? "property")%string)
             && (negb (mem_string (field_name f) ["host_id"; "user_id"]%string)
                 || reads_user_key f)
             && (negb (field_name f =? "property_id")%string
                 || reads_listing_key f))
    (writable_fields c) = true.
Proof.
  intros [<-|[<-|[<-|[]]]]; vm_compute; reflexivity.
Qed.

Lemma reads_user_key_validated rv w m f primitive v :
  reads_user_key f = true ->
  field_run_validation rv w m f primitive = Some v ->
  exists u, In u (users w) /\ v = VInt (User.id u).
Proof.
  unfold reads_user_key, field_run_validation.
  destruct (field_class f) as [|[| | |]| |]; try discriminate.
  intros _. destruct primitive as [| |pk| | | | |]; try discriminate.
  destruct (mem_id pk (map User.id (users w))) eqn:E; [|discriminate].
  intros [= <-]. apply mem_id_In in E. apply in_map_iff in E.
  destruct E as (u & <- & Hu). now exists u.
Qed.

Lemma reads_listing_key_validated rv w m f primitive v :
  reads_listing_key f = true ->
  field_run_validation rv w m f primitive = Some v ->
  exists l, In l (listings w) /\ v = VUuid (Listing.listing_id l).
Proof.
  unfold reads_listing_key, field_run_validation.
  destruct (field_class f) as [|[| | |]| |]; try discriminate.
  intros _. destruct primitive as [| | | | |pk| |]; try discriminate.
  destruct (mem_uuid pk (map Listing.listing_id (listings w))) eqn:E;
    [|discriminate].
  intros [= <-]. apply mem_uuid_In in E. apply in_map_iff in E.
  destruct E as (l & <- & Hl). now exists l.
Qed.

Lemma field_in_error rv c w data f :
  In f (writable_fields c) ->
  match getattr data (field_name f) with
  | None => required f
  | Some primitive =>
      match field_run_validation rv w (model (meta c)) f primitive with
      | Some _ => false
      | None => true
      end
  end = true ->
  exists errors,
    to_internal_value rv c w data = Invalid errors
    /\ In (field_name f) errors.
Proof.
  intros Hf Hbad.
  pose proof (to_internal_value_errors rv c w data) as He.
  assert (Hin : In (field_name f)
                  (snd (validate_fields rv w (model (meta c))
                          (writable_fields c) data))).
  { rewrite validate_fields_errors. apply in_map. apply filter_In.
    now split. }
  destruct (snd (validate_fields rv w (model (meta c)) (writable_fields c)
                   data)) as [|e es]; [destruct Hin|].
  now exists (e :: es).
Qed.

(** X12: the keys of a validated payload point to rows.  What
    [to_internal_value] returns under [host] or [user] is the primary key
    of a user of the table, and under [property] the primary key of a
    listing; and for a payload whose [host_id] or [user_id] is the key of
    no user, or whose [property_id] is the key of no listing, it returns
    errors, with that name among them. *)
Theorem validated_keys_point_to_rows :
  forall (run_validation : Table -> string -> value -> option value)
         (c : SerializerClass) (w : World) (data : list (string * value)),
    In c model_serializers ->
    (forall validated_data k v,
       to_internal_value run_validation c w data = Valid validated_data ->
       In (k, v) validated_data ->
       (k = "host"%string \/ k = "user"%string ->
        exists u, In u (users w) /\ v = VInt (User.id u))
       /\ (k = "property"%string ->
           exists l, In l (listings w)
                     /\ v = VUuid (Listing.listing_id l)))
    /\ (forall name pk,
          name = "host_id"%string \/ name = "user_id"%string ->
          In name (writable_names c) ->
          getattr data name = Some (VInt pk) ->
          (forall u, In u (users w) -> User.id u <> pk) ->
          exists errors,
            to_internal_value run_validation c w data = Invalid errors
            /\ In name errors)
    /\ (forall pk,
          In "property_id"%string (writable_names c) ->
          getattr data "property_id" = Some (VUuid pk) ->
          (forall l, In l (listings w) -> Listing.listing_id l <> pk) ->
          exists errors,
            to_internal_value run_validation c w data = Invalid errors
            /\ In "property_id"%string errors).
Proof.
  intros rv c w data Hc.
  pose proof (model_serializers_keys c Hc) as Hkeys.
  assert (Hfield : forall f, In f (writable_fields c) ->
             (reads_user_key f = true
              \/ ~ In (source f) ["host"; "user"]%string)
             /\ (reads_listing_key f = true \/ source f <> "property"%string)
             /\ (In (field_name f) ["host_id"; "user_id"]%string ->
                 reads_user_key f = true)
             /\ (field_name f = "property_id"%string ->
                 reads_listing_key f = true)).
  { intros f Hf. pose proof (forallb_In _ _ f Hkeys Hf) as H.
    cbv beta in H. apply andb_prop in H. destruct H as (H & H4).
    apply andb_prop in H. destruct H as (H & H3).
    apply andb_prop in H. destruct H as (H1 & H2).
    split; [|split; [|split]].
    - destruct (reads_user_key f); [now left | right].
      now apply not_mem_string.
    - destruct (reads_listing_key f); [now left | right].
      cbn in H2. intros E. rewrite E in H2. discriminate.
    - intros Hin. apply mem_string_In in Hin. rewrite Hin in H3.
      exact H3.
    - intros E. rewrite E in H4. exact H4. }
  split; [|split].
  - intros vd k v Hv Hin. apply to_internal_value_Valid in Hv.
    assert (Hin' : In (k, v)
                     (fst (validate_fields rv w (model (meta c))
                             (writable_fields c) data)))
      by (now rewrite Hv).
    apply validate_fields_In in Hin'.
    destruct Hin' as (f & p & Hf & -> & _ & Hp).
    destruct (Hfield f Hf) as (Hu & Hl & _). split.
    + intros Hk. destruct Hu as [Hu|Hu].
      * exact (reads_user_key_validated _ _ _ _ _ _ Hu Hp).
      * exfalso. apply Hu. destruct Hk as [-> | ->]; simpl; auto.
    + intros Hk. destruct Hl as [Hl|Hl]; [|contradiction].
      exact (reads_listing_key_validated _ _ _ _ _ _ Hl Hp).
  - intros name pk Hname Hw Hget Hnone.
    unfold writable_names in Hw. apply in_map_iff in Hw.
    destruct Hw as (f & <- & Hf).
    apply (field_in_error rv c w data f Hf). rewrite Hget.
    destruct (Hfield f Hf) as (_ & _ & Hu & _).
    assert (Hk : reads_user_key f = true)
      by (apply Hu; destruct Hname as [E|E]; rewrite E; simpl; auto).
    unfold reads_user_key in Hk. unfold field_run_validation.
    destruct (field_class f) as [|[| | |]| |]; try discriminate.
    destruct (mem_id pk (map User.id (users w))) eqn:E; [|reflexivity].
    apply mem_id_In in E. apply in_map_iff in E.
    destruct E as (u & E & Hu'). exfalso. exact (Hnone u Hu' E).
  - intros pk Hw Hget Hnone.
    unfold writable_names in Hw. apply in_map_iff in Hw.
    destruct Hw as (f & Ef & Hf). rewrite <- Ef in Hget |- *.
    apply (field_in_error rv c w data f Hf). rewrite Hget.
    destruct (Hfield f Hf) as (_ & _ & _ & Hl).
    assert (Hk : reads_listing_key f = true) by (now apply Hl).
    unfold reads_listing_key in Hk. unfold field_run_validation.
    destruct (field_class f) as [|[| | |]| |]; try discriminate.
    destruct (mem_uuid pk (map Listing.listing_id (listings w))) eqn:E;
      [|reflexivity].
    apply mem_uuid_In in E. apply in_map_iff in E.
    destruct E as (l & E & Hl'). exfalso. exact (Hnone l Hl' E).
Qed.

(* ------------------------------------------------------------------ *)
(** ** What [create] and [update] store *)











(* ------------------------------------------------------------------ *)
(** ** More read shapes *)

Lemma find_listing (pk : UUID) (ls : list Listing.t) :
  (exists l, In l ls /\ Listing.listing_id l = pk) ->
  exists l, find (fun l => N.eqb (Listing.listing_id l) pk) ls = Some l
            /\ In l ls /\ Listing.listing_id l = pk.
Proof.
  intros (l & Hin & E).
  destruct (find (fun l => N.eqb (Listing.listing_id l) pk) ls) as [v|] eqn:F.
  - apply find_some in F. destruct F as [Hv Ev]. apply N.eqb_eq in Ev.
    now exists v.
  - exfalso. apply (find_none _ _ F) in Hin. apply N.eqb_neq in Hin.
    contradiction.
Qed.





(** X17: [UserSerializer] reads and writes a reduced user.  Its read
    shape is always defined and holds the identifier, the two names and the
    email, and nothing of the username, the role or the superuser flag.  A
    payload is read for the two names only: what [to_internal_value]
    returns does not depend on what the payload holds under other names,
    such as [id] and [email], the validated data holds no other key, and an
    update with it leaves the identifier and the email as they were. *)
Theorem user_serializer_reads_and_writes_a_reduced_user :
  forall (run_validation : Table -> string -> value -> option value)
         (w : World) (data : list (string * value)),
    (forall u, UserSerializer_data u = Ok (reduced_user u))
    /\ writable_names UserSerializer = ["first_name"; "last_name"]%string
    /\ (forall data',
          getattr data "first_name" = getattr data' "first_name" ->
          getattr data "last_name" = getattr data' "last_name" ->
          to_internal_value run_validation UserSerializer w data
          = to_internal_value run_validation UserSerializer w data')
    /\ (forall validated_data inst w0,
          to_internal_value run_validation UserSerializer w data
          = Valid validated_data ->
          (forall k, In k (map fst validated_data) ->
                     k = "first_name"%string \/ k = "last_name"%string)
          /\ exists inst' w1,
               ModelSerializer_update UserSerializer inst validated_data w0
               = (Ok inst', w1)
               /\ getattr inst' "id" = getattr inst "id"
               /\ getattr inst' "email" = getattr inst "email").
Proof.
  intros rv w data. split; [|split; [|split]].
  - intros u. apply UserSerializer_data_shape.
  - reflexivity.
  - intros data' H1 H2. unfold to_internal_value.
    rewrite (validate_fields_ext rv w (model (meta UserSerializer))
               (writable_fields UserSerializer) data data'); [reflexivity|].
    intros f Hf.
    assert (Hn : In (field_name f) (writable_names UserSerializer))
      by (now apply in_map).
    change (writable_names UserSerializer)
      with ["first_name"; "last_name"]%string in Hn.
    destruct Hn as [<-|[<-|[]]]; assumption.
  - intros vd inst w0 Hv.
    assert (Hk : forall k, In k (map fst vd) ->
                   k = "first_name"%string \/ k = "last_name"%string).
    { intros k Hin.
      apply (to_internal_value_keys rv UserSerializer w data vd Hv) in Hin.
      change (map source (writable_fields UserSerializer))
        with ["first_name"; "last_name"]%string in Hin.
      destruct Hin as [E|[E|[]]]; auto. }
    split; [exact Hk|].
    exists (setattrs inst vd), w0. split; [reflexivity|].
    split; apply getattr_setattrs_other; intros Hin;
      destruct (Hk _ Hin); discriminate.
Qed.

(* ------------------------------------------------------------------ *)
(** ** Rendering the rows of the tables *)

(** On tables whose foreign keys are valid every row has its read shape
    and its [__str__]. *)
Lemma rows_render w :
  referential_integrity w ->
  (forall l, In l (listings w) ->
     exists shape, ListingSerializer_data w l = Ok shape)
  /\ (forall b, In b (bookings w) ->
        (exists shape, BookingSerializer_data w b = Ok shape)
        /\ exists text, Booking_str w b = Ok text)
  /\ (forall r, In r (reviews w) ->
        (exists shape, ReviewSerializer_data w r = Ok shape)
        /\ exists text, Review_str w r = Ok text).
Proof.
  intros (HL & HB & HR).
  assert (Hrev : forall r, In r (reviews w) ->
                   exists shape, ReviewSerializer_data w r = Ok shape).
  { intros r Hr. destruct (HR r Hr) as (_ & Hu).
    destruct (find_id _ _ Hu) as (u & F & _).
    rewrite ReviewSerializer_data_shape, F, UserSerializer_data_shape.
    eauto. }
  split; [|split].
  - intros l Hl. destruct (find_id _ _ (HL l Hl)) as (u & F & _).
    destruct (mapR_ok (ReviewSerializer_data w)
                (order_by_created_at_desc
                   (reviews_of w (Listing.listing_id l)))) as [data Hdata].
    { intros r Hr.
      apply (Permutation_in _
               (Permutation_sym (order_by_created_at_desc_perm _))) in Hr.
      unfold reviews_of in Hr. apply filter_In in Hr. now apply Hrev. }
    rewrite ListingSerializer_data_shape, F, UserSerializer_data_shape.
    unfold get_reviews. rewrite Hdata. eauto.
  - intros b Hb. destruct (HB b Hb) as (Hl & Hu).
    destruct (find_listing _ _ Hl) as (l & Fl & _).
    destruct (find_id _ _ Hu) as (u & Fu & _). split.
    + rewrite BookingSerializer_data_shape. unfold get_property.
      rewrite Fl, Fu, UserSerializer_data_shape. eauto.
    + unfold Booking_str, Listing_get, User_get. rewrite Fl, Fu. eauto.
  - intros r Hr. split; [now apply Hrev|].
    destruct (HR r Hr) as (Hl & Hu).
    destruct (find_listing _ _ Hl) as (l & Fl & _).
    destruct (find_id _ _ Hu) as (u & Fu & _).
    unfold Review_str, Listing_get, User_get. rewrite Fl, Fu. eauto.
Qed.

(** X18: what a run leaves can be rendered.  When the foreign keys of the
    tables are valid before a run, then after it, however it ends, every
    listing, booking and review of the tables has its read shape, and every
    booking and review its [__str__]: none raises [DoesNotExist]. *)
Theorem rows_of_a_run_render :
  forall (s : User.Schema) (options : Options) (w : World),
    referential_integrity w ->
    let w' := snd (handle s options w) in
    (forall l, In l (listings w') ->
       exists shape, ListingSerializer_data w' l = Ok shape)
    /\ (forall b, In b (bookings w') ->
          (exists shape, BookingSerializer_data w' b = Ok shape)
          /\ exists text, Booking_str w' b = Ok text)
    /\ (forall r, In r (reviews w') ->
          (exists shape, ReviewSerializer_data w' r = Ok shape)
          /\ exists text, Review_str w' r = Ok text).
Proof.
  intros s options w Hw. cbv zeta. apply rows_render.
  now apply handle_referential_integrity.
Qed.

(* ------------------------------------------------------------------ *)
(** ** [__str__] of a booking *)









(* ------------------------------------------------------------------ *)
(** ** Deleting all listings *)

Lemma filter_all {A} (l : list A) : filter (fun _ => true) l = l.
Proof.
  induction l as [|a l IH]; [reflexivity|]. cbn [filter]. now rewrite IH.
Qed.

(** X20: line 66 alone empties the three tables.  On tables where every
    booking and review points to a listing,
    [Listing.objects.all().delete()] ends normally and leaves no listing,
    no booking and no review, by the cascade of the two foreign keys to
    [Listing]; the users stay as they are.  The two deletes before it in the
    clear phase then remove nothing the cascade would not. *)
Theorem deleting_all_listings_empties_bookings_and_reviews :
  forall (w : World),
    no_dangling_listing w ->
    let w' := snd (Listing_delete_all w) in
    fst (Listing_delete_all w) = Ok tt
    /\ listings w' = []
    /\ bookings w' = []
    /\ reviews w' = []
    /\ users w' = users w.
Proof.
  intros w (HB & HR). cbv zeta.
  unfold Listing_delete_all. rewrite bind_run. unfold modify at 1.
  unfold delete_listings.
  cbv beta iota zeta delta
    [Booking.property_on_delete Review.property_on_delete on_delete].
  unfold modify. cbv beta iota zeta.
  cbn [users listings bookings reviews log_call set_listings set_bookings
       set_reviews fst snd negb].
  split; [reflexivity|]. split; [apply filter_none|].
  rewrite filter_all.
  split; [|split; [|reflexivity]].
  - apply existsb_false_filter. apply not_true_is_false. intros Ex.
    apply existsb_exists in Ex. destruct Ex as (b & Hb & E).
    destruct (HB b Hb) as (l & Hl & El).
    assert (Hm : mem_uuid (Booking.property b)
                   (map Listing.listing_id (listings w)) = true).
    { apply mem_uuid_In. rewrite <- El. now apply in_map. }
    rewrite Hm in E. discriminate.
  - apply existsb_false_filter. apply not_true_is_false. intros Ex.
    apply existsb_exists in Ex. destruct Ex as (r & Hr & E).
    destruct (HR r Hr) as (l & Hl & El).
    assert (Hm : mem_uuid (Review.property r)
                   (map Listing.listing_id (listings w)) = true).
    { apply mem_uuid_In. rewrite <- El. now apply in_map. }
    rewrite Hm in E. discriminate.
Qed.

(* ------------------------------------------------------------------ *)
(** ** Writing and reading back *)







(* ------------------------------------------------------------------ *)
(** ** More statements at concrete inputs *)

Lemma sample_world_referential_integrity : referential_integrity sample_world.
Proof.
  split; [|split].
  - intros l [<-|[]]. exists alice. split; [now left | reflexivity].
  - intros b [<-|[]]. split.
    + exists flat. split; [now left | reflexivity].
    + exists bob. split; [right; now left | reflexivity].
  - intros r [<-|[]]. split.
    + exists flat. split; [now left | reflexivity].
    + exists bob. split; [right; now left | reflexivity].
Qed.

(** A run of the scenario on the sample database keeps its two users. *)
Lemma run_without_clear_only_inserts_witness :
  clear scenario = false
  /\ exists us,
       users (snd (handle User.AbstractUser scenario sample_world))
       = users sample_world ++ us.
Proof.
  split; [reflexivity|].
  destruct (run_without_clear_only_inserts User.AbstractUser scenario
              sample_world eq_refl) as (us & _ & _ & _ & _ & U & _).
  now exists us.
Defined.

(** The second run of the scenario raises for the fallback host. *)
Lemma run_raises_only_while_creating_users_witness :
  let w1 := snd (handle User.AbstractUser scenario
                   (empty_world first_choices)) in
  fst (handle User.AbstractUser scenario w1) = Raise IntegrityError
  /\ run_failure User.AbstractUser (num_users scenario)
       (kept_users scenario w1) IntegrityError.
Proof.
  cbv zeta.
  assert (H : fst (handle User.AbstractUser scenario
                     (snd (handle User.AbstractUser scenario
                             (empty_world first_choices))))
              = Raise IntegrityError) by (vm_compute; reflexivity).
  split; [exact H|].
  exact (proj1 (run_raises_only_while_creating_users User.AbstractUser
                  scenario _ IntegrityError H)).
Defined.

Lemma can_seed_empty s n : can_seed s n [].
Proof.
  split; [intros i _; unfold count_email; simpl; lia|].
  split; [intros _ u i []|].
  right. intros u [].
Qed.

(** On empty tables every name is free, and the scenario ends normally. *)
Lemma run_succeeds_when_the_names_are_free_witness :
  can_seed User.AbstractUser (num_users scenario)
    (kept_users scenario (empty_world first_choices))
  /\ fst (handle User.AbstractUser scenario (empty_world first_choices))
     = Ok tt.
Proof.
  split; [apply can_seed_empty|].
  exact (proj1 (run_succeeds_when_the_names_are_free User.AbstractUser
                  scenario (empty_world first_choices)
                  (can_seed_empty _ _))).
Defined.

(** The scenario on empty tables draws two guests: the fallback host gets
    the one listing. *)
Lemma listings_created_per_host_witness :
  fst (handle User.AbstractUser scenario (empty_world first_choices)) = Ok tt
  /\ exists created,
       listings (snd (handle User.AbstractUser scenario
                        (empty_world first_choices)))
       = created
       /\ List.length created = 1%nat.
Proof.
  assert (H : fst (handle User.AbstractUser scenario
                     (empty_world first_choices)) = Ok tt)
    by (vm_compute; reflexivity).
  split; [exact H|].
  destruct (listings_created_per_host User.AbstractUser scenario
              (empty_world first_choices) H) as (created & L & Hlen).
  exists created. split; [exact L|]. rewrite Hlen.
  vm_compute. reflexivity.
Defined.

(** The foreign keys of the sample database are valid, and are after a run
    of the scenario. *)
Lemma run_keeps_referential_integrity_witness :
  referential_integrity sample_world
  /\ referential_integrity
       (snd (handle User.AbstractUser scenario sample_world)).
Proof.
  split; [exact sample_world_referential_integrity|].
  exact (run_keeps_referential_integrity User.AbstractUser scenario
           sample_world sample_world_referential_integrity).
Defined.

(** A listing for a host that is not in the table is rejected. *)
Lemma validated_keys_point_to_rows_witness :
  In ListingSerializer model_serializers
  /\ exists errors,
       to_internal_value accept_all ListingSerializer sample_world
         [("host_id"%string, VInt 99)]
       = Invalid errors
       /\ In "host_id"%string errors.
Proof.
  split; [now left|].
  refine (proj1 (proj2 (validated_keys_point_to_rows accept_all
                          ListingSerializer sample_world
                          [("host_id"%string, VInt 99)]
                          (or_introl eq_refl)))
            "host_id"%string 99 (or_introl eq_refl) (or_introl eq_refl)
            eq_refl _).
  intros u [<-|[<-|[]]]; discriminate.
Defined.



(** After a run of the scenario on the sample database every listing has
    its read shape. *)
Lemma rows_of_a_run_render_witness :
  referential_integrity sample_world
  /\ forall l,
       In l (listings (snd (handle User.AbstractUser scenario
                              sample_world))) ->
       exists shape,
         ListingSerializer_data
           (snd (handle User.AbstractUser scenario sample_world)) l
         = Ok shape.
Proof.
  split; [exact sample_world_referential_integrity|].
  exact (proj1 (rows_of_a_run_render User.AbstractUser scenario sample_world
                  sample_world_referential_integrity)).
Defined.


(** Deleting all listings of the sample database leaves no booking. *)
Lemma deleting_all_listings_empties_bookings_and_reviews_witness :
  no_dangling_listing sample_world
  /\ bookings (snd (Listing_delete_all sample_world)) = [].
Proof.
  split; [exact sample_world_no_dangling|].
  exact (proj1 (proj2 (proj2
           (deleting_all_listings_empties_bookings_and_reviews sample_world
              sample_world_no_dangling)))).
Defined.

